(** * Binance futures bot: order validation and multi-order sequencing

    A shallow embedding of [src/validators.py], [src/logger.py],
    [src/client.py] and the three strategies under [src/advanced/]
    ([grid_strategy.py], [twap.py], [oco.py]).

    - Python values are a small tagged union ([pyval]); a [dict] is an
      association list with string keys.
    - Python floats are IEEE binary64: the arithmetic is an interface
      ([FloatOps]) whose instance [binary64] is Rocq's primitive floats.  A
      second instance, [exact], runs the very same code over the rationals
      and tells what the formulas give without rounding.
    - Exceptions are values of [exn]; a computation returns [result A].
    - The exchange, the logger, the console and the clock are effects: a
      computation reads the history of events so far and returns its result
      together with the events it emitted ([M]).  The exchange is an
      arbitrary function of the history and the request ([Exchange]).
      Logging and printing always succeed: what raises is the
      exchange, the clock when asked to sleep too long, and Python's
      arithmetic and conversions. *)

From Stdlib Require Import ZArith List Bool String Ascii Lia.
From Stdlib Require Import Floats QArith Qcanon.
Import ListNotations.

Set Implicit Arguments.
Set Warnings "-register-all".

Local Open Scope string_scope.
Local Open Scope list_scope.
Local Open Scope Z_scope.

(** ** Results and exceptions *)

Section Model.

(** The carrier of Python's [float]. *)
Variable F : Type.

(** Python values that reach the code: arguments given by a caller (the
    command line gives strings) and the JSON values of an exchange reply. *)
Inductive pyval : Type :=
| PyNone
| PyBool (b : bool)
| PyInt (z : Z)
| PyFloat (x : F)
| PyStr (s : string)
| PyDict (d : list (string * pyval)).

Definition dict : Type := list (string * pyval).

(** The text of each [ValidationError] the code raises, by message, with the
    values the f-string interpolates ([price_type] is capitalized in the
    text). *)
Inductive validation_failure : Type :=
| SymbolNotNonEmptyString
| InvalidSymbolFormat (symbol : string)
| SymbolNotUSDT (symbol : string)
| SideNotNonEmptyString
| SideNotBuySell (side : string)
| QuantityNotNumber (quantity : pyval)
| QuantityNotPositive (qty : F)
| PriceNotNumber (price_type : string) (price : pyval)
| PriceNotPositive (price_type : string) (price_val : F)
| BuyStopBelowLimit (stop_price limit_price : F)
| SellStopAboveLimit (stop_price limit_price : F)
| NotAnInteger (name : string) (value : pyval)
| IntegerNotPositive (name : string) (int_val : Z)
| UpperNotAboveLower (upper_price lower_price : F).

(** Exceptions.  All are subclasses of Python's [Exception];
    [OtherException] stands for any class not named here (a network failure
    inside the exchange client, the plain [Exception] that
    [get_binance_client] raises). *)
Inductive exn : Type :=
| ValidationError (why : validation_failure)
| BinanceAPIException (code : Z) (message : string)
| ZeroDivisionError
| OverflowError
| ValueError
| TypeError
| KeyError (key : string)
| OtherException (description : string).

Inductive result (A : Type) : Type :=
| Ok (a : A)
| Raise (e : exn).

Arguments Ok {A} a.
Arguments Raise {A} e.

Definition rbind {A B} (r : result A) (k : A -> result B) : result B :=
  match r with
  | Ok a => k a
  | Raise e => Raise e
  end.

(** [except BinanceAPIException] *)
Definition is_binance (e : exn) : bool :=
  match e with
  | BinanceAPIException _ _ => true
  | _ => false
  end.

(** [except (ValueError, TypeError)] *)
Definition is_value_or_type_error (e : exn) : bool :=
  match e with
  | ValueError | TypeError => true
  | _ => false
  end.

Definition is_validation_error (e : exn) : bool :=
  match e with
  | ValidationError _ => true
  | _ => false
  end.

(** ** Float arithmetic as the code uses it *)

Class FloatOps : Type := {
  f_zero : F;
  f_add : F -> F -> F;
  f_sub : F -> F -> F;
  f_mul : F -> F -> F;
  f_div : F -> F -> F;
  (** [x < y], [x <= y], [x == y] *)
  f_ltb : F -> F -> bool;
  f_leb : F -> F -> bool;
  f_eqb : F -> F -> bool;
  (** [float(n)] of an [int]: [None] is Python's
      [OverflowError: int too large to convert to float]. *)
  f_of_int : Z -> option F;
  (** [int(x)] of a [float]: truncation towards zero. *)
  f_to_int : F -> result Z
}.

Context {num : FloatOps}.

(** What Python's built-ins do on a [str] is left to the runtime:
    [str.upper] (Unicode aware), [int(str)] and [float(str)] ([None] is
    [ValueError]). *)
Record PyRuntime : Type := {
  str_upper : string -> string;
  int_of_str : string -> option Z;
  float_of_str : string -> option F
}.

Variable rt : PyRuntime.

Definition py_float_of_int (n : Z) : result F :=
  match f_of_int n with
  | Some x => Ok x
  | None => Raise OverflowError
  end.

(** [x / n] for a float [x] and an int [n]: [n] is converted first, and a
    zero divisor raises ([float(n) == 0.0] exactly when [n == 0]). *)
Definition py_truediv_int (x : F) (n : Z) : result F :=
  rbind (py_float_of_int n) (fun d =>
  if n =? 0 then Raise ZeroDivisionError else Ok (f_div x d)).

(** [x * n] for a float [x] and an int [n]. *)
Definition py_mul_int (x : F) (n : Z) : result F :=
  rbind (py_float_of_int n) (fun fn => Ok (f_mul x fn)).

(** [bool(v)], what [if v:] and [not v] test. *)
Definition py_truthy (v : pyval) : bool :=
  match v with
  | PyNone => false
  | PyBool b => b
  | PyInt z => negb (z =? 0)
  | PyFloat x => negb (f_eqb x f_zero)
  | PyStr s => negb (String.eqb s "")
  | PyDict d => match d with [] => false | _ => true end
  end.

(** [float(v)] *)
Definition py_float (v : pyval) : result F :=
  match v with
  | PyNone => Raise TypeError
  | PyBool b => py_float_of_int (if b then 1 else 0)
  | PyInt z => py_float_of_int z
  | PyFloat x => Ok x
  | PyStr s => match float_of_str rt s with Some x => Ok x | None => Raise ValueError end
  | PyDict _ => Raise TypeError
  end.

(** [int(v)] *)
Definition py_int (v : pyval) : result Z :=
  match v with
  | PyNone => Raise TypeError
  | PyBool b => Ok (if b then 1 else 0)
  | PyInt z => Ok z
  | PyFloat x => f_to_int x
  | PyStr s => match int_of_str rt s with Some z => Ok z | None => Raise ValueError end
  | PyDict _ => Raise TypeError
  end.

(** [d.get(key)] and [d[key]] *)
Fixpoint dict_lookup (d : dict) (key : string) : option pyval :=
  match d with
  | [] => None
  | (k, v) :: rest => if String.eqb k key then Some v else dict_lookup rest key
  end.

Definition dict_get (d : dict) (key : string) (default : pyval) : pyval :=
  match dict_lookup d key with
  | Some v => v
  | None => default
  end.

Definition dict_item (d : dict) (key : string) : result pyval :=
  match dict_lookup d key with
  | Some v => Ok v
  | None => Raise (KeyError key)
  end.

(** [range(n)] *)
Definition range (n : Z) : list Z := map Z.of_nat (seq 0 (Z.to_nat n)).

(** ** src/validators.py *)

Definition is_upper_alnum (c : ascii) : bool :=
  let n := nat_of_ascii c in
  ((65 <=? n)%nat && (n <=? 90)%nat) || ((48 <=? n)%nat && (n <=? 57)%nat).

(** What is left of [s] after its longest prefix in [[A-Z0-9]]. *)
Fixpoint after_upper_alnum (s : string) : string :=
  match s with
  | String c rest => if is_upper_alnum c then after_upper_alnum rest else s
  | EmptyString => s
  end.

Definition newline : string := String (ascii_of_nat 10) EmptyString.

(** [re.match(r'^[A-Z0-9]+$', s)]: a non-empty run of [[A-Z0-9]] up to the
    end of the string; Python's [$] also matches before one final newline. *)
Definition re_match_upper_alnum (s : string) : bool :=
  match s with
  | String c _ =>
      is_upper_alnum c &&
      (let rest := after_upper_alnum s in
       String.eqb rest "" || String.eqb rest newline)
  | EmptyString => false
  end.

(** [s.endswith(suffix)] *)
Definition endswith (s suffix : string) : bool :=
  let n := String.length s in
  let m := String.length suffix in
  (m <=? n)%nat && String.eqb (substring (n - m) m s) suffix.

Definition validate_symbol (symbol : pyval) : result string :=
  match symbol with
  | PyStr s =>
      if negb (py_truthy symbol) then Raise (ValidationError SymbolNotNonEmptyString)
      else
        let symbol := str_upper rt s in
        if negb (re_match_upper_alnum symbol)
        then Raise (ValidationError (InvalidSymbolFormat symbol))
        else if negb (endswith symbol "USDT")
        then Raise (ValidationError (SymbolNotUSDT symbol))
        else Ok symbol
  | _ => Raise (ValidationError SymbolNotNonEmptyString)
  end.

Definition validate_side (side : pyval) : result string :=
  match side with
  | PyStr s =>
      if negb (py_truthy side) then Raise (ValidationError SideNotNonEmptyString)
      else
        let side := str_upper rt s in
        if negb (String.eqb side "BUY" || String.eqb side "SELL")
        then Raise (ValidationError (SideNotBuySell side))
        else Ok side
  | _ => Raise (ValidationError SideNotNonEmptyString)
  end.

(** [try: ... except (ValueError, TypeError): raise ValidationError(...)] *)
Definition or_validation_error {A} (r : result A) (why : validation_failure) : result A :=
  match r with
  | Ok a => Ok a
  | Raise e => if is_value_or_type_error e then Raise (ValidationError why) else Raise e
  end.

Definition validate_quantity (quantity : pyval) : result F :=
  rbind (or_validation_error (py_float quantity) (QuantityNotNumber quantity)) (fun qty =>
  if f_leb qty f_zero then Raise (ValidationError (QuantityNotPositive qty))
  else Ok qty).

Definition validate_price (price : pyval) (price_type : string) : result F :=
  rbind (or_validation_error (py_float price) (PriceNotNumber price_type price)) (fun price_val =>
  if f_leb price_val f_zero then Raise (ValidationError (PriceNotPositive price_type price_val))
  else Ok price_val).

(** [side == 'BUY'] for a value of any type. *)
Definition py_eq_str (v : pyval) (s : string) : bool :=
  match v with
  | PyStr t => String.eqb t s
  | _ => false
  end.

(** The function returns [None]; [x > y] is [y < x]. *)
Definition validate_stop_limit_prices (stop_price limit_price : F) (side : pyval) : result unit :=
  if py_eq_str side "BUY" then
    if f_ltb stop_price limit_price
    then Raise (ValidationError (BuyStopBelowLimit stop_price limit_price))
    else Ok tt
  else
    if f_ltb limit_price stop_price
    then Raise (ValidationError (SellStopAboveLimit stop_price limit_price))
    else Ok tt.

Definition validate_positive_integer (value : pyval) (name : string) : result Z :=
  rbind (or_validation_error (py_int value) (NotAnInteger name value)) (fun int_val =>
  if int_val <=? 0 then Raise (ValidationError (IntegerNotPositive name int_val))
  else Ok int_val).

(** ** Effects: the exchange, the logger, the console, the clock *)

(** The keyword arguments of [client.futures_create_order]. *)
Record order_request : Type := {
  o_symbol : string;
  o_side : string;
  o_type : string;
  o_timeInForce : option string;
  o_quantity : F;
  o_price : option F;
  o_stopPrice : option F;
  o_reduceOnly : option string
}.

(** The pieces of an f-string: literal text and interpolated values. *)
Inductive frag : Type :=
| Txt (s : string)
| Str (s : string)
| Int (z : Z)
| Num (x : F)
| Val (v : pyval)
| Err (e : exn).

Inductive level : Type := INFO | ERROR.

Inductive event : Type :=
(** [Client(api_key, api_secret, testnet=True)] then [client.futures_ping()] *)
| EvConnect (api_key api_secret : string) (reply : result unit)
(** [client.futures_symbol_ticker(symbol=symbol)] *)
| EvTicker (symbol : string) (reply : result dict)
(** [client.futures_create_order(...)] *)
| EvCreateOrder (request : order_request) (reply : result dict)
(** [time.sleep(seconds)] *)
| EvSleep (seconds : Z)
(** [logger.info(...)], [logger.error(...)] of the logger called [name] *)
| EvLog (name : string) (lvl : level) (message : list frag)
(** [print(...)] *)
| EvPrint (message : list frag).

Definition history : Type := list event.

(** The world outside: the process environment and the exchange.  A reply
    may depend on everything that happened before the call. *)
Record Exchange : Type := {
  getenv : string -> option string;
  client_connect : history -> string -> string -> result unit;
  futures_symbol_ticker : history -> string -> result dict;
  futures_create_order : history -> order_request -> result dict
}.

Variable ex : Exchange.

(** A computation: from the history so far to its result and the events it
    emitted, oldest first. *)
Definition M (A : Type) : Type := history -> result A * list event.

Definition ret {A} (a : A) : M A := fun _ => (Ok a, []).

Definition raise {A} (e : exn) : M A := fun _ => (Raise e, []).

Definition lift {A} (r : result A) : M A := fun _ => (r, []).

Definition emit (ev : event) : M unit := fun _ => (Ok tt, [ev]).

Definition bind {A B} (m : M A) (k : A -> M B) : M B := fun h =>
  match m h with
  | (Ok a, es) => let (r, es') := k a (h ++ es) in (r, es ++ es')
  | (Raise e, es) => (Raise e, es)
  end.

(** [try: body except ...: handler]; [handler e = None] when no [except]
    clause matches [e]. *)
Definition try_except {A} (body : M A) (handler : exn -> option (M A)) : M A := fun h =>
  match body h with
  | (Ok a, es) => (Ok a, es)
  | (Raise e, es) =>
      match handler e with
      | Some recover => let (r, es') := recover (h ++ es) in (r, es ++ es')
      | None => (Raise e, es)
      end
  end.

Definition outcome {A} (m : M A) (h : history) : result A := fst (m h).

Definition effects {A} (m : M A) (h : history) : list event := snd (m h).

Notation "x <- m ;; k" := (bind m (fun x => k))
  (at level 61, m at next level, right associativity).
Notation "m ;; k" := (bind m (fun _ => k))
  (at level 61, right associativity).

(** ** src/logger.py *)

Definition logger_info (name : string) (message : list frag) : M unit :=
  emit (EvLog name INFO message).

(** [exc_info=True] only adds the traceback to the line; it is not kept. *)
Definition logger_error (name : string) (message : list frag) : M unit :=
  emit (EvLog name ERROR message).

Definition print (message : list frag) : M unit := emit (EvPrint message).

(** [if price:] for an optional float: neither [None] nor zero. *)
Definition shown (label : string) (x : option F) : list frag :=
  match x with
  | Some v => if py_truthy (PyFloat v) then [Txt label; Num v] else []
  | None => []
  end.

Definition log_order (logger order_type symbol side : string) (quantity : F)
    (price stop_price : option F) (response : option dict) (error : option exn) : M unit :=
  let log_msg :=
    [Txt "Order Type: "; Str order_type; Txt " | Symbol: "; Str symbol;
     Txt " | Side: "; Str side; Txt " | Quantity: "; Num quantity] in
  let log_msg := log_msg ++ shown " | Price: " price in
  let log_msg := log_msg ++ shown " | Stop Price: " stop_price in
  match error with
  | Some e => logger_error logger (log_msg ++ [Txt " | Status: FAILED | Error: "; Err e])
  | None =>
      match response with
      | Some (item :: items) =>
          let response := item :: items in
          let order_id := dict_get response "orderId" (PyStr "N/A") in
          let status := dict_get response "status" (PyStr "N/A") in
          logger_info logger
            (log_msg ++ [Txt " | Status: "; Val status; Txt " | Order ID: "; Val order_id])
      | _ => logger_info logger log_msg
      end
  end.

(** ** src/client.py *)

Definition missing_credentials : string :=
  "Missing API credentials. Set BINANCE_API_KEY and BINANCE_API_SECRET environment variables.".

Definition client_init (api_key api_secret : string) : M unit := fun h =>
  let r := client_connect ex h api_key api_secret in (r, [EvConnect api_key api_secret r]).

(** The client is a handle without state of its own: the call returns [tt].
    [not api_key] holds of [None] and of the empty string. *)
Definition get_binance_client : M unit :=
  let no_credentials :=
    logger_error "BinanceClient" [Txt missing_credentials] ;;
    raise (OtherException missing_credentials) in
  match getenv ex "BINANCE_API_KEY", getenv ex "BINANCE_API_SECRET" with
  | Some api_key, Some api_secret =>
      if String.eqb api_key "" || String.eqb api_secret "" then no_credentials
      else
        try_except
          (client_init api_key api_secret ;;
           logger_info "BinanceClient" [Txt "Successfully connected to Binance Futures Testnet"] ;;
           ret tt)
          (fun e => Some (
             (if is_binance e
              then logger_error "BinanceClient"
                     [Txt "Binance API error during client initialization: "; Err e]
              else logger_error "BinanceClient"
                     [Txt "Error initializing Binance client: "; Err e]) ;;
             raise e))
  | _, _ => no_credentials
  end.

Definition client_futures_symbol_ticker (symbol : string) : M dict := fun h =>
  let r := futures_symbol_ticker ex h symbol in (r, [EvTicker symbol r]).

Definition client_futures_create_order (request : order_request) : M dict := fun h =>
  let r := futures_create_order ex h request in (r, [EvCreateOrder request r]).

(** [time.sleep(seconds)] of an [int]: the nanoseconds must fit in 64 bits,
    so beyond this many seconds the call raises [OverflowError]; a negative
    number raises [ValueError].  Nothing is slept then. *)
Definition sleep_limit : Z := 9223372036.

Definition sleep_error (seconds : Z) : option exn :=
  if sleep_limit <? Z.abs seconds then Some OverflowError
  else if seconds <? 0 then Some ValueError
  else None.

Definition time_sleep (seconds : Z) : M unit :=
  match sleep_error seconds with
  | Some e => raise e
  | None => emit (EvSleep seconds)
  end.

(** ** src/advanced/grid_strategy.py *)

Fixpoint map_result {A B} (f : A -> result B) (l : list A) : result (list B) :=
  match l with
  | [] => Ok []
  | a :: rest =>
      rbind (f a) (fun b => rbind (map_result f rest) (fun bs => Ok (b :: bs)))
  end.

(** [lower_price + i * price_step] *)
Definition grid_level (lower_price price_step : F) (i : Z) : result F :=
  rbind (py_float_of_int i) (fun fi => Ok (f_add lower_price (f_mul fi price_step))).

(** [[lower_price + i * price_step for i in range(num_grids)]] *)
Definition grid_levels (lower_price price_step : F) (num_grids : Z) : result (list F) :=
  map_result (grid_level lower_price price_step) (range num_grids).

(** [(upper_price - lower_price) / (num_grids - 1)] *)
Definition grid_step (lower_price upper_price : F) (num_grids : Z) : result F :=
  py_truediv_int (f_sub upper_price lower_price) (num_grids - 1).

Definition limit_order (symbol side : string) (quantity price : F) : order_request :=
  {| o_symbol := symbol; o_side := side; o_type := "LIMIT";
     o_timeInForce := Some "GTC"; o_quantity := quantity;
     o_price := Some price; o_stopPrice := None; o_reduceOnly := None |}.

Definition order_id (order : dict) : pyval := dict_get order "orderId" PyNone.

Definition py_len {A} (l : list A) : Z := Z.of_nat (List.length l).

(** The body of [for i, price in enumerate(grid_prices)], on the two lists
    it appends to. *)
Definition place_grid_order (symbol : string) (quantity_per_grid current_price price : F)
    (orders : list dict * list dict) : M (list dict * list dict) :=
  let (buy_orders, sell_orders) := orders in
  try_except
    (if f_ltb price current_price then
       order <- client_futures_create_order (limit_order symbol "BUY" quantity_per_grid price) ;;
       let buy_orders := buy_orders ++ [order] in
       logger_info "GridStrategy"
         [Txt "Buy order placed at "; Num price; Txt ": "; Val (order_id order)] ;;
       print [Txt "✓ Buy order "; Int (py_len buy_orders); Txt " placed at "; Num price] ;;
       ret (buy_orders, sell_orders)
     else if f_ltb current_price price then
       order <- client_futures_create_order (limit_order symbol "SELL" quantity_per_grid price) ;;
       let sell_orders := sell_orders ++ [order] in
       logger_info "GridStrategy"
         [Txt "Sell order placed at "; Num price; Txt ": "; Val (order_id order)] ;;
       print [Txt "✓ Sell order "; Int (py_len sell_orders); Txt " placed at "; Num price] ;;
       ret (buy_orders, sell_orders)
     else ret (buy_orders, sell_orders))
    (fun e =>
       if is_binance e then Some (
         logger_error "GridStrategy" [Txt "Error placing grid order at "; Num price; Txt ": "; Err e] ;;
         print [Txt "✗ Error at price "; Num price; Txt ": "; Err e] ;;
         ret (buy_orders, sell_orders))
       else None).

Fixpoint place_grid_orders (symbol : string) (quantity_per_grid current_price : F)
    (grid_prices : list F) (orders : list dict * list dict) : M (list dict * list dict) :=
  match grid_prices with
  | [] => ret orders
  | price :: rest =>
      orders <- place_grid_order symbol quantity_per_grid current_price price orders ;;
      place_grid_orders symbol quantity_per_grid current_price rest orders
  end.

(** The dictionary [setup_grid_strategy] returns. *)
Record grid_result : Type := {
  buy_orders : list dict;
  sell_orders : list dict;
  grid_prices : list F;
  current_price : F
}.

(** The body of [try:] in [setup_grid_strategy]. *)
Definition grid_session (symbol : string) (quantity_per_grid : F) (num_grids : Z)
    (grid_prices : list F) : M grid_result :=
  get_binance_client ;;
  ticker <- client_futures_symbol_ticker symbol ;;
  current_price <- lift (rbind (dict_item ticker "price") py_float) ;;
  logger_info "GridStrategy" [Txt "Current market price: "; Num current_price] ;;
  orders <- place_grid_orders symbol quantity_per_grid current_price grid_prices ([], []) ;;
  let result :=
    {| buy_orders := fst orders; sell_orders := snd orders;
       grid_prices := grid_prices; current_price := current_price |} in
  quantity <- lift (py_mul_int quantity_per_grid num_grids) ;;
  log_order "GridStrategy" "GRID" symbol "BOTH" quantity None None
    (Some [("buy_count", PyInt (py_len (fst orders)));
           ("sell_count", PyInt (py_len (snd orders)))])
    None ;;
  ret result.

(** Its two [except] clauses, [BinanceAPIException] first, then
    [Exception]: both log and re-raise. *)
Definition grid_failure (symbol : string) (quantity_per_grid : F) (num_grids : Z)
    (e : exn) : M grid_result :=
  (if is_binance e
   then logger_error "GridStrategy" [Txt "Binance API error: "; Err e]
   else logger_error "GridStrategy" [Txt "Unexpected error in grid strategy: "; Err e]) ;;
  quantity <- lift (py_mul_int quantity_per_grid num_grids) ;;
  log_order "GridStrategy" "GRID" symbol "BOTH" quantity None None None (Some e) ;;
  raise e.

Definition setup_grid_strategy
    (symbol quantity_per_grid lower_price upper_price num_grids : pyval) : M grid_result :=
  symbol <- lift (validate_symbol symbol) ;;
  quantity_per_grid <- lift (validate_quantity quantity_per_grid) ;;
  lower_price <- lift (validate_price lower_price "lower price") ;;
  upper_price <- lift (validate_price upper_price "upper price") ;;
  num_grids <- lift (validate_positive_integer num_grids "number of grids") ;;
  if f_leb upper_price lower_price
  then raise (ValidationError (UpperNotAboveLower upper_price lower_price))
  else
  price_step <- lift (grid_step lower_price upper_price num_grids) ;;
  grid_prices <- lift (grid_levels lower_price price_step num_grids) ;;
  logger_info "GridStrategy" [Txt "Setting up grid strategy for "; Str symbol] ;;
  logger_info "GridStrategy" [Txt "  Price range: "; Num lower_price; Txt " - "; Num upper_price] ;;
  logger_info "GridStrategy" [Txt "  Grid levels: "; Int num_grids] ;;
  logger_info "GridStrategy" [Txt "  Price step: "; Num price_step] ;;
  logger_info "GridStrategy" [Txt "  Quantity per grid: "; Num quantity_per_grid] ;;
  try_except
    (grid_session symbol quantity_per_grid num_grids grid_prices)
    (fun e => Some (grid_failure symbol quantity_per_grid num_grids e)).

(** ** src/advanced/twap.py *)

Definition market_order (symbol side : string) (quantity : F) : order_request :=
  {| o_symbol := symbol; o_side := side; o_type := "MARKET";
     o_timeInForce := None; o_quantity := quantity;
     o_price := None; o_stopPrice := None; o_reduceOnly := None |}.

(** The body of [for i in range(num_orders)], on the list it appends to. *)
Definition execute_slice (symbol side : string) (quantity_per_order : F)
    (num_orders interval_seconds i : Z) (executed_orders : list dict) : M (list dict) :=
  try_except
    (order <- client_futures_create_order (market_order symbol side quantity_per_order) ;;
     let executed_orders := executed_orders ++ [order] in
     logger_info "TWAP"
       [Txt "TWAP order "; Int (i + 1); Txt "/"; Int num_orders; Txt " executed: ";
        Val (order_id order)] ;;
     print [Txt "✓ Order "; Int (i + 1); Txt "/"; Int num_orders;
            Txt " executed - ID: "; Val (order_id order)] ;;
     (if i <? num_orders - 1 then
        logger_info "TWAP"
          [Txt "Waiting "; Int interval_seconds; Txt " seconds before next order..."] ;;
        print [Txt "  Waiting "; Int interval_seconds; Txt " seconds..."] ;;
        time_sleep interval_seconds
      else ret tt) ;;
     ret executed_orders)
    (fun e =>
       if is_binance e then Some (
         logger_error "TWAP"
           [Txt "Error on TWAP order "; Int (i + 1); Txt "/"; Int num_orders; Txt ": "; Err e] ;;
         print [Txt "✗ Error on order "; Int (i + 1); Txt "/"; Int num_orders; Txt ": "; Err e] ;;
         ret executed_orders)
       else None).

Fixpoint execute_slices (symbol side : string) (quantity_per_order : F)
    (num_orders interval_seconds : Z) (indices : list Z) (executed_orders : list dict)
    : M (list dict) :=
  match indices with
  | [] => ret executed_orders
  | i :: rest =>
      executed_orders <-
        execute_slice symbol side quantity_per_order num_orders interval_seconds i
          executed_orders ;;
      execute_slices symbol side quantity_per_order num_orders interval_seconds rest
        executed_orders
  end.

(** The body of [try:] in [execute_twap]. *)
Definition twap_session (symbol side : string) (total_quantity quantity_per_order : F)
    (num_orders interval_seconds : Z) : M (list dict) :=
  get_binance_client ;;
  executed_orders <-
    execute_slices symbol side quantity_per_order num_orders interval_seconds
      (range num_orders) [] ;;
  log_order "TWAP" "TWAP" symbol side total_quantity None None
    (Some [("executed_orders", PyInt (py_len executed_orders));
           ("total_orders", PyInt num_orders)])
    None ;;
  ret executed_orders.

(** Its one clause, [except Exception]: log and re-raise. *)
Definition twap_failure (symbol side : string) (total_quantity : F) (e : exn)
    : M (list dict) :=
  logger_error "TWAP" [Txt "Unexpected error in TWAP execution: "; Err e] ;;
  log_order "TWAP" "TWAP" symbol side total_quantity None None None (Some e) ;;
  raise e.

Definition execute_twap
    (symbol side total_quantity num_orders interval_seconds : pyval) : M (list dict) :=
  symbol <- lift (validate_symbol symbol) ;;
  side <- lift (validate_side side) ;;
  total_quantity <- lift (validate_quantity total_quantity) ;;
  num_orders <- lift (validate_positive_integer num_orders "number of orders") ;;
  interval_seconds <- lift (validate_positive_integer interval_seconds "interval seconds") ;;
  quantity_per_order <- lift (py_truediv_int total_quantity num_orders) ;;
  logger_info "TWAP"
    [Txt "Starting TWAP strategy: "; Str side; Txt " "; Num total_quantity; Txt " "; Str symbol] ;;
  logger_info "TWAP"
    [Txt "  Split into "; Int num_orders; Txt " orders of "; Num quantity_per_order; Txt " each"] ;;
  logger_info "TWAP" [Txt "  Interval: "; Int interval_seconds; Txt " seconds"] ;;
  try_except
    (twap_session symbol side total_quantity quantity_per_order num_orders interval_seconds)
    (fun e => Some (twap_failure symbol side total_quantity e)).

(** ** src/advanced/oco.py *)

(** The dictionary [place_oco_order] returns. *)
Record oco_result : Type := {
  take_profit : dict;
  stop_loss : dict
}.

(** [type='TAKE_PROFIT'] and [type='STOP'] orders, both [reduceOnly='true']. *)
Definition closing_order (symbol side type : string) (quantity price stopPrice : F)
    : order_request :=
  {| o_symbol := symbol; o_side := side; o_type := type;
     o_timeInForce := Some "GTC"; o_quantity := quantity;
     o_price := Some price; o_stopPrice := Some stopPrice; o_reduceOnly := Some "true" |}.

(** ['SELL' if side == 'BUY' else 'BUY'] *)
Definition close_side_of (side : string) : string :=
  if String.eqb side "BUY" then "SELL" else "BUY".

(** The body of [try:] in [place_oco_order]. *)
Definition oco_session (symbol side : string) (quantity price stop_price stop_limit_price : F)
    : M oco_result :=
  get_binance_client ;;
  let close_side := close_side_of side in
  take_profit <-
    client_futures_create_order
      (closing_order symbol close_side "TAKE_PROFIT" quantity price price) ;;
  logger_info "OCOOrders" [Txt "Take profit order placed: "; Val (order_id take_profit)] ;;
  stop_loss <-
    client_futures_create_order
      (closing_order symbol close_side "STOP" quantity stop_limit_price stop_price) ;;
  logger_info "OCOOrders" [Txt "Stop loss order placed: "; Val (order_id stop_loss)] ;;
  let result := {| take_profit := take_profit; stop_loss := stop_loss |} in
  log_order "OCOOrders" "OCO" symbol side quantity (Some price) (Some stop_price)
    (Some [("take_profit", PyDict take_profit); ("stop_loss", PyDict stop_loss)])
    None ;;
  ret result.

(** Its two [except] clauses: both log and re-raise. *)
Definition oco_failure (symbol side : string) (quantity price stop_price : F) (e : exn)
    : M oco_result :=
  (if is_binance e
   then logger_error "OCOOrders" [Txt "Binance API error: "; Err e]
   else logger_error "OCOOrders" [Txt "Unexpected error placing OCO order: "; Err e]) ;;
  log_order "OCOOrders" "OCO" symbol side quantity (Some price) (Some stop_price)
    None (Some e) ;;
  raise e.

Definition place_oco_order
    (symbol side quantity price stop_price stop_limit_price : pyval) : M oco_result :=
  symbol <- lift (validate_symbol symbol) ;;
  side <- lift (validate_side side) ;;
  quantity <- lift (validate_quantity quantity) ;;
  price <- lift (validate_price price "limit price") ;;
  stop_price <- lift (validate_price stop_price "stop price") ;;
  stop_limit_price <- lift (validate_price stop_limit_price "stop limit price") ;;
  logger_info "OCOOrders"
    [Txt "Placing OCO order: "; Str side; Txt " "; Num quantity; Txt " "; Str symbol] ;;
  logger_info "OCOOrders"
    [Txt "  Take Profit: "; Num price; Txt ", Stop Loss: "; Num stop_price; Txt "/";
     Num stop_limit_price] ;;
  try_except
    (oco_session symbol side quantity price stop_price stop_limit_price)
    (fun e => Some (oco_failure symbol side quantity price stop_price e)).

End Model.

Arguments PyNone {F}.
Arguments PyBool {F} b.
Arguments PyInt {F} z.
Arguments PyStr {F} s.
Arguments Ok {F A} a.
Arguments Raise {F A} e.
Arguments ZeroDivisionError {F}.
Arguments OverflowError {F}.
Arguments ValueError {F}.
Arguments TypeError {F}.
Arguments KeyError {F} key.
Arguments OtherException {F} description.
Arguments BinanceAPIException {F} code message.
Arguments EvSleep {F} seconds.
Arguments Txt {F} s.
Arguments Str {F} s.
Arguments Int {F} z.
Arguments SymbolNotNonEmptyString {F}.
Arguments InvalidSymbolFormat {F} symbol.
Arguments SymbolNotUSDT {F} symbol.
Arguments SideNotNonEmptyString {F}.
Arguments SideNotBuySell {F} side.
Arguments IntegerNotPositive {F} name int_val.

(** ** Python's float: IEEE 754 binary64 *)

(** The integer [z] rounded to the nearest float, ties to even. *)
Definition float_of_Z (z : Z) : float := SF2Prim (binary_normalize prec emax z 0 false).

(** The least integer whose nearest float would be infinite: at and beyond
    it, in absolute value, [float(n)] raises [OverflowError]. *)
Definition float_overflow_bound : Z := 2 ^ 1024 - 2 ^ 970.

Definition binary64_of_int (z : Z) : option float :=
  if Z.abs z <? float_overflow_bound then Some (float_of_Z z) else None.

Definition binary64_to_int (x : float) : result float Z :=
  match Prim2SF x with
  | S754_zero _ => Ok 0
  | S754_finite s m e =>
      Ok (cond_Zopp s (if 0 <=? e then Z.shiftl (Z.pos m) e else Z.shiftr (Z.pos m) (- e)))
  | S754_infinity _ => Raise OverflowError
  | S754_nan => Raise ValueError
  end.

(** [math.isfinite(x)]: neither an infinity nor NaN. *)
Definition float_is_finite (x : float) : bool :=
  PrimFloat.ltb neg_infinity x && PrimFloat.ltb x infinity.

#[export] Instance binary64 : FloatOps float := {|
  f_zero := 0%float;
  f_add := PrimFloat.add;
  f_sub := PrimFloat.sub;
  f_mul := PrimFloat.mul;
  f_div := PrimFloat.div;
  f_ltb := PrimFloat.ltb;
  f_leb := PrimFloat.leb;
  f_eqb := PrimFloat.eqb;
  f_of_int := binary64_of_int;
  f_to_int := binary64_to_int
|}.

(** ** The same code without rounding: exact rationals *)

Definition Qc_ltb (x y : Qc) : bool := if Qclt_le_dec x y then true else false.

Definition Qc_leb (x y : Qc) : bool := if Qclt_le_dec y x then false else true.

Definition Qc_of_int (z : Z) : Qc := Q2Qc (inject_Z z).

Definition exact : FloatOps Qc := {|
  f_zero := Q2Qc 0;
  f_add := Qcplus;
  f_sub := Qcminus;
  f_mul := Qcmult;
  f_div := Qcdiv;
  f_ltb := Qc_ltb;
  f_leb := Qc_leb;
  f_eqb := Qc_eq_bool;
  f_of_int := fun z => Some (Qc_of_int z);
  f_to_int := fun x => Ok (Z.quot (Qnum x) (Z.pos (Qden x)))
|}.

(** ** What a run shows: projections of the emitted events *)

Section Observations.

Context {F : Type} {num : FloatOps F}.

(** The calls of [futures_create_order], each with its reply, in order. *)
Fixpoint submissions (es : list (event F)) : list (order_request F * result F (dict F)) :=
  match es with
  | [] => []
  | EvCreateOrder request reply :: rest => (request, reply) :: submissions rest
  | _ :: rest => submissions rest
  end.

Definition requests (es : list (event F)) : list (order_request F) :=
  map fst (submissions es).

(** The replies of the submissions that succeeded. *)
Fixpoint filled (subs : list (order_request F * result F (dict F))) : list (dict F) :=
  match subs with
  | [] => []
  | (_, Ok order) :: rest => order :: filled rest
  | (_, Raise _) :: rest => filled rest
  end.

(** The submissions that raised, each with its exception. *)
Fixpoint rejected (subs : list (order_request F * result F (dict F)))
    : list (order_request F * exn F) :=
  match subs with
  | [] => []
  | (_, Ok _) :: rest => rejected rest
  | (request, Raise e) :: rest => (request, e) :: rejected rest
  end.

(** Every submission that raised, raised a [BinanceAPIException]. *)
Definition exchange_errors_only (subs : list (order_request F * result F (dict F))) : bool :=
  forallb (fun re => is_binance (snd re)) (rejected subs).

Definition on_side (side : string) (sub : order_request F * result F (dict F)) : bool :=
  String.eqb (o_side (fst sub)) side.

(** The orders placed on one side: what the exchange answered to the
    successful submissions with that [side]. *)
Definition placed (side : string) (es : list (event F)) : list (dict F) :=
  filled (filter (on_side side) (submissions es)).

(** The events of a list of submissions. *)
Definition order_events (subs : list (order_request F * result F (dict F)))
    : list (event F) :=
  map (fun sub => EvCreateOrder (fst sub) (snd sub)) subs.

(** Submissions and pauses only, in order. *)
Inductive action : Type :=
| Submit (request : order_request F)
| Pause (seconds : Z).

Fixpoint schedule (es : list (event F)) : list action :=
  match es with
  | [] => []
  | EvCreateOrder request _ :: rest => Submit request :: schedule rest
  | EvSleep seconds :: rest => Pause seconds :: schedule rest
  | _ :: rest => schedule rest
  end.

(** The calls that reach the network. *)
Definition is_network (ev : event F) : bool :=
  match ev with
  | EvConnect _ _ _ | EvTicker _ _ | EvCreateOrder _ _ => true
  | _ => false
  end.

Definition is_sleep (ev : event F) : bool :=
  match ev with
  | EvSleep _ => true
  | _ => false
  end.

(** Log lines and console output: nothing the exchange or the clock sees. *)
Definition is_output (ev : event F) : bool :=
  match ev with
  | EvLog _ _ _ | EvPrint _ => true
  | _ => false
  end.

(** [logger.error] lines that mention the exception [e]. *)
Definition logs_error (e : exn F) (ev : event F) : Prop :=
  exists name message, ev = EvLog name ERROR message /\ In (Err e) message.

(** [float(ticker['price'])] *)
Definition ticker_price (rt : PyRuntime F) (ticker : dict F) : result F F :=
  rbind (dict_item ticker "price") (py_float rt).

(** The order the grid strategy sends for one level, if any. *)
Definition grid_order (symbol : string) (quantity current_price price : F)
    : option (order_request F) :=
  if f_ltb price current_price then Some (limit_order symbol "BUY" quantity price)
  else if f_ltb current_price price then Some (limit_order symbol "SELL" quantity price)
  else None.

Fixpoint grid_plan (symbol : string) (quantity current_price : F) (levels : list F)
    : list (order_request F) :=
  match levels with
  | [] => []
  | price :: rest =>
      match grid_order symbol quantity current_price price with
      | Some request => request :: grid_plan symbol quantity current_price rest
      | None => grid_plan symbol quantity current_price rest
      end
  end.

Definition is_ok {A} (r : result F A) : bool :=
  match r with
  | Ok _ => true
  | Raise _ => false
  end.

(** The schedule of a TWAP run, from its slices (index and the exchange's
    reply): a pause follows a slice that succeeded and is not the last, when
    the clock takes the interval. *)
Fixpoint twap_schedule (request : order_request F) (num_orders interval_seconds : Z)
    (slices : list (Z * result F (dict F))) : list action :=
  match slices with
  | [] => []
  | (i, reply) :: rest =>
      Submit request ::
      (if is_ok reply && (i <? num_orders - 1) &&
          match @sleep_error F interval_seconds with None => true | Some _ => false end
       then [Pause interval_seconds] else []) ++
      twap_schedule request num_orders interval_seconds rest
  end.

(** A pause between any two consecutive submissions, none after the last. *)
Fixpoint paced (request : order_request F) (interval_seconds : Z) (n : nat) : list action :=
  match n with
  | O => []
  | S O => [Submit request]
  | S m => Submit request :: Pause interval_seconds :: paced request interval_seconds m
  end.

(** Every pause comes right after a submission that succeeded. *)
Fixpoint pauses_follow_success (es : list (event F)) (after_success : bool) : bool :=
  match es with
  | [] => true
  | EvCreateOrder _ reply :: rest => pauses_follow_success rest (is_ok reply)
  | EvSleep _ :: rest => after_success && pauses_follow_success rest false
  | _ :: rest => pauses_follow_success rest after_success
  end.

End Observations.

(** ** The ways a run can go *)

Section Shapes.

Context {F : Type} {num : FloatOps F}.
Variable rt : PyRuntime F.
Variable ex : Exchange F.

(** [get_binance_client()] at history [h]. *)
Inductive connection (h : history F) : result F unit -> list (event F) -> Prop :=
| NoCredentials log :
    is_output log = true ->
    connection h (Raise (OtherException missing_credentials)) [log]
| Connected api_key api_secret log :
    client_connect ex h api_key api_secret = Ok tt ->
    is_output log = true ->
    connection h (Ok tt) [EvConnect api_key api_secret (Ok tt); log]
| ConnectFailed api_key api_secret e log :
    client_connect ex h api_key api_secret = Raise e ->
    is_output log = true ->
    logs_error e log ->
    connection h (Raise e) [EvConnect api_key api_secret (Raise e); log].

(** One iteration of the grid loop, for the level [price]. *)
Inductive grid_iteration (symbol : string) (quantity current_price price : F)
    (buys sells : list (dict F)) (h : history F)
    : result F (list (dict F) * list (dict F)) -> list (event F) -> Prop :=
| GridSkip :
    grid_order symbol quantity current_price price = None ->
    grid_iteration symbol quantity current_price price buys sells h (Ok (buys, sells)) []
| GridBuy request order logs :
    grid_order symbol quantity current_price price = Some request ->
    o_side request = "BUY" ->
    futures_create_order ex h request = Ok order ->
    forallb is_output logs = true ->
    grid_iteration symbol quantity current_price price buys sells h
      (Ok (buys ++ [order], sells))
      (EvCreateOrder request (Ok order) :: logs)
| GridSell request order logs :
    grid_order symbol quantity current_price price = Some request ->
    o_side request = "SELL" ->
    futures_create_order ex h request = Ok order ->
    forallb is_output logs = true ->
    grid_iteration symbol quantity current_price price buys sells h
      (Ok (buys, sells ++ [order]))
      (EvCreateOrder request (Ok order) :: logs)
| GridRejected request e logs :
    grid_order symbol quantity current_price price = Some request ->
    futures_create_order ex h request = Raise e ->
    is_binance e = true ->
    forallb is_output logs = true ->
    Exists (logs_error e) logs ->
    grid_iteration symbol quantity current_price price buys sells h
      (Ok (buys, sells))
      (EvCreateOrder request (Raise e) :: logs)
| GridAbort request e :
    grid_order symbol quantity current_price price = Some request ->
    futures_create_order ex h request = Raise e ->
    is_binance e = false ->
    grid_iteration symbol quantity current_price price buys sells h
      (Raise e) [EvCreateOrder request (Raise e)].

(** One iteration of the TWAP loop, for the slice [i]. *)
Inductive twap_iteration (symbol side : string) (quantity_per_order : F)
    (num_orders interval_seconds i : Z) (executed : list (dict F)) (h : history F)
    : result F (list (dict F)) -> list (event F) -> Prop :=
| SlicePaused order logs :
    futures_create_order ex h (market_order symbol side quantity_per_order) = Ok order ->
    i < num_orders - 1 ->
    sleep_error F interval_seconds = None ->
    forallb is_output logs = true ->
    twap_iteration symbol side quantity_per_order num_orders interval_seconds i executed h
      (Ok (executed ++ [order]))
      (EvCreateOrder (market_order symbol side quantity_per_order) (Ok order)
         :: logs ++ [EvSleep interval_seconds])
| SliceSleepFailed order logs e :
    futures_create_order ex h (market_order symbol side quantity_per_order) = Ok order ->
    i < num_orders - 1 ->
    sleep_error F interval_seconds = Some e ->
    forallb is_output logs = true ->
    twap_iteration symbol side quantity_per_order num_orders interval_seconds i executed h
      (Raise e)
      (EvCreateOrder (market_order symbol side quantity_per_order) (Ok order) :: logs)
| SliceLast order logs :
    futures_create_order ex h (market_order symbol side quantity_per_order) = Ok order ->
    num_orders - 1 <= i ->
    forallb is_output logs = true ->
    twap_iteration symbol side quantity_per_order num_orders interval_seconds i executed h
      (Ok (executed ++ [order]))
      (EvCreateOrder (market_order symbol side quantity_per_order) (Ok order) :: logs)
| SliceRejected e logs :
    futures_create_order ex h (market_order symbol side quantity_per_order) = Raise e ->
    is_binance e = true ->
    forallb is_output logs = true ->
    Exists (logs_error e) logs ->
    twap_iteration symbol side quantity_per_order num_orders interval_seconds i executed h
      (Ok executed)
      (EvCreateOrder (market_order symbol side quantity_per_order) (Raise e) :: logs)
| SliceAbort e :
    futures_create_order ex h (market_order symbol side quantity_per_order) = Raise e ->
    is_binance e = false ->
    twap_iteration symbol side quantity_per_order num_orders interval_seconds i executed h
      (Raise e)
      [EvCreateOrder (market_order symbol side quantity_per_order) (Raise e)].

(** The body of [try:] in [setup_grid_strategy], at history [h]. *)
Inductive grid_session_run (symbol : string) (quantity : F) (num_grids : Z)
    (levels : list F) (h : history F)
    : result F (grid_result F) -> list (event F) -> Prop :=
| GridNoClient e es :
    connection h (Raise e) es ->
    grid_session_run symbol quantity num_grids levels h (Raise e) es
| GridNoTicker es0 e :
    connection h (Ok tt) es0 ->
    futures_symbol_ticker ex (h ++ es0) symbol = Raise e ->
    grid_session_run symbol quantity num_grids levels h (Raise e)
      (es0 ++ [EvTicker symbol (Raise e)])
| GridNoPrice es0 ticker e :
    connection h (Ok tt) es0 ->
    futures_symbol_ticker ex (h ++ es0) symbol = Ok ticker ->
    ticker_price rt ticker = Raise e ->
    grid_session_run symbol quantity num_grids levels h (Raise e)
      (es0 ++ [EvTicker symbol (Ok ticker)])
| GridLoopAbort es0 ticker price logs e es_loop :
    connection h (Ok tt) es0 ->
    futures_symbol_ticker ex (h ++ es0) symbol = Ok ticker ->
    ticker_price rt ticker = Ok price ->
    forallb is_output logs = true ->
    place_grid_orders ex symbol quantity price levels ([], [])
      (h ++ es0 ++ [EvTicker symbol (Ok ticker)] ++ logs) = (Raise e, es_loop) ->
    grid_session_run symbol quantity num_grids levels h (Raise e)
      (es0 ++ [EvTicker symbol (Ok ticker)] ++ logs ++ es_loop)
| GridQuantityOverflow es0 ticker price logs buys sells es_loop :
    connection h (Ok tt) es0 ->
    futures_symbol_ticker ex (h ++ es0) symbol = Ok ticker ->
    ticker_price rt ticker = Ok price ->
    forallb is_output logs = true ->
    place_grid_orders ex symbol quantity price levels ([], [])
      (h ++ es0 ++ [EvTicker symbol (Ok ticker)] ++ logs) = (Ok (buys, sells), es_loop) ->
    f_of_int num_grids = None ->
    grid_session_run symbol quantity num_grids levels h (Raise OverflowError)
      (es0 ++ [EvTicker symbol (Ok ticker)] ++ logs ++ es_loop)
| GridDone es0 ticker price logs buys sells es_loop fn summary :
    connection h (Ok tt) es0 ->
    futures_symbol_ticker ex (h ++ es0) symbol = Ok ticker ->
    ticker_price rt ticker = Ok price ->
    forallb is_output logs = true ->
    place_grid_orders ex symbol quantity price levels ([], [])
      (h ++ es0 ++ [EvTicker symbol (Ok ticker)] ++ logs) = (Ok (buys, sells), es_loop) ->
    f_of_int num_grids = Some fn ->
    forallb is_output summary = true ->
    grid_session_run symbol quantity num_grids levels h
      (Ok {| buy_orders := buys; sell_orders := sells;
             grid_prices := levels; current_price := price |})
      (es0 ++ [EvTicker symbol (Ok ticker)] ++ logs ++ es_loop ++ summary).

(** The body of [try:] in [execute_twap], at history [h]. *)
Inductive twap_session_run (symbol side : string) (quantity_per_order : F)
    (num_orders interval_seconds : Z) (h : history F)
    : result F (list (dict F)) -> list (event F) -> Prop :=
| TwapNoClient e es :
    connection h (Raise e) es ->
    twap_session_run symbol side quantity_per_order num_orders interval_seconds h
      (Raise e) es
| TwapLoopAbort es0 e es_loop :
    connection h (Ok tt) es0 ->
    execute_slices ex symbol side quantity_per_order num_orders interval_seconds
      (range num_orders) [] (h ++ es0) = (Raise e, es_loop) ->
    twap_session_run symbol side quantity_per_order num_orders interval_seconds h
      (Raise e) (es0 ++ es_loop)
| TwapDone es0 executed es_loop summary :
    connection h (Ok tt) es0 ->
    execute_slices ex symbol side quantity_per_order num_orders interval_seconds
      (range num_orders) [] (h ++ es0) = (Ok executed, es_loop) ->
    forallb is_output summary = true ->
    twap_session_run symbol side quantity_per_order num_orders interval_seconds h
      (Ok executed) (es0 ++ es_loop ++ summary).

(** The body of [try:] in [place_oco_order], at history [h]; [tp] and [sl]
    are the two requests it builds. *)
Inductive oco_session_run (tp sl : order_request F) (h : history F)
    : result F (oco_result F) -> list (event F) -> Prop :=
| OcoNoClient e es :
    connection h (Raise e) es ->
    oco_session_run tp sl h (Raise e) es
| OcoTakeProfitFailed es0 e :
    connection h (Ok tt) es0 ->
    futures_create_order ex (h ++ es0) tp = Raise e ->
    oco_session_run tp sl h (Raise e) (es0 ++ [EvCreateOrder tp (Raise e)])
| OcoStopFailed es0 order1 logs e :
    connection h (Ok tt) es0 ->
    futures_create_order ex (h ++ es0) tp = Ok order1 ->
    forallb is_output logs = true ->
    futures_create_order ex (h ++ es0 ++ [EvCreateOrder tp (Ok order1)] ++ logs) sl
      = Raise e ->
    oco_session_run tp sl h (Raise e)
      (es0 ++ [EvCreateOrder tp (Ok order1)] ++ logs ++ [EvCreateOrder sl (Raise e)])
| OcoDone es0 order1 logs order2 summary :
    connection h (Ok tt) es0 ->
    futures_create_order ex (h ++ es0) tp = Ok order1 ->
    forallb is_output logs = true ->
    futures_create_order ex (h ++ es0 ++ [EvCreateOrder tp (Ok order1)] ++ logs) sl
      = Ok order2 ->
    forallb is_output summary = true ->
    oco_session_run tp sl h
      (Ok {| take_profit := order1; stop_loss := order2 |})
      (es0 ++ [EvCreateOrder tp (Ok order1)] ++ logs ++
       [EvCreateOrder sl (Ok order2)] ++ summary).

(** A handler that emits output only, mentions the exception it was given
    in an error line, and ends by raising. *)
Definition reraises {A} (failure : exn F -> M F A) : Prop :=
  forall e h, exists e' logs,
    failure e h = (Raise e', logs) /\
    forallb is_output logs = true /\
    Exists (logs_error e) logs.


(** The arguments pass validation, with these values. *)
Definition grid_inputs (symbol quantity_per_grid lower_price upper_price num_grids : pyval F)
    (sym : string) (q lo hi : F) (n : Z) : Prop :=
  validate_symbol rt symbol = Ok sym /\
  validate_quantity rt quantity_per_grid = Ok q /\
  validate_price rt lower_price "lower price" = Ok lo /\
  validate_price rt upper_price "upper price" = Ok hi /\
  validate_positive_integer rt num_grids "number of grids" = Ok n.

Definition twap_inputs (symbol side total_quantity num_orders interval_seconds : pyval F)
    (sym sd : string) (total : F) (n interval : Z) : Prop :=
  validate_symbol rt symbol = Ok sym /\
  validate_side rt side = Ok sd /\
  validate_quantity rt total_quantity = Ok total /\
  validate_positive_integer rt num_orders "number of orders" = Ok n /\
  validate_positive_integer rt interval_seconds "interval seconds" = Ok interval.

Definition oco_inputs (symbol side quantity price stop_price stop_limit_price : pyval F)
    (sym sd : string) (q p sp slp : F) : Prop :=
  validate_symbol rt symbol = Ok sym /\
  validate_side rt side = Ok sd /\
  validate_quantity rt quantity = Ok q /\
  validate_price rt price "limit price" = Ok p /\
  validate_price rt stop_price "stop price" = Ok sp /\
  validate_price rt stop_limit_price "stop limit price" = Ok slp.

(** The lines logged between validation and [try:]. *)
Definition grid_banner (sym : string) (q lo hi : F) (n : Z) (step : F) : list (event F) :=
  [EvLog "GridStrategy" INFO [Txt "Setting up grid strategy for "; Str sym];
   EvLog "GridStrategy" INFO [Txt "  Price range: "; Num lo; Txt " - "; Num hi];
   EvLog "GridStrategy" INFO [Txt "  Grid levels: "; Int n];
   EvLog "GridStrategy" INFO [Txt "  Price step: "; Num step];
   EvLog "GridStrategy" INFO [Txt "  Quantity per grid: "; Num q]].

Definition twap_banner (sym sd : string) (total per_order : F) (n interval : Z)
    : list (event F) :=
  [EvLog "TWAP" INFO
     [Txt "Starting TWAP strategy: "; Str sd; Txt " "; Num total; Txt " "; Str sym];
   EvLog "TWAP" INFO
     [Txt "  Split into "; Int n; Txt " orders of "; Num per_order; Txt " each"];
   EvLog "TWAP" INFO [Txt "  Interval: "; Int interval; Txt " seconds"]].

Definition oco_banner (sym sd : string) (q p sp slp : F) : list (event F) :=
  [EvLog "OCOOrders" INFO
     [Txt "Placing OCO order: "; Str sd; Txt " "; Num q; Txt " "; Str sym];
   EvLog "OCOOrders" INFO
     [Txt "  Take Profit: "; Num p; Txt ", Stop Loss: "; Num sp; Txt "/"; Num slp]].

(** The line the grid logs once it has read the price, and the line OCO
    logs once the take-profit order is placed. *)
Definition grid_price_line (price : F) : event F :=
  EvLog "GridStrategy" INFO [Txt "Current market price: "; Num price].

Definition take_profit_line (order : dict F) : event F :=
  EvLog "OCOOrders" INFO [Txt "Take profit order placed: "; Val (order_id order)].

End Shapes.

(** ** Concrete runtimes and exchanges, to run the code on examples *)

Definition ascii_upper (c : ascii) : ascii :=
  let n := nat_of_ascii c in
  if ((97 <=? n)%nat && (n <=? 122)%nat)%bool then ascii_of_nat (n - 32) else c.

Fixpoint upper (s : string) : string :=
  match s with
  | EmptyString => EmptyString
  | String c rest => String (ascii_upper c) (upper rest)
  end.

Fixpoint decimal (s : string) (acc : Z) : option Z :=
  match s with
  | EmptyString => Some acc
  | String c rest =>
      let n := nat_of_ascii c in
      if ((48 <=? n)%nat && (n <=? 57)%nat)%bool
      then decimal rest (10 * acc + Z.of_nat (n - 48))
      else None
  end.

Definition decimal_int (s : string) : option Z :=
  match s with
  | EmptyString => None
  | String "-" (String c rest) => option_map Z.opp (decimal (String c rest) 0)
  | _ => decimal s 0
  end.

(** A runtime for ASCII arguments whose numbers are written as decimal
    integers; what the theorems say holds of every runtime. *)
Definition ascii_runtime : PyRuntime float := {|
  str_upper := upper;
  int_of_str := decimal_int;
  float_of_str := fun s =>
    match decimal_int s with
    | Some z => binary64_of_int z
    | None => None
    end
|}.

(** An exchange that accepts the credentials, answers [ticker] to the price
    request and the [k]-th reply of [replies] to the [k]-th order; once the
    script is over it accepts every order with an empty reply. *)
Definition scripted_exchange (ticker : result float (dict float))
    (replies : list (result float (dict float))) : Exchange float := {|
  getenv := fun _ => Some "testnet";
  client_connect := fun _ _ _ => Ok tt;
  futures_symbol_ticker := fun _ _ => ticker;
  futures_create_order := fun h _ => nth (List.length (submissions h)) replies (Ok [])
|}.

Definition price_ticker (price : float) : result float (dict float) :=
  Ok [("symbol", PyStr "BTCUSDT"); ("price", PyFloat price)].

Definition order_reply (id : Z) : result float (dict float) :=
  Ok [("orderId", PyInt id); ("status", PyStr "NEW")].

(** What [get_binance_client] emits against a scripted exchange. *)
Definition testnet_client : list (event float) :=
  [EvConnect "testnet" "testnet" (Ok tt);
   EvLog "BinanceClient" INFO [Txt "Successfully connected to Binance Futures Testnet"]].

Definition insufficient_margin : exn float :=
  BinanceAPIException (-2019) "Margin is insufficient.".


(** Finds an event in the list a run evaluates to. *)
Ltac find_event := vm_compute; repeat (first [ left; reflexivity | right ]).


(** * Properties *)

Unset Implicit Arguments.

(** ** Comparisons of binary64 floats *)

Lemma SFcompare_antisym (x y : spec_float) :
  SFcompare y x = option_map CompOpp (SFcompare x y).
Proof.
  destruct x as [sx | sx | | sx mx ex0], y as [sy | sy | | sy my ey]; simpl;
    try reflexivity;
    try (destruct sx; reflexivity);
    try (destruct sy; reflexivity);
    try (destruct sx, sy; reflexivity).
  destruct sx, sy; simpl; try reflexivity;
    rewrite (Z.compare_antisym ey ex0);
    destruct (ey ?= ex0)%Z; simpl; try reflexivity; f_equal.
  - rewrite CompOpp_involutive. exact (Pos.compare_cont_antisym my mx Eq).
  - symmetry. exact (Pos.compare_cont_antisym mx my Eq).
Qed.

(** [x < y] excludes [y < x]. *)
Lemma float_ltb_asym (x y : float) :
  PrimFloat.ltb x y = true -> PrimFloat.ltb y x = false.
Proof.
  rewrite !FloatAxioms.ltb_spec. unfold SFltb. rewrite (SFcompare_antisym (Prim2SF x) (Prim2SF y)).
  destruct (SFcompare (Prim2SF x) (Prim2SF y)) as [[ | | ] | ]; simpl; congruence.
Qed.

(** [y <= x] excludes [x < y]. *)
Lemma float_leb_not_ltb (x y : float) :
  PrimFloat.leb y x = true -> PrimFloat.ltb x y = false.
Proof.
  rewrite FloatAxioms.ltb_spec, FloatAxioms.leb_spec. unfold SFltb, SFleb. rewrite (SFcompare_antisym (Prim2SF x) (Prim2SF y)).
  destruct (SFcompare (Prim2SF x) (Prim2SF y)) as [[ | | ] | ]; simpl; congruence.
Qed.

(** [x < y] excludes [y <= x]. *)
Lemma float_ltb_not_leb (x y : float) :
  PrimFloat.ltb x y = true -> PrimFloat.leb y x = false.
Proof.
  intros H. destruct (PrimFloat.leb y x) eqn:E; [ | reflexivity ].
  apply float_leb_not_ltb in E. congruence.
Qed.

(** [x == y] excludes both [x < y] and [y < x]. *)
Lemma float_eqb_not_ltb (x y : float) :
  PrimFloat.eqb x y = true -> PrimFloat.ltb x y = false /\ PrimFloat.ltb y x = false.
Proof.
  rewrite FloatAxioms.eqb_spec, !FloatAxioms.ltb_spec. unfold SFltb, SFeqb. rewrite (SFcompare_antisym (Prim2SF x) (Prim2SF y)).
  destruct (SFcompare (Prim2SF x) (Prim2SF y)) as [[ | | ] | ]; simpl; intuition congruence.
Qed.

Lemma float_ltb_irrefl (x : float) : PrimFloat.ltb x x = false.
Proof.
  destruct (PrimFloat.ltb x x) eqn:E; [ | reflexivity ].
  pose proof (float_ltb_asym _ _ E). congruence.
Qed.

(** ** Validators *)

Section Validators.

Context {F : Type} {num : FloatOps F}.

Lemma py_eq_str_true (side : pyval F) (s : string) :
  py_eq_str side s = true <-> side = PyStr s.
Proof.
  destruct side; simpl; split; intros H; try discriminate.
  - apply String.eqb_eq in H. now subst.
  - inversion H. apply String.eqb_refl.
Qed.

(** With ['BUY'] the function compares [stop_price < limit_price]. *)
Lemma validate_stop_limit_prices_buy (stop limit : F) :
  validate_stop_limit_prices stop limit (PyStr "BUY") =
  if f_ltb stop limit then Raise (ValidationError (BuyStopBelowLimit stop limit)) else Ok tt.
Proof. reflexivity. Qed.

(** With any other value it compares [stop_price > limit_price]. *)
Lemma validate_stop_limit_prices_not_buy (stop limit : F) (side : pyval F) :
  side <> PyStr "BUY" ->
  validate_stop_limit_prices stop limit side =
  if f_ltb limit stop then Raise (ValidationError (SellStopAboveLimit stop limit)) else Ok tt.
Proof.
  intros Hside. unfold validate_stop_limit_prices.
  destruct (py_eq_str side "BUY") eqn:E; [ | reflexivity ].
  apply py_eq_str_true in E. contradiction.
Qed.

End Validators.

(** C8.  [validate_stop_limit_prices] with side ['BUY'] raises a
    [ValidationError] exactly when [stop_price < limit_price], so it succeeds
    when [stop_price >= limit_price], equality included; with side ['SELL']
    it raises exactly when [stop_price > limit_price].  In particular
    [(100, 99, 'BUY')] succeeds and [(99, 100, 'BUY')] fails. *)
Theorem C8_stop_limit_rule :
  (forall stop limit : float,
     (validate_stop_limit_prices stop limit (PyStr "BUY")
        = Raise (ValidationError (BuyStopBelowLimit stop limit))
      <-> PrimFloat.ltb stop limit = true) /\
     (validate_stop_limit_prices stop limit (PyStr "BUY") = Ok tt
      <-> PrimFloat.ltb stop limit = false) /\
     (PrimFloat.leb limit stop = true ->
      validate_stop_limit_prices stop limit (PyStr "BUY") = Ok tt) /\
     (PrimFloat.eqb stop limit = true ->
      validate_stop_limit_prices stop limit (PyStr "BUY") = Ok tt /\
      validate_stop_limit_prices stop limit (PyStr "SELL") = Ok tt) /\
     (validate_stop_limit_prices stop limit (PyStr "SELL")
        = Raise (ValidationError (SellStopAboveLimit stop limit))
      <-> PrimFloat.ltb limit stop = true) /\
     (validate_stop_limit_prices stop limit (PyStr "SELL") = Ok tt
      <-> PrimFloat.ltb limit stop = false))
  /\ validate_stop_limit_prices 100%float 99%float (PyStr "BUY") = Ok tt
  /\ validate_stop_limit_prices 99%float 100%float (PyStr "BUY")
       = Raise (ValidationError (BuyStopBelowLimit 99%float 100%float))
  /\ validate_stop_limit_prices 99%float 100%float (PyStr "SELL") = Ok tt
  /\ validate_stop_limit_prices 100%float 99%float (PyStr "SELL")
       = Raise (ValidationError (SellStopAboveLimit 100%float 99%float)).
Proof.
  split; [ | repeat split; reflexivity ].
  intros stop limit.
  assert (Hsell : PyStr "SELL" <> @PyStr float "BUY") by discriminate.
  rewrite !validate_stop_limit_prices_buy,
    !(validate_stop_limit_prices_not_buy stop limit _ Hsell).
  cbn [f_ltb binary64].
  repeat split.
  - destruct (PrimFloat.ltb stop limit); [ reflexivity | discriminate ].
  - intros ->. reflexivity.
  - destruct (PrimFloat.ltb stop limit); [ discriminate | reflexivity ].
  - intros ->. reflexivity.
  - intros H. now rewrite (float_leb_not_ltb _ _ H).
  - apply float_eqb_not_ltb in H. destruct H as [-> _]. reflexivity.
  - apply float_eqb_not_ltb in H. destruct H as [_ ->]. reflexivity.
  - destruct (PrimFloat.ltb limit stop); [ reflexivity | discriminate ].
  - intros ->. reflexivity.
  - destruct (PrimFloat.ltb limit stop); [ discriminate | reflexivity ].
  - intros ->. reflexivity.
Qed.

(** C10.  Whatever [side] is, if it is not exactly the string ['BUY']
    (lowercase ['buy'], any other string, a value that is no string at all)
    [validate_stop_limit_prices] applies the SELL rule: it raises exactly
    when [stop_price > limit_price], and it answers as it does for ['SELL'];
    no branch looks at [side] again, so nothing is raised on account of it. *)
Theorem C10_side_not_validated (side : pyval float) (stop limit : float) :
  side <> PyStr "BUY" ->
  validate_stop_limit_prices stop limit side
    = validate_stop_limit_prices stop limit (PyStr "SELL") /\
  (validate_stop_limit_prices stop limit side
     = Raise (ValidationError (SellStopAboveLimit stop limit))
   <-> PrimFloat.ltb limit stop = true) /\
  (validate_stop_limit_prices stop limit side = Ok tt
   <-> PrimFloat.ltb limit stop = false).
Proof.
  intros Hside.
  assert (Hsell : PyStr "SELL" <> @PyStr float "BUY") by discriminate.
  rewrite (validate_stop_limit_prices_not_buy stop limit _ Hside),
    (validate_stop_limit_prices_not_buy stop limit _ Hsell).
  cbn [f_ltb binary64].
  destruct (PrimFloat.ltb limit stop); repeat split; intros; congruence.
Qed.

(** C10 at [side = 'buy'] with [stop_price = 105 > limit_price = 100]: the
    SELL rule rejects the pair, although a BUY stop at or above its limit is
    what the BUY rule accepts. *)
Lemma C10_side_not_validated_witness :
  validate_stop_limit_prices 105%float 100%float (PyStr "buy")
    = validate_stop_limit_prices 105%float 100%float (PyStr "SELL") /\
  (validate_stop_limit_prices 105%float 100%float (PyStr "buy")
     = Raise (ValidationError (SellStopAboveLimit 105%float 100%float))
   <-> PrimFloat.ltb 100%float 105%float = true) /\
  (validate_stop_limit_prices 105%float 100%float (PyStr "buy") = Ok tt
   <-> PrimFloat.ltb 100%float 105%float = false).
Proof.
  apply (C10_side_not_validated (PyStr "buy") 105%float 100%float).
  discriminate.
Defined.

(** ** Projections of event lists *)

Section Events.

Context {F : Type}.

Implicit Types es : list (event F).

Lemma submissions_app es1 es2 :
  submissions (es1 ++ es2) = submissions es1 ++ submissions es2.
Proof.
  induction es1 as [ | ev es1 IH]; simpl; [ reflexivity | ].
  destruct ev; simpl; rewrite IH; reflexivity.
Qed.

Lemma schedule_app es1 es2 : schedule (es1 ++ es2) = schedule es1 ++ schedule es2.
Proof.
  induction es1 as [ | ev es1 IH]; simpl; [ reflexivity | ].
  destruct ev; simpl; rewrite IH; reflexivity.
Qed.

Lemma requests_app es1 es2 : requests (es1 ++ es2) = requests es1 ++ requests es2.
Proof. unfold requests. now rewrite submissions_app, map_app. Qed.

Lemma filled_app (s1 s2 : list (order_request F * result F (dict F))) :
  filled (s1 ++ s2) = filled s1 ++ filled s2.
Proof.
  induction s1 as [ | [req [d | e]] s1 IH]; simpl; rewrite ?IH; reflexivity.
Qed.

Lemma rejected_app (s1 s2 : list (order_request F * result F (dict F))) :
  rejected (s1 ++ s2) = rejected s1 ++ rejected s2.
Proof.
  induction s1 as [ | [req [d | e]] s1 IH]; simpl; rewrite ?IH; reflexivity.
Qed.

Lemma placed_app side es1 es2 : placed side (es1 ++ es2) = placed side es1 ++ placed side es2.
Proof. unfold placed. now rewrite submissions_app, filter_app, filled_app. Qed.

Lemma exchange_errors_only_app (s1 s2 : list (order_request F * result F (dict F))) :
  exchange_errors_only (s1 ++ s2) = exchange_errors_only s1 && exchange_errors_only s2.
Proof. unfold exchange_errors_only. now rewrite rejected_app, forallb_app. Qed.

(** Output leaves no trace in the projections. *)
Lemma output_submissions es : forallb is_output es = true -> submissions es = [].
Proof.
  induction es as [ | ev es IH]; simpl; [ reflexivity | ].
  destruct ev; simpl; try discriminate; exact IH.
Qed.

Lemma output_schedule es : forallb is_output es = true -> schedule es = [].
Proof.
  induction es as [ | ev es IH]; simpl; [ reflexivity | ].
  destruct ev; simpl; try discriminate; exact IH.
Qed.

Lemma output_network es : forallb is_output es = true -> filter is_network es = [].
Proof.
  induction es as [ | ev es IH]; simpl; [ reflexivity | ].
  destruct ev; simpl; try discriminate; exact IH.
Qed.

Lemma output_requests es : forallb is_output es = true -> requests es = [].
Proof. intros H. unfold requests. now rewrite output_submissions. Qed.

Lemma output_placed side es : forallb is_output es = true -> placed side es = [].
Proof. intros H. unfold placed. now rewrite output_submissions. Qed.

Lemma submissions_cons_output ev es :
  is_output ev = true -> submissions (ev :: es) = submissions es.
Proof. destruct ev; try discriminate; reflexivity. Qed.

Lemma schedule_cons_output ev es : is_output ev = true -> schedule (ev :: es) = schedule es.
Proof. destruct ev; try discriminate; reflexivity. Qed.

Lemma network_cons_output ev es :
  is_output ev = true -> filter is_network (ev :: es) = filter is_network es.
Proof. destruct ev; try discriminate; reflexivity. Qed.

End Events.

(** ** One iteration and the whole loop of the grid strategy *)

Section GridLoop.

Context {F : Type} {num : FloatOps F}.
Variable ex : Exchange F.
Variables (symbol : string) (quantity current_price : F).


Lemma place_grid_order_iteration (price : F) (buys sells : list (dict F)) (h : history F) :
  grid_iteration ex symbol quantity current_price price buys sells h
    (fst (place_grid_order ex symbol quantity current_price price (buys, sells) h))
    (snd (place_grid_order ex symbol quantity current_price price (buys, sells) h)).
Proof.
  unfold place_grid_order, grid_order, try_except, bind, client_futures_create_order,
    logger_info, logger_error, print, emit, ret.
  destruct (f_ltb price current_price) eqn:Hlt.
  - destruct (futures_create_order ex h (limit_order symbol "BUY" quantity price))
      as [order | e] eqn:Hreply; simpl.
    + eapply GridBuy; eauto. unfold grid_order. now rewrite Hlt.
    + destruct (is_binance e) eqn:He; simpl.
      * eapply GridRejected; eauto.
        -- unfold grid_order. now rewrite Hlt.
        -- apply Exists_cons_hd. do 2 eexists. split; [ reflexivity | simpl; auto ].
      * eapply GridAbort; eauto. unfold grid_order. now rewrite Hlt.
  - destruct (f_ltb current_price price) eqn:Hgt.
    + destruct (futures_create_order ex h (limit_order symbol "SELL" quantity price))
        as [order | e] eqn:Hreply; simpl.
      * eapply GridSell; eauto. unfold grid_order. now rewrite Hlt, Hgt.
      * destruct (is_binance e) eqn:He; simpl.
        -- eapply GridRejected; eauto.
           ++ unfold grid_order. now rewrite Hlt, Hgt.
           ++ apply Exists_cons_hd. do 2 eexists. split; [ reflexivity | simpl; auto ].
        -- eapply GridAbort; eauto. unfold grid_order. now rewrite Hlt, Hgt.
    + simpl. apply GridSkip. unfold grid_order. now rewrite Hlt, Hgt.
Qed.

Lemma grid_plan_cons (price : F) (rest : list F) :
  grid_plan symbol quantity current_price (price :: rest) =
  match grid_order symbol quantity current_price price with
  | Some request => request :: grid_plan symbol quantity current_price rest
  | None => grid_plan symbol quantity current_price rest
  end.
Proof. reflexivity. Qed.

Lemma place_grid_orders_cons (price : F) (rest : list F)
    (orders : list (dict F) * list (dict F)) (h : history F) :
  place_grid_orders ex symbol quantity current_price (price :: rest) orders h =
  match place_grid_order ex symbol quantity current_price price orders h with
  | (Ok orders', es) =>
      let (r, es') :=
        place_grid_orders ex symbol quantity current_price rest orders' (h ++ es) in
      (r, es ++ es')
  | (Raise e, es) => (Raise e, es)
  end.
Proof. reflexivity. Qed.

(** The loop: when it ends normally every level was handled, the two lists
    grew by the orders placed, and only exchange errors were met; when it
    raises, the exception is an unexpected one, raised by the last
    submission made, and the levels after it were not tried. *)
Lemma place_grid_orders_spec (prices : list F) :
  forall (buys sells : list (dict F)) (h : history F) r es,
  place_grid_orders ex symbol quantity current_price prices (buys, sells) h = (r, es) ->
  filter is_network es = order_events (submissions es) /\
  schedule es = map Submit (requests es) /\
  match r with
  | Ok (buys', sells') =>
      requests es = grid_plan symbol quantity current_price prices /\
      buys' = buys ++ placed "BUY" es /\
      sells' = sells ++ placed "SELL" es /\
      exchange_errors_only (submissions es) = true
  | Raise e =>
      is_binance e = false /\
      exists subs request later,
        submissions es = subs ++ [(request, Raise e)] /\
        exchange_errors_only subs = true /\
        grid_plan symbol quantity current_price prices = map fst subs ++ request :: later
  end.
Proof.
  induction prices as [ | price rest IH]; intros buys sells h r es Hrun.
  - simpl in Hrun. injection Hrun as <- <-. simpl.
    rewrite !app_nil_r. repeat split; reflexivity.
  - rewrite place_grid_orders_cons in Hrun. rewrite grid_plan_cons.
    pose proof (place_grid_order_iteration price buys sells h) as Hit.
    destruct (place_grid_order ex symbol quantity current_price price (buys, sells) h)
      as [r1 es1]. simpl in Hit.
    inversion Hit as
      [ Hnone Hr Hes
      | request order logs Hsome Hside Hreply Hlogs Hr Hes
      | request order logs Hsome Hside Hreply Hlogs Hr Hes
      | request e logs Hsome Hreply Hbin Hlogs Hlogged Hr Hes
      | request e Hsome Hreply Hbin Hr Hes ]; subst r1 es1.
    + (* the level equals the current price *)
      destruct (place_grid_orders ex symbol quantity current_price rest (buys, sells) (h ++ []))
        as [r2 es2] eqn:Hrest.
      injection Hrun as <- <-. rewrite Hnone. simpl.
      exact (IH _ _ _ _ _ Hrest).
    + (* a buy order placed *)
      destruct (place_grid_orders ex symbol quantity current_price rest
                  (buys ++ [order], sells) (h ++ EvCreateOrder request (Ok order) :: logs))
        as [r2 es2] eqn:Hrest.
      injection Hrun as <- <-. rewrite Hsome.
      destruct (IH _ _ _ _ _ Hrest) as (Hnet & Hsched & Hres).
      unfold requests, placed, on_side in *.
      simpl. rewrite filter_app, schedule_app, submissions_app, map_app.
      rewrite (output_network _ Hlogs), (output_schedule _ Hlogs),
        (output_submissions _ Hlogs). simpl.
      rewrite Hnet, Hsched. split; [ reflexivity | split; [ reflexivity | ] ].
      destruct r2 as [[buys' sells'] | e'].
      * destruct Hres as (Hreq & Hb & Hs & Hex). rewrite Hside. simpl.
        rewrite Hreq, Hb, Hs, <- app_assoc. auto.
      * destruct Hres as (Hbin & subs & request' & later & Hsubs & Hex & Hplan).
        split; [ exact Hbin | ].
        exists ((request, Ok order) :: subs), request', later.
        rewrite Hsubs, Hplan. auto.
    + (* a sell order placed *)
      destruct (place_grid_orders ex symbol quantity current_price rest
                  (buys, sells ++ [order]) (h ++ EvCreateOrder request (Ok order) :: logs))
        as [r2 es2] eqn:Hrest.
      injection Hrun as <- <-. rewrite Hsome.
      destruct (IH _ _ _ _ _ Hrest) as (Hnet & Hsched & Hres).
      unfold requests, placed, on_side in *.
      simpl. rewrite filter_app, schedule_app, submissions_app, map_app.
      rewrite (output_network _ Hlogs), (output_schedule _ Hlogs),
        (output_submissions _ Hlogs). simpl.
      rewrite Hnet, Hsched. split; [ reflexivity | split; [ reflexivity | ] ].
      destruct r2 as [[buys' sells'] | e'].
      * destruct Hres as (Hreq & Hb & Hs & Hex). rewrite Hside. simpl.
        rewrite Hreq, Hb, Hs, <- app_assoc. auto.
      * destruct Hres as (Hbin & subs & request' & later & Hsubs & Hex & Hplan).
        split; [ exact Hbin | ].
        exists ((request, Ok order) :: subs), request', later.
        rewrite Hsubs, Hplan. auto.
    + (* the exchange rejected the order *)
      destruct (place_grid_orders ex symbol quantity current_price rest
                  (buys, sells) (h ++ EvCreateOrder request (Raise e) :: logs))
        as [r2 es2] eqn:Hrest.
      injection Hrun as <- <-. rewrite Hsome.
      destruct (IH _ _ _ _ _ Hrest) as (Hnet & Hsched & Hres).
      unfold requests, placed, on_side, exchange_errors_only in *.
      simpl. rewrite filter_app, schedule_app, submissions_app, map_app.
      rewrite (output_network _ Hlogs), (output_schedule _ Hlogs),
        (output_submissions _ Hlogs). simpl.
      rewrite Hnet, Hsched. split; [ reflexivity | split; [ reflexivity | ] ].
      destruct r2 as [[buys' sells'] | e'].
      * destruct Hres as (Hreq & Hb & Hs & Hex).
        destruct (String.eqb (o_side request) "BUY"), (String.eqb (o_side request) "SELL");
          simpl; rewrite Hreq, Hbin, Hex; auto.
      * destruct Hres as (Hbin' & subs & request' & later & Hsubs & Hex & Hplan).
        split; [ exact Hbin' | ].
        exists ((request, Raise e) :: subs), request', later.
        rewrite Hsubs, Hplan. simpl. rewrite Hbin, Hex. auto.
    + (* an unexpected error *)
      injection Hrun as <- <-. rewrite Hsome. simpl.
      split; [ reflexivity | split; [ reflexivity | ] ].
      split; [ exact Hbin | ].
      exists [], request, (grid_plan symbol quantity current_price rest). auto.
Qed.

End GridLoop.

(** ** One iteration and the whole loop of the TWAP strategy *)

Section TwapLoop.

Context {F : Type} {num : FloatOps F}.
Variable ex : Exchange F.
Variables (symbol side : string) (quantity_per_order : F).
Variables (num_orders interval_seconds : Z).

Local Abbreviation request := (market_order symbol side quantity_per_order).

(** What the clock raises is no exchange error. *)
Lemma sleep_error_unexpected (seconds : Z) (e : exn F) :
  sleep_error F seconds = Some e -> is_binance e = false.
Proof.
  unfold sleep_error. destruct (sleep_limit <? Z.abs seconds); [ intros [= <-]; reflexivity | ].
  destruct (seconds <? 0); [ intros [= <-]; reflexivity | discriminate ].
Qed.

Lemma execute_slice_iteration (i : Z) (executed : list (dict F)) (h : history F) :
  twap_iteration ex symbol side quantity_per_order num_orders interval_seconds
    i executed h
    (fst (execute_slice ex symbol side quantity_per_order num_orders interval_seconds
            i executed h))
    (snd (execute_slice ex symbol side quantity_per_order num_orders interval_seconds
            i executed h)).
Proof.
  unfold execute_slice, try_except, bind, client_futures_create_order,
    logger_info, logger_error, print, time_sleep, emit, ret, raise.
  destruct (futures_create_order ex h request) as [order | e] eqn:Hreply; simpl.
  - destruct (i <? num_orders - 1) eqn:Hi; simpl.
    + apply Z.ltb_lt in Hi.
      destruct (sleep_error F interval_seconds) as [e | ] eqn:Hsleep; simpl.
      * rewrite (sleep_error_unexpected _ _ Hsleep).
        eapply SliceSleepFailed
          with (logs := [EvLog _ _ _; EvPrint _; EvLog _ _ _; EvPrint _]);
          [ exact Hreply | exact Hi | exact Hsleep | reflexivity ].
      * eapply SlicePaused
          with (logs := [EvLog _ _ _; EvPrint _; EvLog _ _ _; EvPrint _]);
          [ exact Hreply | exact Hi | exact Hsleep | reflexivity ].
    + apply Z.ltb_ge in Hi.
      eapply SliceLast with (logs := [EvLog _ _ _; EvPrint _]);
        [ exact Hreply | exact Hi | reflexivity ].
  - destruct (is_binance e) eqn:He; simpl.
    + eapply SliceRejected; eauto.
      apply Exists_cons_hd. do 2 eexists. split; [ reflexivity | simpl; auto 10 ].
    + eapply SliceAbort; eauto.
Qed.

Lemma execute_slices_cons (i : Z) (rest : list Z) (executed : list (dict F))
    (h : history F) :
  execute_slices ex symbol side quantity_per_order num_orders interval_seconds
    (i :: rest) executed h =
  match execute_slice ex symbol side quantity_per_order num_orders interval_seconds
          i executed h with
  | (Ok executed', es) =>
      let (r, es') :=
        execute_slices ex symbol side quantity_per_order num_orders interval_seconds
          rest executed' (h ++ es) in
      (r, es ++ es')
  | (Raise e, es) => (Raise e, es)
  end.
Proof. reflexivity. Qed.

Lemma pauses_follow_success_output (logs es : list (event F)) (b : bool) :
  forallb is_output logs = true ->
  pauses_follow_success (logs ++ es) b = pauses_follow_success es b.
Proof.
  induction logs as [ | ev logs IH]; simpl; [ reflexivity | ].
  destruct ev; simpl; try discriminate; exact IH.
Qed.

(** The loop: every slice sends the same market order; a pause follows a
    slice that was filled and is not the last, and nothing else; when the
    loop ends normally all slices were sent and the list grew by the filled
    ones; when it raises, the exception is an unexpected one: raised by the
    last submission made, or by the clock after a slice that was filled. *)
Lemma execute_slices_spec (indices : list Z) :
  forall (executed : list (dict F)) (h : history F) r es,
  execute_slices ex symbol side quantity_per_order num_orders interval_seconds
    indices executed h = (r, es) ->
  filter is_network es = order_events (submissions es) /\
  requests es = repeat request (List.length (submissions es)) /\
  schedule es =
    twap_schedule request num_orders interval_seconds
      (combine indices (map snd (submissions es))) /\
  (forall b, pauses_follow_success es b = true) /\
  match r with
  | Ok executed' =>
      List.length (submissions es) = List.length indices /\
      executed' = executed ++ filled (submissions es) /\
      exchange_errors_only (submissions es) = true
  | Raise e =>
      is_binance e = false /\
      (List.length (submissions es) <= List.length indices)%nat /\
      ((exists subs,
          submissions es = subs ++ [(request, Raise e)] /\
          exchange_errors_only subs = true) \/
       (sleep_error F interval_seconds = Some e /\
        exchange_errors_only (submissions es) = true /\
        exists subs order, submissions es = subs ++ [(request, Ok order)]))
  end.
Proof.
  induction indices as [ | i rest IH]; intros executed h r es Hrun.
  - simpl in Hrun. injection Hrun as <- <-. simpl.
    rewrite app_nil_r. repeat split; reflexivity.
  - rewrite execute_slices_cons in Hrun.
    pose proof (execute_slice_iteration i executed h) as Hit.
    destruct (execute_slice ex symbol side quantity_per_order num_orders
                interval_seconds i executed h) as [r1 es1]. simpl in Hit.
    inversion Hit as
      [ order logs Hreply Hi Hsleep Hlogs Hr Hes
      | order logs e Hreply Hi Hsleep Hlogs Hr Hes
      | order logs Hreply Hi Hlogs Hr Hes
      | e logs Hreply Hbin Hlogs Hlogged Hr Hes
      | e Hreply Hbin Hr Hes ]; subst r1 es1.
    + (* filled, then a pause *)
      match type of Hrun with
      | (let (_, _) := ?run in _) = _ => destruct run as [r2 es2] eqn:Hrest
      end.
      injection Hrun as <- <-.
      destruct (IH _ _ _ _ Hrest) as (Hnet & Hreq & Hsched & Hpause & Hres).
      unfold requests, exchange_errors_only in *.
      simpl. rewrite <- !app_assoc.
      rewrite !filter_app, !schedule_app, !submissions_app, !map_app.
      rewrite (output_network _ Hlogs), (output_schedule _ Hlogs),
        (output_submissions _ Hlogs). simpl.
      rewrite Hnet, Hreq, Hsched.
      apply Z.ltb_lt in Hi. rewrite Hi, Hsleep. simpl.
      split; [ reflexivity | split; [ reflexivity | split; [ reflexivity | ] ] ].
      split.
      * intros b. rewrite pauses_follow_success_output by exact Hlogs.
        simpl. apply Hpause.
      * destruct r2 as [executed' | e'].
        -- destruct Hres as (Hlen & Hexec & Hex).
           rewrite Hlen, Hexec, <- app_assoc. auto.
        -- destruct Hres as (Hbin & Hlen & Hcause).
           split; [ exact Hbin | ]. split; [ lia | ].
           destruct Hcause as [(subs & Hsubs & Hex) | (Hsl & Hex & subs & o & Hsubs)].
           ++ left. exists ((request, Ok order) :: subs). rewrite Hsubs. auto.
           ++ congruence.
    + (* filled, but the clock refuses the interval *)
      injection Hrun as <- <-.
      unfold requests, exchange_errors_only. simpl.
      rewrite (output_network _ Hlogs), (output_schedule _ Hlogs),
        (output_submissions _ Hlogs). simpl.
      apply Z.ltb_lt in Hi. rewrite Hi, Hsleep, combine_nil. simpl.
      split; [ reflexivity | split; [ reflexivity | split; [ reflexivity | ] ] ].
      split.
      * intros b. rewrite <- (app_nil_r logs).
        rewrite pauses_follow_success_output by exact Hlogs. reflexivity.
      * split; [ exact (sleep_error_unexpected _ _ Hsleep) | ]. split; [ lia | ].
        right. split; [ reflexivity | ]. split; [ reflexivity | ].
        exists [], order. reflexivity.
    + (* filled, the last slice *)
      match type of Hrun with
      | (let (_, _) := ?run in _) = _ => destruct run as [r2 es2] eqn:Hrest
      end.
      injection Hrun as <- <-.
      destruct (IH _ _ _ _ Hrest) as (Hnet & Hreq & Hsched & Hpause & Hres).
      unfold requests, exchange_errors_only in *.
      simpl.
      rewrite !filter_app, !schedule_app, !submissions_app, !map_app.
      rewrite (output_network _ Hlogs), (output_schedule _ Hlogs),
        (output_submissions _ Hlogs). simpl.
      rewrite Hnet, Hreq, Hsched.
      apply Z.ltb_ge in Hi. rewrite Hi. simpl.
      split; [ reflexivity | split; [ reflexivity | split; [ reflexivity | ] ] ].
      split.
      * intros b. rewrite pauses_follow_success_output by exact Hlogs. apply Hpause.
      * destruct r2 as [executed' | e'].
        -- destruct Hres as (Hlen & Hexec & Hex).
           rewrite Hlen, Hexec, <- app_assoc. auto.
        -- destruct Hres as (Hbin & Hlen & Hcause).
           split; [ exact Hbin | ]. split; [ lia | ].
           destruct Hcause as [(subs & Hsubs & Hex) | (Hsl & Hex & subs & o & Hsubs)].
           ++ left. exists ((request, Ok order) :: subs). rewrite Hsubs. auto.
           ++ right. split; [ exact Hsl | ]. split; [ exact Hex | ].
              exists ((request, Ok order) :: subs), o. rewrite Hsubs. reflexivity.
    + (* rejected by the exchange *)
      match type of Hrun with
      | (let (_, _) := ?run in _) = _ => destruct run as [r2 es2] eqn:Hrest
      end.
      injection Hrun as <- <-.
      destruct (IH _ _ _ _ Hrest) as (Hnet & Hreq & Hsched & Hpause & Hres).
      unfold requests, exchange_errors_only in *.
      simpl.
      rewrite !filter_app, !schedule_app, !submissions_app, !map_app.
      rewrite (output_network _ Hlogs), (output_schedule _ Hlogs),
        (output_submissions _ Hlogs). simpl.
      rewrite Hnet, Hreq, Hsched.
      split; [ reflexivity | split; [ reflexivity | split; [ reflexivity | ] ] ].
      split.
      * intros b. rewrite pauses_follow_success_output by exact Hlogs. apply Hpause.
      * destruct r2 as [executed' | e'].
        -- destruct Hres as (Hlen & Hexec & Hex).
           rewrite Hlen, Hexec, Hbin, Hex. auto.
        -- destruct Hres as (Hbin' & Hlen & Hcause).
           split; [ exact Hbin' | ]. split; [ lia | ].
           destruct Hcause as [(subs & Hsubs & Hex) | (Hsl & Hex & subs & o & Hsubs)].
           ++ left. exists ((request, Raise e) :: subs). rewrite Hsubs. simpl.
              rewrite Hbin, Hex. auto.
           ++ right. split; [ exact Hsl | ]. split; [ now rewrite Hbin, Hex | ].
              exists ((request, Raise e) :: subs), o. rewrite Hsubs. reflexivity.
    + (* an unexpected error *)
      injection Hrun as <- <-. simpl. rewrite combine_nil.
      split; [ reflexivity | split; [ reflexivity | split; [ reflexivity | ] ] ].
      split; [ intros b; reflexivity | ].
      split; [ exact Hbin | ]. split; [ lia | ].
      left. exists []. auto.
Qed.

End TwapLoop.

(** ** Sessions: what happens inside [try:] *)

Section Sessions.

Context {F : Type} {num : FloatOps F}.
Variable rt : PyRuntime F.
Variable ex : Exchange F.

Lemma bind_run {A B} (m : M F A) (k : A -> M F B) (h : history F) :
  bind m k h =
  match m h with
  | (Ok a, es) => let (r, es') := k a (h ++ es) in (r, es ++ es')
  | (Raise e, es) => (Raise e, es)
  end.
Proof. reflexivity. Qed.

Lemma get_binance_client_connection (h : history F) :
  connection ex h (fst (get_binance_client ex h)) (snd (get_binance_client ex h)).
Proof.
  unfold get_binance_client.
  destruct (getenv ex "BINANCE_API_KEY") as [api_key | ];
    [ destruct (getenv ex "BINANCE_API_SECRET") as [api_secret | ] | ];
    try (apply NoCredentials; reflexivity).
  destruct ((api_key =? "")%string || (api_secret =? "")%string);
    [ apply NoCredentials; reflexivity | ].
  unfold try_except, bind, client_init, logger_info, logger_error, emit, ret, raise.
  destruct (client_connect ex h api_key api_secret) as [[] | e] eqn:Hc; simpl.
  - apply Connected; [ exact Hc | reflexivity ].
  - destruct (is_binance e); simpl;
      (apply ConnectFailed; [ exact Hc | reflexivity | ];
       do 2 eexists; split; [ reflexivity | simpl; auto ]).
Qed.

Lemma connection_projections (h : history F) r es :
  connection ex h r es ->
  submissions es = [] /\ schedule es = [] /\
  (r = Ok tt -> exists api_key api_secret,
     filter is_network es = [EvConnect api_key api_secret (Ok tt)]).
Proof.
  intros Hc. inversion Hc as [ log Hlog | k s log Hk Hlog | k s e log Hk Hlog Hl ]; subst.
  - destruct log; try discriminate; simpl; repeat split; discriminate.
  - destruct log; try discriminate; simpl; repeat split; intros _; eauto.
  - destruct log; try discriminate; simpl; repeat split; discriminate.
Qed.

Lemma log_order_output (logger order_type symbol side : string) (quantity : F)
    (price stop_price : option F) (response : option (dict F)) (error : option (exn F))
    (h : history F) :
  exists line,
    log_order logger order_type symbol side quantity price stop_price response error h
      = (Ok tt, [line]) /\
    is_output line = true /\
    (forall e, error = Some e -> logs_error e line).
Proof.
  unfold log_order, logger_error, logger_info, emit.
  destruct error as [e | ].
  - eexists. split; [ reflexivity | ]. split; [ reflexivity | ].
    intros e' [= <-]. do 2 eexists. split; [ reflexivity | ].
    apply in_or_app. right. simpl. auto.
  - destruct response as [[ | item items] | ];
      (eexists; split; [ reflexivity | ]; split; [ reflexivity | discriminate ]).
Qed.

Lemma grid_session_shape (symbol : string) (quantity : F) (num_grids : Z)
    (levels : list F) (h : history F) r es :
  grid_session rt ex symbol quantity num_grids levels h = (r, es) ->
  grid_session_run rt ex symbol quantity num_grids levels h r es.
Proof.
  intros Hrun. unfold grid_session in Hrun. rewrite bind_run in Hrun.
  pose proof (get_binance_client_connection h) as Hc.
  destruct (get_binance_client ex h) as [[[] | e0] es0]; simpl in Hc;
    [ | injection Hrun as <- <-; apply GridNoClient; exact Hc ].
  rewrite bind_run in Hrun. unfold client_futures_symbol_ticker at 1 in Hrun.
  destruct (futures_symbol_ticker ex (h ++ es0) symbol) as [ticker | e] eqn:Ht;
    [ | injection Hrun as <- <-; apply GridNoTicker; assumption ].
  rewrite bind_run in Hrun. unfold lift at 1 in Hrun.
  fold (ticker_price rt ticker) in Hrun.
  destruct (ticker_price rt ticker) as [price | e] eqn:Hp;
    [ | injection Hrun as <- <-; eapply GridNoPrice; eassumption ].
  rewrite bind_run in Hrun. unfold logger_info at 1, emit at 1 in Hrun.
  rewrite bind_run in Hrun.
  rewrite <- !app_assoc in Hrun. simpl app in Hrun.
  destruct (place_grid_orders ex symbol quantity price levels ([], [])
              (h ++ es0 ++ [EvTicker symbol (Ok ticker);
                            EvLog "GridStrategy" INFO
                              [Txt "Current market price: "; Num price]]))
    as [[[buys sells] | e] es_loop] eqn:Hloop;
    [ | injection Hrun as <- <-;
        eapply GridLoopAbort with (logs := [_]); eauto ].
  rewrite bind_run in Hrun. unfold lift at 1, py_mul_int, py_float_of_int in Hrun.
  destruct (f_of_int num_grids) as [fn | ] eqn:Hn; simpl rbind in Hrun; cbv iota in Hrun;
    [ | injection Hrun as <- <-; rewrite app_nil_r;
        eapply GridQuantityOverflow with (logs := [_]); eauto ].
  rewrite bind_run in Hrun.
  match type of Hrun with
  | context [log_order ?a ?b ?c ?d ?q ?p ?sp ?resp ?err ?hh] =>
      destruct (log_order_output a b c d q p sp resp err hh) as (summary & Hlog & Hsum & _);
      rewrite Hlog in Hrun
  end.
  unfold ret in Hrun. simpl in Hrun.
  injection Hrun as <- <-.
  eapply GridDone with (logs := [_]) (summary := [summary]); eauto.
  cbn. now rewrite Hsum.
Qed.

Lemma twap_session_shape (symbol side : string) (total_quantity quantity_per_order : F)
    (num_orders interval_seconds : Z) (h : history F) r es :
  twap_session ex symbol side total_quantity quantity_per_order num_orders
    interval_seconds h = (r, es) ->
  twap_session_run ex symbol side quantity_per_order num_orders interval_seconds h r es.
Proof.
  intros Hrun. unfold twap_session in Hrun. rewrite bind_run in Hrun.
  pose proof (get_binance_client_connection h) as Hc.
  destruct (get_binance_client ex h) as [[[] | e0] es0]; simpl in Hc;
    [ | injection Hrun as <- <-; apply TwapNoClient; exact Hc ].
  rewrite bind_run in Hrun.
  destruct (execute_slices ex symbol side quantity_per_order num_orders interval_seconds
              (range num_orders) [] (h ++ es0))
    as [[executed | e] es_loop] eqn:Hloop;
    [ | injection Hrun as <- <-; eapply TwapLoopAbort; eauto ].
  rewrite bind_run in Hrun.
  match type of Hrun with
  | context [log_order ?a ?b ?c ?d ?q ?p ?sp ?resp ?err ?hh] =>
      destruct (log_order_output a b c d q p sp resp err hh) as (summary & Hlog & Hsum & _);
      rewrite Hlog in Hrun
  end.
  unfold ret in Hrun. simpl in Hrun.
  injection Hrun as <- <-.
  eapply TwapDone with (summary := [summary]); eauto.
  cbn. now rewrite Hsum.
Qed.

Lemma oco_session_shape (symbol side : string)
    (quantity price stop_price stop_limit_price : F) (h : history F) r es :
  oco_session ex symbol side quantity price stop_price stop_limit_price h = (r, es) ->
  oco_session_run ex
    (closing_order symbol (close_side_of side) "TAKE_PROFIT" quantity price price)
    (closing_order symbol (close_side_of side) "STOP" quantity stop_limit_price stop_price)
    h r es.
Proof.
  intros Hrun. unfold oco_session in Hrun. rewrite bind_run in Hrun.
  pose proof (get_binance_client_connection h) as Hc.
  destruct (get_binance_client ex h) as [[[] | e0] es0]; simpl in Hc;
    [ | injection Hrun as <- <-; apply OcoNoClient; exact Hc ].
  rewrite bind_run in Hrun. unfold client_futures_create_order at 1 in Hrun.
  match type of Hrun with
  | context [futures_create_order ex ?hh ?req] =>
      destruct (futures_create_order ex hh req) as [order1 | e] eqn:H1
  end;
    [ | injection Hrun as <- <-; apply OcoTakeProfitFailed; assumption ].
  rewrite bind_run in Hrun. unfold logger_info at 1, emit at 1 in Hrun.
  rewrite bind_run in Hrun. unfold client_futures_create_order at 1 in Hrun.
  rewrite <- !app_assoc in Hrun. simpl app in Hrun.
  match type of Hrun with
  | context [futures_create_order ex ?hh ?req] =>
      destruct (futures_create_order ex hh req) as [order2 | e] eqn:H2
  end;
    [ | injection Hrun as <- <-; eapply OcoStopFailed with (logs := [_]); eauto ].
  rewrite bind_run in Hrun. unfold logger_info at 1, emit at 1 in Hrun.
  rewrite bind_run in Hrun.
  match type of Hrun with
  | context [log_order ?a ?b ?c ?d ?q ?p ?sp ?resp ?err ?hh] =>
      destruct (log_order_output a b c d q p sp resp err hh) as (summary & Hlog & Hsum & _);
      rewrite Hlog in Hrun
  end.
  unfold ret in Hrun. simpl in Hrun.
  injection Hrun as <- <-.
  eapply OcoDone with (logs := [_]) (summary := [_; summary]); eauto.
  cbn. now rewrite Hsum.
Qed.

(** *** The [except] clauses: log, then raise again *)

Lemma try_except_reraises {A} (body : M F A) (failure : exn F -> M F A) (h : history F) :
  reraises failure ->
  match body h with
  | (Ok a, es) => try_except body (fun e => Some (failure e)) h = (Ok a, es)
  | (Raise e, es) =>
      exists e' logs,
        try_except body (fun e => Some (failure e)) h = (Raise e', es ++ logs) /\
        forallb is_output logs = true /\
        Exists (logs_error e) logs
  end.
Proof.
  intros Hf. unfold try_except.
  destruct (body h) as [[a | e] es]; [ reflexivity | ].
  destruct (Hf e (h ++ es)) as (e' & logs & -> & Hlogs & Hlogged).
  exists e', logs. auto.
Qed.

Lemma grid_failure_reraises (symbol : string) (quantity : F) (num_grids : Z) :
  reraises (grid_failure symbol quantity num_grids).
Proof.
  intros e h. unfold grid_failure. rewrite bind_run.
  assert (Hfirst : exists line,
            (if is_binance e
             then logger_error "GridStrategy" [Txt "Binance API error: "; Err e]
             else logger_error "GridStrategy"
                    [Txt "Unexpected error in grid strategy: "; Err e]) h
              = (Ok tt, [line]) /\ is_output line = true /\ logs_error e line).
  { destruct (is_binance e); eexists; (split; [ reflexivity | ]);
      (split; [ reflexivity | ]); do 2 eexists; (split; [ reflexivity | simpl; auto ]). }
  destruct Hfirst as (line & -> & Hline & Hlogged).
  rewrite bind_run. unfold lift at 1, py_mul_int, py_float_of_int.
  destruct (f_of_int num_grids) as [fn | ]; simpl rbind; cbv iota.
  - rewrite bind_run.
    match goal with
    | |- context [log_order ?a ?b ?c ?d ?q ?p ?sp ?resp ?err ?hh] =>
        destruct (log_order_output a b c d q p sp resp err hh) as (line2 & Hlog & Hl2 & _);
        rewrite Hlog
    end.
    unfold raise. simpl.
    exists e, [line; line2]. split; [ reflexivity | ]. simpl. rewrite Hline, Hl2.
    split; [ reflexivity | ]. apply Exists_cons_hd. exact Hlogged.
  - exists OverflowError, [line]. split; [ reflexivity | ]. simpl. rewrite Hline.
    split; [ reflexivity | ]. apply Exists_cons_hd. exact Hlogged.
Qed.

(** When [num_grids] converts to a float the handler raises the very
    exception it caught. *)
Lemma grid_failure_same (symbol : string) (quantity : F) (num_grids : Z) e h :
  f_of_int num_grids <> None ->
  exists logs, grid_failure symbol quantity num_grids e h = (Raise e, logs).
Proof.
  intros Hn. unfold grid_failure. rewrite bind_run.
  assert (Hfirst : exists line,
            (if is_binance e
             then logger_error "GridStrategy" [Txt "Binance API error: "; Err e]
             else logger_error "GridStrategy"
                    [Txt "Unexpected error in grid strategy: "; Err e]) h
              = (Ok tt, [line])).
  { destruct (is_binance e); eexists; reflexivity. }
  destruct Hfirst as (line & ->).
  rewrite bind_run. unfold lift at 1, py_mul_int, py_float_of_int.
  destruct (f_of_int num_grids) as [fn | ]; [ | contradiction ].
  simpl rbind; cbv iota. rewrite bind_run.
  match goal with
  | |- context [log_order ?a ?b ?c ?d ?q ?p ?sp ?resp ?err ?hh] =>
      destruct (log_order_output a b c d q p sp resp err hh) as (line2 & Hlog & Hl2 & _);
      rewrite Hlog
  end.
  unfold raise. simpl. eexists. reflexivity.
Qed.

Lemma twap_failure_reraises (symbol side : string) (total_quantity : F) :
  reraises (twap_failure symbol side total_quantity).
Proof.
  intros e h. unfold twap_failure. rewrite bind_run.
  unfold logger_error at 1, emit at 1. rewrite bind_run.
  match goal with
  | |- context [log_order ?a ?b ?c ?d ?q ?p ?sp ?resp ?err ?hh] =>
      destruct (log_order_output a b c d q p sp resp err hh) as (line2 & Hlog & Hl2 & _);
      rewrite Hlog
  end.
  unfold raise. simpl.
  eexists e, [_; line2]. split; [ reflexivity | ]. simpl. rewrite Hl2.
  split; [ reflexivity | ]. apply Exists_cons_hd.
  do 2 eexists. split; [ reflexivity | simpl; auto ].
Qed.

Lemma twap_failure_same (symbol side : string) (total_quantity : F) e h :
  exists logs, twap_failure symbol side total_quantity e h = (Raise e, logs).
Proof.
  unfold twap_failure. rewrite bind_run.
  unfold logger_error at 1, emit at 1. rewrite bind_run.
  match goal with
  | |- context [log_order ?a ?b ?c ?d ?q ?p ?sp ?resp ?err ?hh] =>
      destruct (log_order_output a b c d q p sp resp err hh) as (line2 & Hlog & Hl2 & _);
      rewrite Hlog
  end.
  unfold raise. simpl. eexists. reflexivity.
Qed.

Lemma oco_failure_reraises (symbol side : string) (quantity price stop_price : F) :
  reraises (oco_failure symbol side quantity price stop_price).
Proof.
  intros e h. unfold oco_failure. rewrite bind_run.
  assert (Hfirst : exists line,
            (if is_binance e
             then logger_error "OCOOrders" [Txt "Binance API error: "; Err e]
             else logger_error "OCOOrders"
                    [Txt "Unexpected error placing OCO order: "; Err e]) h
              = (Ok tt, [line]) /\ is_output line = true /\ logs_error e line).
  { destruct (is_binance e); eexists; (split; [ reflexivity | ]);
      (split; [ reflexivity | ]); do 2 eexists; (split; [ reflexivity | simpl; auto ]). }
  destruct Hfirst as (line & -> & Hline & Hlogged).
  rewrite bind_run.
  match goal with
  | |- context [log_order ?a ?b ?c ?d ?q ?p ?sp ?resp ?err ?hh] =>
      destruct (log_order_output a b c d q p sp resp err hh) as (line2 & Hlog & Hl2 & _);
      rewrite Hlog
  end.
  unfold raise. simpl.
  exists e, [line; line2]. split; [ reflexivity | ]. simpl. rewrite Hline, Hl2.
  split; [ reflexivity | ]. apply Exists_cons_hd. exact Hlogged.
Qed.

Lemma oco_failure_same (symbol side : string) (quantity price stop_price : F) e h :
  exists logs, oco_failure symbol side quantity price stop_price e h = (Raise e, logs).
Proof.
  destruct (oco_failure_reraises symbol side quantity price stop_price e h)
    as (e' & logs & Hrun & _).
  revert Hrun. unfold oco_failure. rewrite bind_run.
  destruct (is_binance e); unfold logger_error at 1, emit at 1; rewrite bind_run;
    match goal with
    | |- context [log_order ?a ?b ?c ?d ?q ?p ?sp ?resp ?err ?hh] =>
        destruct (log_order_output a b c d q p sp resp err hh) as (line2 & Hlog & Hl2 & _);
        rewrite Hlog
    end; unfold raise; simpl; intros _; eexists; reflexivity.
Qed.

End Sessions.

(** ** The three entry points *)

Section EntryPoints.

Context {F : Type} {num : FloatOps F}.
Variable rt : PyRuntime F.
Variable ex : Exchange F.

Lemma lift_run {A} (r : result F A) (h : history F) : lift r h = (r, []).
Proof. reflexivity. Qed.

(** After validation: the banner, then the guarded session. *)
Lemma setup_grid_strategy_valid
    (symbol quantity_per_grid lower_price upper_price num_grids : pyval F)
    (sym : string) (q lo hi : F) (n : Z) (step : F) (levels : list F) (h : history F) :
  grid_inputs rt symbol quantity_per_grid lower_price upper_price num_grids sym q lo hi n ->
  f_leb hi lo = false ->
  grid_step lo hi n = Ok step ->
  grid_levels lo step n = Ok levels ->
  setup_grid_strategy rt ex symbol quantity_per_grid lower_price upper_price num_grids h =
  let (r, es) :=
    try_except (grid_session rt ex sym q n levels)
      (fun e => Some (grid_failure sym q n e)) (h ++ grid_banner sym q lo hi n step) in
  (r, grid_banner sym q lo hi n step ++ es).
Proof.
  intros (Hs & Hq & Hlo & Hhi & Hn) Hle Hstep Hlevels.
  unfold setup_grid_strategy.
  rewrite bind_run, lift_run, Hs.
  rewrite bind_run, lift_run, Hq.
  rewrite bind_run, lift_run, Hlo.
  rewrite bind_run, lift_run, Hhi.
  rewrite bind_run, lift_run, Hn.
  rewrite Hle.
  rewrite bind_run, lift_run, Hstep.
  rewrite bind_run, lift_run, Hlevels.
  unfold logger_info, emit. rewrite !bind_run.
  rewrite !app_nil_r, <- !app_assoc. simpl app.
  unfold grid_banner.
  match goal with
  | |- context [try_except ?b ?f ?hh] => destruct (try_except b f hh) as [r es]
  end.
  reflexivity.
Qed.

(** A call that returns has passed validation and built its levels. *)
Lemma setup_grid_strategy_ok_inv
    (symbol quantity_per_grid lower_price upper_price num_grids : pyval F)
    (h : history F) res es :
  setup_grid_strategy rt ex symbol quantity_per_grid lower_price upper_price num_grids h
    = (Ok res, es) ->
  exists sym q lo hi n step levels,
    grid_inputs rt symbol quantity_per_grid lower_price upper_price num_grids sym q lo hi n /\
    f_leb hi lo = false /\
    grid_step lo hi n = Ok step /\
    grid_levels lo step n = Ok levels.
Proof.
  unfold setup_grid_strategy, grid_inputs.
  rewrite bind_run, lift_run.
  destruct (validate_symbol rt symbol) as [sym | ]; [ | discriminate ].
  rewrite bind_run, lift_run.
  destruct (validate_quantity rt quantity_per_grid) as [q | ]; [ | discriminate ].
  rewrite bind_run, lift_run.
  destruct (validate_price rt lower_price "lower price") as [lo | ]; [ | discriminate ].
  rewrite bind_run, lift_run.
  destruct (validate_price rt upper_price "upper price") as [hi | ]; [ | discriminate ].
  rewrite bind_run, lift_run.
  destruct (validate_positive_integer rt num_grids "number of grids") as [n | ];
    [ | discriminate ].
  destruct (f_leb hi lo) eqn:Hle; [ discriminate | ].
  rewrite bind_run, lift_run.
  destruct (grid_step lo hi n) as [step | ] eqn:Hstep; [ | discriminate ].
  rewrite bind_run, lift_run.
  destruct (grid_levels lo step n) as [levels | ] eqn:Hlevels; [ | discriminate ].
  intros _. exists sym, q, lo, hi, n, step, levels. auto 10.
Qed.

Lemma execute_twap_valid
    (symbol side total_quantity num_orders interval_seconds : pyval F)
    (sym sd : string) (total : F) (n interval : Z) (per_order : F) (h : history F) :
  twap_inputs rt symbol side total_quantity num_orders interval_seconds
    sym sd total n interval ->
  py_truediv_int total n = Ok per_order ->
  execute_twap rt ex symbol side total_quantity num_orders interval_seconds h =
  let (r, es) :=
    try_except (twap_session ex sym sd total per_order n interval)
      (fun e => Some (twap_failure sym sd total e))
      (h ++ twap_banner sym sd total per_order n interval) in
  (r, twap_banner sym sd total per_order n interval ++ es).
Proof.
  intros (Hs & Hsd & Hq & Hn & Hi) Hper.
  unfold execute_twap.
  rewrite bind_run, lift_run, Hs.
  rewrite bind_run, lift_run, Hsd.
  rewrite bind_run, lift_run, Hq.
  rewrite bind_run, lift_run, Hn.
  rewrite bind_run, lift_run, Hi.
  rewrite bind_run, lift_run, Hper.
  unfold logger_info, emit. rewrite !bind_run.
  rewrite !app_nil_r, <- !app_assoc. simpl app.
  unfold twap_banner.
  match goal with
  | |- context [try_except ?b ?f ?hh] => destruct (try_except b f hh) as [r es]
  end.
  reflexivity.
Qed.

Lemma execute_twap_ok_inv
    (symbol side total_quantity num_orders interval_seconds : pyval F)
    (h : history F) res es :
  execute_twap rt ex symbol side total_quantity num_orders interval_seconds h
    = (Ok res, es) ->
  exists sym sd total n interval per_order,
    twap_inputs rt symbol side total_quantity num_orders interval_seconds
      sym sd total n interval /\
    py_truediv_int total n = Ok per_order.
Proof.
  unfold execute_twap, twap_inputs.
  rewrite bind_run, lift_run.
  destruct (validate_symbol rt symbol) as [sym | ]; [ | discriminate ].
  rewrite bind_run, lift_run.
  destruct (validate_side rt side) as [sd | ]; [ | discriminate ].
  rewrite bind_run, lift_run.
  destruct (validate_quantity rt total_quantity) as [total | ]; [ | discriminate ].
  rewrite bind_run, lift_run.
  destruct (validate_positive_integer rt num_orders "number of orders") as [n | ];
    [ | discriminate ].
  rewrite bind_run, lift_run.
  destruct (validate_positive_integer rt interval_seconds "interval seconds")
    as [interval | ]; [ | discriminate ].
  rewrite bind_run, lift_run.
  destruct (py_truediv_int total n) as [per_order | ] eqn:Hper; [ | discriminate ].
  intros _. exists sym, sd, total, n, interval, per_order. auto 10.
Qed.

Lemma place_oco_order_valid
    (symbol side quantity price stop_price stop_limit_price : pyval F)
    (sym sd : string) (q p sp slp : F) (h : history F) :
  oco_inputs rt symbol side quantity price stop_price stop_limit_price sym sd q p sp slp ->
  place_oco_order rt ex symbol side quantity price stop_price stop_limit_price h =
  let (r, es) :=
    try_except (oco_session ex sym sd q p sp slp)
      (fun e => Some (oco_failure sym sd q p sp e))
      (h ++ oco_banner sym sd q p sp slp) in
  (r, oco_banner sym sd q p sp slp ++ es).
Proof.
  intros (Hs & Hsd & Hq & Hp & Hsp & Hslp).
  unfold place_oco_order.
  rewrite bind_run, lift_run, Hs.
  rewrite bind_run, lift_run, Hsd.
  rewrite bind_run, lift_run, Hq.
  rewrite bind_run, lift_run, Hp.
  rewrite bind_run, lift_run, Hsp.
  rewrite bind_run, lift_run, Hslp.
  unfold logger_info, emit. rewrite !bind_run.
  rewrite !app_nil_r, <- !app_assoc. simpl app.
  unfold oco_banner.
  match goal with
  | |- context [try_except ?b ?f ?hh] => destruct (try_except b f hh) as [r es]
  end.
  reflexivity.
Qed.

(** *** A run of an entry point, from the run of its session *)

Lemma setup_grid_strategy_session
    (symbol quantity_per_grid lower_price upper_price num_grids : pyval F)
    (sym : string) (q lo hi : F) (n : Z) (step : F) (levels : list F) (h : history F) :
  grid_inputs rt symbol quantity_per_grid lower_price upper_price num_grids sym q lo hi n ->
  f_leb hi lo = false ->
  grid_step lo hi n = Ok step ->
  grid_levels lo step n = Ok levels ->
  exists r_s es_s,
    grid_session_run rt ex sym q n levels (h ++ grid_banner sym q lo hi n step) r_s es_s /\
    match r_s with
    | Ok res =>
        setup_grid_strategy rt ex symbol quantity_per_grid lower_price upper_price
          num_grids h = (Ok res, grid_banner sym q lo hi n step ++ es_s)
    | Raise e =>
        exists e' logs,
          setup_grid_strategy rt ex symbol quantity_per_grid lower_price upper_price
            num_grids h = (Raise e', grid_banner sym q lo hi n step ++ es_s ++ logs) /\
          forallb is_output logs = true /\
          Exists (logs_error e) logs /\
          (f_of_int n <> None -> e' = e)
    end.
Proof.
  intros Hin Hle Hstep Hlevels.
  rewrite (setup_grid_strategy_valid _ _ _ _ _ _ _ _ _ _ _ _ h Hin Hle Hstep Hlevels).
  set (h' := h ++ grid_banner sym q lo hi n step).
  destruct (grid_session rt ex sym q n levels h') as [r_s es_s] eqn:Hs.
  exists r_s, es_s. split; [ apply grid_session_shape; exact Hs | ].
  unfold try_except. rewrite Hs.
  destruct r_s as [res | e]; [ reflexivity | ].
  destruct (grid_failure_reraises sym q n e (h' ++ es_s))
    as (e' & logs & Hf & Hlogs & Hlogged).
  rewrite Hf. exists e', logs. repeat split; auto.
  intros Hn. destruct (grid_failure_same sym q n e (h' ++ es_s) Hn) as (logs' & Hf').
  congruence.
Qed.

Lemma execute_twap_session
    (symbol side total_quantity num_orders interval_seconds : pyval F)
    (sym sd : string) (total : F) (n interval : Z) (per_order : F) (h : history F) :
  twap_inputs rt symbol side total_quantity num_orders interval_seconds
    sym sd total n interval ->
  py_truediv_int total n = Ok per_order ->
  exists r_s es_s,
    twap_session_run ex sym sd per_order n interval
      (h ++ twap_banner sym sd total per_order n interval) r_s es_s /\
    match r_s with
    | Ok res =>
        execute_twap rt ex symbol side total_quantity num_orders interval_seconds h
          = (Ok res, twap_banner sym sd total per_order n interval ++ es_s)
    | Raise e =>
        exists logs,
          execute_twap rt ex symbol side total_quantity num_orders interval_seconds h
            = (Raise e, twap_banner sym sd total per_order n interval ++ es_s ++ logs) /\
          forallb is_output logs = true /\
          Exists (logs_error e) logs
    end.
Proof.
  intros Hin Hper.
  rewrite (execute_twap_valid _ _ _ _ _ _ _ _ _ _ _ h Hin Hper).
  set (h' := h ++ twap_banner sym sd total per_order n interval).
  destruct (twap_session ex sym sd total per_order n interval h') as [r_s es_s] eqn:Hs.
  exists r_s, es_s. split; [ eapply twap_session_shape; exact Hs | ].
  unfold try_except. rewrite Hs.
  destruct r_s as [res | e]; [ reflexivity | ].
  destruct (twap_failure_reraises sym sd total e (h' ++ es_s))
    as (e' & logs & Hf & Hlogs & Hlogged).
  destruct (twap_failure_same sym sd total e (h' ++ es_s)) as (logs' & Hf').
  rewrite Hf. exists logs. repeat split; auto. congruence.
Qed.

Lemma place_oco_order_session
    (symbol side quantity price stop_price stop_limit_price : pyval F)
    (sym sd : string) (q p sp slp : F) (h : history F) :
  oco_inputs rt symbol side quantity price stop_price stop_limit_price sym sd q p sp slp ->
  exists r_s es_s,
    oco_session_run ex
      (closing_order sym (close_side_of sd) "TAKE_PROFIT" q p p)
      (closing_order sym (close_side_of sd) "STOP" q slp sp)
      (h ++ oco_banner sym sd q p sp slp) r_s es_s /\
    match r_s with
    | Ok res =>
        place_oco_order rt ex symbol side quantity price stop_price stop_limit_price h
          = (Ok res, oco_banner sym sd q p sp slp ++ es_s)
    | Raise e =>
        exists logs,
          place_oco_order rt ex symbol side quantity price stop_price stop_limit_price h
            = (Raise e, oco_banner sym sd q p sp slp ++ es_s ++ logs) /\
          forallb is_output logs = true /\
          Exists (logs_error e) logs
    end.
Proof.
  intros Hin.
  rewrite (place_oco_order_valid _ _ _ _ _ _ _ _ _ _ _ _ h Hin).
  set (h' := h ++ oco_banner sym sd q p sp slp).
  destruct (oco_session ex sym sd q p sp slp h') as [r_s es_s] eqn:Hs.
  exists r_s, es_s. split; [ eapply oco_session_shape; exact Hs | ].
  unfold try_except. rewrite Hs.
  destruct r_s as [res | e]; [ reflexivity | ].
  destruct (oco_failure_reraises sym sd q p sp e (h' ++ es_s))
    as (e' & logs & Hf & Hlogs & Hlogged).
  destruct (oco_failure_same sym sd q p sp e (h' ++ es_s)) as (logs' & Hf').
  rewrite Hf. exists logs. repeat split; auto. congruence.
Qed.

End EntryPoints.

(** ** Grid levels *)

Section Levels.

Context {F : Type} {num : FloatOps F}.

Lemma map_result_nth {A B} (f : A -> result F B) (l : list A) (bs : list B) (a0 : A) (b0 : B) :
  map_result f l = Ok bs ->
  List.length bs = List.length l /\
  forall k, (k < List.length l)%nat -> f (nth k l a0) = Ok (nth k bs b0).
Proof.
  revert bs. induction l as [ | a l IH]; intros bs H; simpl in H.
  - injection H as <-. split; [ reflexivity | simpl; lia ].
  - destruct (f a) as [b | ] eqn:Ha; simpl in H; [ | discriminate ].
    destruct (map_result f l) as [bs' | ] eqn:Hl; simpl in H; [ | discriminate ].
    injection H as <-. destruct (IH bs' eq_refl) as (Hlen & Hnth).
    split; [ simpl; now rewrite Hlen | ].
    intros [ | k] Hk; simpl; [ exact Ha | apply Hnth; simpl in Hk; lia ].
Qed.

Lemma map_result_total {A B} (f : A -> result F B) (l : list A) :
  (forall a, In a l -> exists b, f a = Ok b) ->
  exists bs, map_result f l = Ok bs.
Proof.
  induction l as [ | a l IH]; intros H; simpl.
  - eauto.
  - destruct (H a (or_introl eq_refl)) as (b & ->).
    destruct IH as (bs & ->); [ intros a' Ha'; apply H; now right | ].
    simpl. eauto.
Qed.

Lemma range_length (n : Z) : List.length (range n) = Z.to_nat n.
Proof. unfold range. now rewrite length_map, length_seq. Qed.

Lemma range_nth (n : Z) (k : nat) :
  (k < Z.to_nat n)%nat -> nth k (range n) 0 = Z.of_nat k.
Proof.
  intros Hk. unfold range.
  change 0 with (Z.of_nat 0). rewrite map_nth, seq_nth by exact Hk. reflexivity.
Qed.

Lemma range_in (n i : Z) : In i (range n) -> 0 <= i < n.
Proof.
  unfold range. rewrite in_map_iff. intros (k & <- & Hk).
  apply in_seq in Hk. lia.
Qed.

(** The comprehension succeeds when every index converts to a float. *)
Lemma grid_levels_total (lo step : F) (n : Z) :
  (forall i, 0 <= i < n -> f_of_int i <> None) ->
  exists levels, grid_levels lo step n = Ok levels.
Proof.
  intros H. unfold grid_levels. apply map_result_total.
  intros i Hi. apply range_in in Hi. unfold grid_level, py_float_of_int.
  destruct (f_of_int i) eqn:E; [ simpl; eauto | now apply H in Hi ].
Qed.

(** It has [num_grids] entries, and entry [i] is
    [lower_price + i * price_step]. *)
Lemma grid_levels_nth (lo step : F) (n : Z) (levels : list F) (d : F) :
  grid_levels lo step n = Ok levels ->
  List.length levels = Z.to_nat n /\
  forall i, 0 <= i < n ->
    exists fi, f_of_int i = Some fi /\
               nth (Z.to_nat i) levels d = f_add lo (f_mul fi step).
Proof.
  intros H. unfold grid_levels in H.
  destruct (map_result_nth _ _ _ 0 d H) as (Hlen & Hnth).
  rewrite range_length in Hlen, Hnth. split; [ exact Hlen | ].
  intros i Hi. specialize (Hnth (Z.to_nat i) ltac:(lia)).
  rewrite range_nth, Z2Nat.id in Hnth by lia.
  unfold grid_level, py_float_of_int in Hnth.
  destruct (f_of_int i) as [fi | ]; simpl in Hnth; [ | discriminate ].
  injection Hnth as Hnth. eauto.
Qed.

(** [grid_step] succeeds exactly on a divisor that converts and is not
    zero. *)
Lemma grid_step_ok (lo hi : F) (n : Z) (step : F) :
  grid_step lo hi n = Ok step <->
  n <> 1 /\ exists d, f_of_int (n - 1) = Some d /\ step = f_div (f_sub hi lo) d.
Proof.
  unfold grid_step, py_truediv_int, py_float_of_int.
  destruct (f_of_int (n - 1)) as [d | ]; simpl.
  - destruct (n - 1 =? 0) eqn:E.
    + apply Z.eqb_eq in E. split; [ discriminate | intros (Hn & _); lia ].
    + apply Z.eqb_neq in E. split.
      * intros [= <-]. split; [ lia | eauto ].
      * intros (_ & d' & [= <-] & ->). reflexivity.
  - split; [ discriminate | intros (_ & d & Hd & _); discriminate ].
Qed.

Lemma validate_positive_integer_ok (rt : PyRuntime F) (value : pyval F) (name : string)
    (n : Z) :
  validate_positive_integer rt value name = Ok n -> 0 < n.
Proof.
  unfold validate_positive_integer, or_validation_error.
  destruct (py_int rt value) as [z | e]; simpl.
  - destruct (z <=? 0) eqn:E; [ discriminate | ].
    intros [= <-]. apply Z.leb_gt in E. exact E.
  - destruct (is_value_or_type_error e); discriminate.
Qed.

End Levels.

(** ** The claims about runs, for any float arithmetic *)

Section Strategies.

Context {F : Type} {num : FloatOps F}.
Variable rt : PyRuntime F.
Variable ex : Exchange F.

Lemma validate_side_ok (side : pyval F) (sd : string) :
  validate_side rt side = Ok sd -> sd = "BUY" \/ sd = "SELL".
Proof.
  unfold validate_side. destruct side; try discriminate.
  destruct (negb (py_truthy (PyStr s))); [ discriminate | ].
  destruct (String.eqb (str_upper rt s) "BUY") eqn:Hb; simpl.
  - intros [= <-]. left. now apply String.eqb_eq.
  - destruct (String.eqb (str_upper rt s) "SELL") eqn:Hs; simpl; [ | discriminate ].
    intros [= <-]. right. now apply String.eqb_eq.
Qed.

Lemma connection_failed_quiet (h : history F) e es :
  connection ex h (Raise e) es -> submissions es = [].
Proof. intros Hc. now destruct (connection_projections ex h _ _ Hc). Qed.

(** *** The grid strategy *)

Lemma connection_no_ticker (h : history F) r es0 sym t :
  connection ex h r es0 -> ~ In (EvTicker sym t) es0.
Proof.
  intros Hc Hin.
  inversion Hc as [ log Hlog | k s log Hk Hlog | k s e log Hk Hlog Hl ]; subst;
    simpl in Hin; intuition (try discriminate); subst; discriminate.
Qed.

Lemma output_no_ticker (es : list (event F)) sym t :
  forallb is_output es = true -> ~ In (EvTicker sym t) es.
Proof.
  intros Hq Hin. rewrite forallb_forall in Hq. apply Hq in Hin. discriminate.
Qed.

Lemma grid_banner_output (sym : string) (q lo hi : F) (n : Z) (step : F) :
  forallb is_output (grid_banner sym q lo hi n step) = true.
Proof. reflexivity. Qed.

(** What a call that returns has done. *)
Lemma setup_grid_strategy_ok
    (symbol quantity_per_grid lower_price upper_price num_grids : pyval F)
    (h : history F) res es :
  setup_grid_strategy rt ex symbol quantity_per_grid lower_price upper_price num_grids h
    = (Ok res, es) ->
  exists sym q lo hi n step api_key api_secret ticker,
    grid_inputs rt symbol quantity_per_grid lower_price upper_price num_grids sym q lo hi n /\
    f_leb hi lo = false /\
    grid_step lo hi n = Ok step /\
    grid_levels lo step n = Ok (grid_prices res) /\
    filter is_network es =
      EvConnect api_key api_secret (Ok tt) :: EvTicker sym (Ok ticker)
        :: order_events (submissions es) /\
    ticker_price rt ticker = Ok (current_price res) /\
    schedule es = map Submit (requests es) /\
    requests es = grid_plan sym q (current_price res) (grid_prices res) /\
    buy_orders res = placed "BUY" es /\
    sell_orders res = placed "SELL" es /\
    exchange_errors_only (submissions es) = true.
Proof.
  intros Hrun.
  destruct (setup_grid_strategy_ok_inv rt ex _ _ _ _ _ _ _ _ Hrun)
    as (sym & q & lo & hi & n & step & levels & Hin & Hle & Hstep & Hlevels).
  destruct (setup_grid_strategy_session rt ex _ _ _ _ _ _ _ _ _ _ _ _ h
              Hin Hle Hstep Hlevels) as (r_s & es_s & Hsess & Hcall).
  destruct r_s as [res' | e];
    [ | destruct Hcall as (e' & logs & Hc & _); rewrite Hc in Hrun; discriminate ].
  pose proof (grid_banner_output sym q lo hi n step) as Hbanner.
  set (banner := grid_banner sym q lo hi n step) in *. clearbody banner.
  rewrite Hcall in Hrun. injection Hrun as <- <-.
  inversion Hsess as
    [ | | | |
    | es0 ticker price logs buys sells es_loop fn summary
        Hc Ht Hp Hlog Hloop Hn Hsum Hres Hes ]; subst.
  destruct (connection_projections ex _ _ _ Hc) as (Hs0 & Hsch0 & Hnet0).
  destruct (Hnet0 eq_refl) as (api_key & api_secret & Hnet0').
  destruct (place_grid_orders_spec ex sym q price levels _ _ _ _ _ Hloop)
    as (Hnet & Hsched & Hreq & Hb & Hs & Hex).
  exists sym, q, lo, hi, n, step, api_key, api_secret, ticker.
  cbn [grid_prices current_price buy_orders sell_orders].
  assert (Hsubs : submissions
            (banner ++ es0 ++ [EvTicker sym (Ok ticker)] ++ logs ++ es_loop ++ summary)
          = submissions es_loop).
  { rewrite !submissions_app, (output_submissions _ Hbanner), Hs0,
      (output_submissions _ Hlog), (output_submissions _ Hsum).
    cbn [submissions app]. now rewrite app_nil_r. }
  unfold requests, placed. rewrite Hsubs.
  fold (requests es_loop). fold (placed "BUY" es_loop). fold (placed "SELL" es_loop).
  split; [ exact Hin | ]. split; [ exact Hle | ]. split; [ exact Hstep | ].
  split; [ exact Hlevels | ].
  split.
  { rewrite !filter_app, (output_network _ Hbanner), Hnet0',
      (output_network _ Hlog), (output_network _ Hsum), Hnet.
    cbn [filter is_network app]. now rewrite app_nil_r. }
  split; [ exact Hp | ].
  split.
  { rewrite !schedule_app, (output_schedule _ Hbanner), Hsch0,
      (output_schedule _ Hlog), (output_schedule _ Hsum), Hsched.
    cbn [schedule app]. now rewrite app_nil_r. }
  auto.
Qed.

(** When a call returns: the connection and the price request succeeded,
    the ticker had a readable price, no submission raised anything but an
    exchange error, and [num_grids] converts to a float. *)
Lemma setup_grid_strategy_returns
    (symbol quantity_per_grid lower_price upper_price num_grids : pyval F)
    (sym : string) (q lo hi : F) (n : Z) (step : F) (levels : list F) (h : history F) :
  let call :=
    setup_grid_strategy rt ex symbol quantity_per_grid lower_price upper_price num_grids in
  grid_inputs rt symbol quantity_per_grid lower_price upper_price num_grids sym q lo hi n ->
  f_leb hi lo = false ->
  grid_step lo hi n = Ok step ->
  grid_levels lo step n = Ok levels ->
  f_of_int n <> None ->
  (exists ticker price,
     In (EvTicker sym (Ok ticker)) (effects call h) /\ ticker_price rt ticker = Ok price) ->
  exchange_errors_only (submissions (effects call h)) = true ->
  exists res, outcome call h = Ok res.
Proof.
  intros call Hin Hle Hstep Hlevels Hn (ticker & price & Hticker & Hprice) Hex.
  destruct (setup_grid_strategy_session rt ex _ _ _ _ _ _ _ _ _ _ _ _ h
              Hin Hle Hstep Hlevels) as (r_s & es_s & Hsess & Hcall).
  fold call in Hcall. unfold outcome, effects in *.
  destruct r_s as [res | e]; [ exists res; rewrite Hcall; reflexivity | exfalso ].
  pose proof (grid_banner_output sym q lo hi n step) as Hbanner.
  set (banner := grid_banner sym q lo hi n step) in *. clearbody banner.
  destruct Hcall as (e' & logs & Hcall & Hlogs & _). rewrite Hcall in *.
  cbn [fst snd] in *.
  rewrite !submissions_app, (output_submissions _ Hbanner),
    (output_submissions _ Hlogs), app_nil_r in Hex. cbn [app] in Hex.
  apply in_app_or in Hticker.
  destruct Hticker as [Hticker | Hticker];
    [ exact (output_no_ticker _ _ _ Hbanner Hticker) | ].
  apply in_app_or in Hticker.
  destruct Hticker as [Hticker | Hticker];
    [ | exact (output_no_ticker _ _ _ Hlogs Hticker) ].
  inversion Hsess as
    [ e0 es Hc
    | es0 e0 Hc Ht
    | es0 ticker' e0 Hc Ht Hp
    | es0 ticker' price' logs' e0 es_loop Hc Ht Hp Hlog Hloop
    | es0 ticker' price' logs' buys sells es_loop Hc Ht Hp Hlog Hloop Hn'
    | ]; subst.
  - exact (connection_no_ticker _ _ _ _ _ Hc Hticker).
  - apply in_app_or in Hticker. destruct Hticker as [Hticker | [Hticker | Hf]];
      [ exact (connection_no_ticker _ _ _ _ _ Hc Hticker) | discriminate | exact Hf ].
  - apply in_app_or in Hticker. destruct Hticker as [Hticker | [Hticker | Hf]];
      [ exact (connection_no_ticker _ _ _ _ _ Hc Hticker) | | exact Hf ].
    injection Hticker as <-. congruence.
  - destruct (place_grid_orders_spec ex sym q price' levels _ _ _ _ _ Hloop)
      as (_ & _ & Hbin & subs & request & later & Hsubs & _ & _).
    destruct (connection_projections ex _ _ _ Hc) as (Hs0 & _).
    rewrite !submissions_app, Hs0, (output_submissions _ Hlog) in Hex.
    cbn [submissions app] in Hex.
    rewrite Hsubs, exchange_errors_only_app in Hex.
    unfold exchange_errors_only at 2 in Hex. cbn in Hex. rewrite Hbin in Hex.
    rewrite andb_false_r in Hex. discriminate.
  - contradiction.
Qed.

(** *** The TWAP strategy *)

Lemma twap_banner_output (sym sd : string) (total per_order : F) (n interval : Z) :
  forallb is_output (twap_banner sym sd total per_order n interval) = true.
Proof. reflexivity. Qed.

Lemma pauses_follow_success_app (es1 es2 : list (event F)) (b : bool) :
  pauses_follow_success es1 b = true ->
  (forall b', pauses_follow_success es2 b' = true) ->
  pauses_follow_success (es1 ++ es2) b = true.
Proof.
  revert b. induction es1 as [ | ev es1 IH]; intros b H1 H2; simpl; [ apply H2 | ].
  destruct ev; simpl in *; try (apply IH; assumption).
  apply andb_true_iff in H1. destruct H1 as [-> H1]. simpl. apply IH; assumption.
Qed.

Lemma pauses_follow_success_quiet (es : list (event F)) (b : bool) :
  schedule es = [] -> pauses_follow_success es b = true.
Proof.
  revert b. induction es as [ | ev es IH]; intros b H; simpl; [ reflexivity | ].
  destruct ev; simpl in *; try discriminate; apply IH; assumption.
Qed.

(** What [pauses_follow_success] says of each pause: back from it, up to
    the latest submission or pause, there is nothing but events without
    schedule, and what is found there is a submission that succeeded. *)
Lemma pauses_follow_success_spec (es : list (event F)) (b : bool) :
  pauses_follow_success es b = true ->
  forall es1 seconds es2,
    es = es1 ++ EvSleep seconds :: es2 ->
    (b = true /\ schedule es1 = []) \/
    exists es0 request order logs,
      es1 = es0 ++ EvCreateOrder request (Ok order) :: logs /\ schedule logs = [].
Proof.
  revert b. induction es as [ | ev es IH]; intros b H es1 seconds es2 Hes.
  - destruct es1; discriminate.
  - destruct es1 as [ | ev1 es1]; simpl in Hes; injection Hes as Hev Hes; subst ev.
    + simpl in H. apply andb_true_iff in H. destruct H as [-> _]. left. auto.
    + assert (Hother :
        pauses_follow_success es b = true -> schedule [ev1] = [] ->
        (b = true /\ schedule (ev1 :: es1) = []) \/
        exists es0 request order logs,
          ev1 :: es1 = es0 ++ EvCreateOrder request (Ok order) :: logs /\
          schedule logs = []).
      { intros H' Hev1.
        destruct (IH _ H' _ _ _ Hes)
          as [(Hb & Hq) | (es0 & request & order & logs & -> & Hq)].
        - left. split; [ exact Hb | ].
          change (ev1 :: es1) with ([ev1] ++ es1). now rewrite schedule_app, Hev1, Hq.
        - right. exists (ev1 :: es0), request, order, logs. auto. }
      destruct ev1; try (apply Hother; [ exact H | reflexivity ]); simpl in H.
      * (* a submission *)
        destruct (IH _ H _ _ _ Hes)
          as [(Hb & Hq) | (es0 & request' & order & logs & -> & Hq)].
        -- right. destruct reply as [order | ]; [ | discriminate ].
           exists [], request, order, es1. auto.
        -- right. exists (EvCreateOrder request reply :: es0), request', order, logs. auto.
      * (* an earlier pause *)
        apply andb_true_iff in H. destruct H as [_ H].
        destruct (IH _ H _ _ _ Hes)
          as [(Hb & Hq) | (es0 & request' & order & logs & -> & Hq)];
          [ discriminate | ].
        right. exists (EvSleep seconds0 :: es0), request', order, logs. auto.
Qed.

(** What a call of [execute_twap] that returns has done. *)
Lemma execute_twap_ok
    (symbol side total_quantity num_orders interval_seconds : pyval F)
    (h : history F) res es :
  execute_twap rt ex symbol side total_quantity num_orders interval_seconds h
    = (Ok res, es) ->
  exists sym sd total n interval per_order api_key api_secret,
    twap_inputs rt symbol side total_quantity num_orders interval_seconds
      sym sd total n interval /\
    py_truediv_int total n = Ok per_order /\
    filter is_network es =
      EvConnect api_key api_secret (Ok tt) :: order_events (submissions es) /\
    requests es = repeat (market_order sym sd per_order) (Z.to_nat n) /\
    schedule es =
      twap_schedule (market_order sym sd per_order) n interval
        (combine (range n) (map snd (submissions es))) /\
    res = filled (submissions es) /\
    exchange_errors_only (submissions es) = true.
Proof.
  intros Hrun.
  destruct (execute_twap_ok_inv rt ex _ _ _ _ _ _ _ _ Hrun)
    as (sym & sd & total & n & interval & per_order & Hin & Hper).
  destruct (execute_twap_session rt ex _ _ _ _ _ _ _ _ _ _ _ h Hin Hper)
    as (r_s & es_s & Hsess & Hcall).
  destruct r_s as [res' | e];
    [ | destruct Hcall as (logs & Hc & _); rewrite Hc in Hrun; discriminate ].
  pose proof (twap_banner_output sym sd total per_order n interval) as Hbanner.
  set (banner := twap_banner sym sd total per_order n interval) in *. clearbody banner.
  rewrite Hcall in Hrun. injection Hrun as <- <-.
  inversion Hsess as [ | | es0 executed es_loop summary Hc Hloop Hsum Hres Hes ]; subst.
  destruct (connection_projections ex _ _ _ Hc) as (Hs0 & Hsch0 & Hnet0).
  destruct (Hnet0 eq_refl) as (api_key & api_secret & Hnet0').
  destruct (execute_slices_spec ex sym sd per_order n interval _ _ _ _ _ Hloop)
    as (Hnet & Hreq & Hsched & _ & Hlen & Hexec & Hex).
  exists sym, sd, total, n, interval, per_order, api_key, api_secret.
  assert (Hsubs : submissions (banner ++ es0 ++ es_loop ++ summary)
                  = submissions es_loop).
  { rewrite !submissions_app, (output_submissions _ Hbanner), Hs0,
      (output_submissions _ Hsum).
    cbn [app]. now rewrite app_nil_r. }
  unfold requests. rewrite Hsubs. fold (requests es_loop).
  split; [ exact Hin | ]. split; [ exact Hper | ].
  split.
  { rewrite !filter_app, (output_network _ Hbanner), Hnet0',
      (output_network _ Hsum), Hnet.
    cbn [app]. now rewrite app_nil_r. }
  split; [ rewrite Hreq, Hlen, range_length; reflexivity | ].
  split.
  { rewrite !schedule_app, (output_schedule _ Hbanner), Hsch0,
      (output_schedule _ Hsum), Hsched.
    cbn [app]. now rewrite app_nil_r. }
  auto.
Qed.

(** When a call of [execute_twap] returns: the connection succeeded and no
    submission raised anything but an exchange error. *)
Lemma execute_twap_returns
    (symbol side total_quantity num_orders interval_seconds : pyval F)
    (sym sd : string) (total : F) (n interval : Z) (per_order : F) (h : history F) :
  let call :=
    execute_twap rt ex symbol side total_quantity num_orders interval_seconds in
  twap_inputs rt symbol side total_quantity num_orders interval_seconds
    sym sd total n interval ->
  py_truediv_int total n = Ok per_order ->
  sleep_error F interval = None ->
  (exists api_key api_secret, In (EvConnect api_key api_secret (Ok tt)) (effects call h)) ->
  exchange_errors_only (submissions (effects call h)) = true ->
  exists res, outcome call h = Ok res.
Proof.
  intros call Hin Hper Hclock (api_key & api_secret & Hconn) Hex.
  destruct (execute_twap_session rt ex _ _ _ _ _ _ _ _ _ _ _ h Hin Hper)
    as (r_s & es_s & Hsess & Hcall).
  fold call in Hcall. unfold outcome, effects in *.
  destruct r_s as [res | e]; [ exists res; rewrite Hcall; reflexivity | exfalso ].
  pose proof (twap_banner_output sym sd total per_order n interval) as Hbanner.
  set (banner := twap_banner sym sd total per_order n interval) in *. clearbody banner.
  destruct Hcall as (logs & Hcall & Hlogs & _). rewrite Hcall in *.
  cbn [fst snd] in *.
  rewrite !submissions_app, (output_submissions _ Hbanner),
    (output_submissions _ Hlogs), app_nil_r in Hex. cbn [app] in Hex.
  assert (Hconn' : In (EvConnect api_key api_secret (Ok tt)) es_s).
  { apply in_app_or in Hconn. destruct Hconn as [Hconn | Hconn].
    - rewrite forallb_forall in Hbanner. apply Hbanner in Hconn. discriminate.
    - apply in_app_or in Hconn. destruct Hconn as [Hconn | Hconn]; [ exact Hconn | ].
      rewrite forallb_forall in Hlogs. apply Hlogs in Hconn. discriminate. }
  inversion Hsess as [ e0 es Hc | es0 e0 es_loop Hc Hloop | ]; subst.
  - inversion Hc as [ log Hlog | | k s e1 log Hk Hlog Hl ]; subst;
      simpl in Hconn'; intuition (try discriminate); subst; discriminate.
  - destruct (execute_slices_spec ex sym sd per_order n interval _ _ _ _ _ Hloop)
      as (_ & _ & _ & _ & Hbin & _ & [(subs & Hsubs & _) | (Hsl & _)]);
      [ | congruence ].
    destruct (connection_projections ex _ _ _ Hc) as (Hs0 & _).
    rewrite submissions_app, Hs0 in Hex. cbn [app] in Hex.
    rewrite Hsubs, exchange_errors_only_app in Hex.
    unfold exchange_errors_only at 2 in Hex. cbn in Hex. rewrite Hbin in Hex.
    rewrite andb_false_r in Hex. discriminate.
Qed.

(** In every call of [execute_twap] each pause follows a submission that
    succeeded. *)
Lemma execute_twap_pauses
    (symbol side total_quantity num_orders interval_seconds : pyval F) (h : history F) :
  pauses_follow_success
    (effects (execute_twap rt ex symbol side total_quantity num_orders interval_seconds) h)
    false = true.
Proof.
  unfold effects.
  assert (Hcases :
    (exists e,
       execute_twap rt ex symbol side total_quantity num_orders interval_seconds h
         = (Raise e, [])) \/
    exists sym sd total n interval per_order,
      twap_inputs rt symbol side total_quantity num_orders interval_seconds
        sym sd total n interval /\
      py_truediv_int total n = Ok per_order).
  { unfold execute_twap, twap_inputs.
    rewrite bind_run, lift_run.
    destruct (validate_symbol rt symbol) as [sym | ]; [ | left; eauto ].
    rewrite bind_run, lift_run.
    destruct (validate_side rt side) as [sd | ]; [ | left; eauto ].
    rewrite bind_run, lift_run.
    destruct (validate_quantity rt total_quantity) as [total | ]; [ | left; eauto ].
    rewrite bind_run, lift_run.
    destruct (validate_positive_integer rt num_orders "number of orders") as [n | ];
      [ | left; eauto ].
    rewrite bind_run, lift_run.
    destruct (validate_positive_integer rt interval_seconds "interval seconds")
      as [interval | ]; [ | left; eauto ].
    rewrite bind_run, lift_run.
    destruct (py_truediv_int total n) as [per_order | ] eqn:Hper; [ | left; eauto ].
    right. exists sym, sd, total, n, interval, per_order. auto 10. }
  destruct Hcases as [(e & ->) | (sym & sd & total & n & interval & per_order & Hin & Hper)];
    [ reflexivity | ].
  destruct (execute_twap_session rt ex _ _ _ _ _ _ _ _ _ _ _ h Hin Hper)
    as (r_s & es_s & Hsess & Hcall).
  pose proof (twap_banner_output sym sd total per_order n interval) as Hbanner.
  set (banner := twap_banner sym sd total per_order n interval) in *. clearbody banner.
  assert (Hsession : forall b, pauses_follow_success es_s b = true).
  { intros b.
    inversion Hsess as
      [ e0 es Hc | es0 e0 es_loop Hc Hloop
      | es0 executed es_loop summary Hc Hloop Hsum ]; subst.
    - apply pauses_follow_success_quiet.
      now destruct (connection_projections ex _ _ _ Hc) as (_ & ? & _).
    - destruct (execute_slices_spec ex sym sd per_order n interval _ _ _ _ _ Hloop)
        as (_ & _ & _ & Hp & _).
      apply pauses_follow_success_app; [ | exact Hp ].
      apply pauses_follow_success_quiet.
      now destruct (connection_projections ex _ _ _ Hc) as (_ & ? & _).
    - destruct (execute_slices_spec ex sym sd per_order n interval _ _ _ _ _ Hloop)
        as (_ & _ & _ & Hp & _).
      apply pauses_follow_success_app.
      + apply pauses_follow_success_quiet.
        now destruct (connection_projections ex _ _ _ Hc) as (_ & ? & _).
      + intros b'. apply pauses_follow_success_app; [ apply Hp | ].
        intros b''. apply pauses_follow_success_quiet.
        exact (output_schedule _ Hsum). }
  destruct r_s as [res | e].
  - rewrite Hcall. cbn [snd].
    apply pauses_follow_success_app; [ | exact Hsession ].
    apply pauses_follow_success_quiet. exact (output_schedule _ Hbanner).
  - destruct Hcall as (logs & -> & Hlogs & _). cbn [snd].
    apply pauses_follow_success_app.
    + apply pauses_follow_success_quiet. exact (output_schedule _ Hbanner).
    + intros b. apply pauses_follow_success_app; [ apply Hsession | ].
      intros b'. apply pauses_follow_success_quiet. exact (output_schedule _ Hlogs).
Qed.

End Strategies.

(** ** Runs, from what the exchange answers *)

Section Causes.

Context {F : Type} {num : FloatOps F}.
Variable rt : PyRuntime F.
Variable ex : Exchange F.

Lemma client_built (h : history F) (es0 : list (event F)) :
  get_binance_client ex h = (Ok tt, es0) ->
  submissions es0 = [] /\
  exists api_key api_secret, filter is_network es0 = [EvConnect api_key api_secret (Ok tt)].
Proof.
  intros H. pose proof (get_binance_client_connection ex h) as Hc.
  rewrite H in Hc. cbn [fst snd] in Hc.
  destruct (connection_projections ex _ _ _ Hc) as (Hs & _ & Hn). auto.
Qed.

Lemma client_failed (h : history F) (e : exn F) (es0 : list (event F)) :
  get_binance_client ex h = (Raise e, es0) -> submissions es0 = [].
Proof.
  intros H. pose proof (get_binance_client_connection ex h) as Hc.
  rewrite H in Hc. cbn [fst snd] in Hc. exact (connection_failed_quiet ex _ _ _ Hc).
Qed.

Lemma exchange_errors_only_in (subs : list (order_request F * result F (dict F)))
    (request : order_request F) (e : exn F) :
  exchange_errors_only subs = true -> In (request, Raise e) subs -> is_binance e = true.
Proof.
  unfold exchange_errors_only.
  induction subs as [ | [r [order | e']] subs IH]; simpl; intros Hex Hin.
  - contradiction.
  - destruct Hin as [Hin | Hin]; [ discriminate | auto ].
  - apply andb_true_iff in Hex. destruct Hex as [He Hex].
    destruct Hin as [[= _ <-] | Hin]; auto.
Qed.

(** *** The grid *)

Lemma grid_failure_run (sym : string) (q : F) (n : Z) (e : exn F) (h : history F) :
  f_of_int n <> None ->
  exists logs,
    grid_failure sym q n e h = (Raise e, logs) /\
    forallb is_output logs = true /\
    Exists (logs_error e) logs.
Proof.
  intros Hn.
  destruct (grid_failure_reraises sym q n e h) as (e' & logs & Hf & Hl & Hx).
  destruct (grid_failure_same sym q n e h Hn) as (logs' & Hf').
  rewrite Hf in Hf'. injection Hf' as -> _. exists logs. auto.
Qed.

Lemma grid_session_no_client (sym : string) (q : F) (n : Z) (levels : list F)
    (h : history F) (e : exn F) (es0 : list (event F)) :
  get_binance_client ex h = (Raise e, es0) ->
  grid_session rt ex sym q n levels h = (Raise e, es0).
Proof. intros H. unfold grid_session. rewrite bind_run, H. reflexivity. Qed.

Lemma grid_session_no_ticker (sym : string) (q : F) (n : Z) (levels : list F)
    (h : history F) (e : exn F) (es0 : list (event F)) :
  get_binance_client ex h = (Ok tt, es0) ->
  futures_symbol_ticker ex (h ++ es0) sym = Raise e ->
  grid_session rt ex sym q n levels h = (Raise e, es0 ++ [EvTicker sym (Raise e)]).
Proof.
  intros Hc Ht. unfold grid_session. rewrite bind_run, Hc.
  rewrite bind_run. unfold client_futures_symbol_ticker at 1. rewrite Ht. reflexivity.
Qed.

Lemma grid_session_no_price (sym : string) (q : F) (n : Z) (levels : list F)
    (h : history F) (e : exn F) (es0 : list (event F)) (ticker : dict F) :
  get_binance_client ex h = (Ok tt, es0) ->
  futures_symbol_ticker ex (h ++ es0) sym = Ok ticker ->
  ticker_price rt ticker = Raise e ->
  grid_session rt ex sym q n levels h = (Raise e, es0 ++ [EvTicker sym (Ok ticker)]).
Proof.
  intros Hc Ht Hp. unfold grid_session. rewrite bind_run, Hc.
  rewrite bind_run. unfold client_futures_symbol_ticker at 1. rewrite Ht.
  rewrite bind_run. unfold lift at 1. fold (ticker_price rt ticker). rewrite Hp.
  now rewrite app_nil_r.
Qed.

Lemma grid_session_priced (sym : string) (q : F) (n : Z) (levels : list F)
    (h : history F) (es0 : list (event F)) (ticker : dict F) (price : F) :
  get_binance_client ex h = (Ok tt, es0) ->
  futures_symbol_ticker ex (h ++ es0) sym = Ok ticker ->
  ticker_price rt ticker = Ok price ->
  f_of_int n <> None ->
  exists r_loop es_loop,
    place_grid_orders ex sym q price levels ([], [])
      (h ++ es0 ++ [EvTicker sym (Ok ticker); grid_price_line price]) = (r_loop, es_loop) /\
    match r_loop with
    | Ok orders =>
        exists summary,
          is_output summary = true /\
          grid_session rt ex sym q n levels h
          = (Ok {| buy_orders := fst orders; sell_orders := snd orders;
                   grid_prices := levels; current_price := price |},
             es0 ++ [EvTicker sym (Ok ticker); grid_price_line price] ++ es_loop
               ++ [summary])
    | Raise e =>
        grid_session rt ex sym q n levels h
        = (Raise e, es0 ++ [EvTicker sym (Ok ticker); grid_price_line price] ++ es_loop)
    end.
Proof.
  intros Hc Ht Hp Hn.
  assert (Hrun :
            grid_session rt ex sym q n levels h
            = let (r, es') :=
                bind (place_grid_orders ex sym q price levels ([], [])) (fun orders =>
                bind (lift (py_mul_int q n)) (fun quantity =>
                bind (log_order "GridStrategy" "GRID" sym "BOTH" quantity None None
                        (Some [("buy_count", PyInt (py_len (fst orders)));
                               ("sell_count", PyInt (py_len (snd orders)))]) None)
                     (fun _ =>
                ret {| buy_orders := fst orders; sell_orders := snd orders;
                       grid_prices := levels; current_price := price |})))
                  (h ++ es0 ++ [EvTicker sym (Ok ticker); grid_price_line price]) in
              (r, es0 ++ [EvTicker sym (Ok ticker); grid_price_line price] ++ es')).
  { unfold grid_session. rewrite bind_run, Hc.
    rewrite bind_run. unfold client_futures_symbol_ticker at 1. rewrite Ht.
    rewrite bind_run. unfold lift at 1. fold (ticker_price rt ticker). rewrite Hp.
    rewrite bind_run. unfold logger_info at 1, emit at 1.
    rewrite <- !app_assoc. simpl app. fold (grid_price_line price).
    match goal with
    | |- context [bind ?m ?k ?hh] => destruct (bind m k hh) as [r es']
    end.
    reflexivity. }
  rewrite Hrun. clear Hrun. rewrite bind_run.
  destruct (place_grid_orders ex sym q price levels ([], [])
              (h ++ es0 ++ [EvTicker sym (Ok ticker); grid_price_line price]))
    as [[orders | e] es_loop] eqn:Hloop.
  - exists (Ok orders), es_loop. split; [ reflexivity | ].
    rewrite bind_run. unfold lift at 1, py_mul_int, py_float_of_int.
    destruct (f_of_int n) as [fn | ]; [ | contradiction ].
    simpl rbind; cbv iota. rewrite bind_run.
    match goal with
    | |- context [log_order ?a ?b ?c ?d ?q' ?p ?sp ?resp ?err ?hh] =>
        destruct (log_order_output a b c d q' p sp resp err hh)
          as (summary & Hlog & Hsum & _);
        rewrite Hlog
    end.
    unfold ret. exists summary. split; [ exact Hsum | ].
    simpl. rewrite ?app_nil_r. reflexivity.
  - exists (Raise e), es_loop. split; reflexivity.
Qed.

Section GridCall.

Variables (symbol quantity_per_grid lower_price upper_price num_grids : pyval F).
Variables (sym : string) (q lo hi : F) (n : Z) (step : F) (levels : list F).
Hypothesis Hin :
  grid_inputs rt symbol quantity_per_grid lower_price upper_price num_grids sym q lo hi n.
Hypothesis Hle : f_leb hi lo = false.
Hypothesis Hstep : grid_step lo hi n = Ok step.
Hypothesis Hlevels : grid_levels lo step n = Ok levels.
Hypothesis Hconv : f_of_int n <> None.

Local Abbreviation call :=
  (setup_grid_strategy rt ex symbol quantity_per_grid lower_price upper_price num_grids).
Local Abbreviation banner := (grid_banner sym q lo hi n step).

(** The call, from what its guarded session did. *)
Lemma grid_call_of_session (h : history F) (r : result F (grid_result F))
    (es : list (event F)) :
  grid_session rt ex sym q n levels (h ++ banner) = (r, es) ->
  match r with
  | Ok res => call h = (Ok res, banner ++ es)
  | Raise e =>
      exists logs,
        call h = (Raise e, banner ++ es ++ logs) /\
        forallb is_output logs = true /\
        Exists (logs_error e) logs
  end.
Proof.
  intros Hs.
  rewrite (setup_grid_strategy_valid rt ex _ _ _ _ _ _ _ _ _ _ _ _ h Hin Hle Hstep Hlevels).
  unfold try_except. rewrite Hs. destruct r as [res | e]; [ reflexivity | ].
  destruct (grid_failure_run sym q n e ((h ++ banner) ++ es) Hconv)
    as (logs & -> & Hlogs & Hlogged).
  exists logs. auto.
Qed.

(** An error before the loop: the call raises it, after logging it, and
    has submitted nothing. *)
Lemma grid_call_before_loop (h : history F) (e : exn F) (es : list (event F)) :
  grid_session rt ex sym q n levels (h ++ banner) = (Raise e, es) ->
  submissions es = [] ->
  outcome call h = Raise e /\
  submissions (effects call h) = [] /\
  exists line, In line (effects call h) /\ logs_error e line.
Proof.
  intros Hs Hsub.
  destruct (grid_call_of_session h _ _ Hs) as (logs & Hcall & Hlogs & Hlogged).
  unfold outcome, effects. rewrite Hcall. cbn [fst snd].
  split; [ reflexivity | ]. split.
  - rewrite !submissions_app, (output_submissions _ (grid_banner_output sym q lo hi n step)),
      Hsub, (output_submissions _ Hlogs). reflexivity.
  - apply Exists_exists in Hlogged. destruct Hlogged as (line & Hline & Hl).
    exists line. split; [ | exact Hl ].
    apply in_or_app. right. apply in_or_app. right. exact Hline.
Qed.

Lemma grid_call_no_client (h : history F) (e : exn F) (es0 : list (event F)) :
  get_binance_client ex (h ++ banner) = (Raise e, es0) ->
  outcome call h = Raise e /\
  submissions (effects call h) = [] /\
  exists line, In line (effects call h) /\ logs_error e line.
Proof.
  intros Hc. apply (grid_call_before_loop h e es0).
  - exact (grid_session_no_client sym q n levels _ _ _ Hc).
  - exact (client_failed _ _ _ Hc).
Qed.

Lemma grid_call_no_ticker (h : history F) (e : exn F) (es0 : list (event F)) :
  get_binance_client ex (h ++ banner) = (Ok tt, es0) ->
  futures_symbol_ticker ex ((h ++ banner) ++ es0) sym = Raise e ->
  outcome call h = Raise e /\
  submissions (effects call h) = [] /\
  exists line, In line (effects call h) /\ logs_error e line.
Proof.
  intros Hc Ht. apply (grid_call_before_loop h e (es0 ++ [EvTicker sym (Raise e)])).
  - exact (grid_session_no_ticker sym q n levels _ _ _ Hc Ht).
  - destruct (client_built _ _ Hc) as (Hs0 & _). now rewrite submissions_app, Hs0.
Qed.

Lemma grid_call_no_price (h : history F) (e : exn F) (es0 : list (event F))
    (ticker : dict F) :
  get_binance_client ex (h ++ banner) = (Ok tt, es0) ->
  futures_symbol_ticker ex ((h ++ banner) ++ es0) sym = Ok ticker ->
  ticker_price rt ticker = Raise e ->
  outcome call h = Raise e /\
  submissions (effects call h) = [] /\
  exists line, In line (effects call h) /\ logs_error e line.
Proof.
  intros Hc Ht Hp. apply (grid_call_before_loop h e (es0 ++ [EvTicker sym (Ok ticker)])).
  - exact (grid_session_no_price sym q n levels _ _ _ _ Hc Ht Hp).
  - destruct (client_built _ _ Hc) as (Hs0 & _). now rewrite submissions_app, Hs0.
Qed.

(** Once the price is read: the price was asked once, before any order;
    the requests sent follow the plan of the levels, all of it when the
    call returns; the call returns exactly when the submissions met
    exchange errors only, and otherwise raises the error of its last
    submission, after logging it. *)
Lemma grid_call_priced (h : history F) (es0 : list (event F)) (ticker : dict F)
    (price : F) :
  get_binance_client ex (h ++ banner) = (Ok tt, es0) ->
  futures_symbol_ticker ex ((h ++ banner) ++ es0) sym = Ok ticker ->
  ticker_price rt ticker = Ok price ->
  (exists api_key api_secret,
     filter is_network (effects call h)
     = EvConnect api_key api_secret (Ok tt) :: EvTicker sym (Ok ticker)
         :: order_events (submissions (effects call h))) /\
  (exists later, grid_plan sym q price levels = requests (effects call h) ++ later) /\
  (exchange_errors_only (submissions (effects call h)) = true ->
   exists res,
     outcome call h = Ok res /\
     grid_prices res = levels /\
     current_price res = price /\
     requests (effects call h) = grid_plan sym q price levels /\
     buy_orders res = placed "BUY" (effects call h) /\
     sell_orders res = placed "SELL" (effects call h)) /\
  (forall res,
     outcome call h = Ok res ->
     exchange_errors_only (submissions (effects call h)) = true) /\
  (forall e,
     outcome call h = Raise e ->
     is_binance e = false /\
     (exists subs request,
        submissions (effects call h) = subs ++ [(request, Raise e)] /\
        exchange_errors_only subs = true) /\
     exists line, In line (effects call h) /\ logs_error e line).
Proof.
  intros Hc Ht Hp.
  destruct (grid_session_priced sym q n levels _ _ _ _ Hc Ht Hp Hconv)
    as (r_loop & es_loop & Hloop & Hsession).
  destruct (client_built _ _ Hc) as (Hs0 & api_key & api_secret & Hnet0).
  pose proof (grid_banner_output sym q lo hi n step) as Hbanner.
  destruct r_loop as [[buys sells] | e].
  - (* the loop ended *)
    destruct Hsession as (summary & Hsum & Hsession).
    pose proof (grid_call_of_session h _ _ Hsession) as Hcall. cbv beta iota in Hcall.
    destruct (place_grid_orders_spec ex sym q price levels _ _ _ _ _ Hloop)
      as (Hnet & _ & Hreq & Hb & Hs & Hex).
    unfold outcome, effects. rewrite Hcall. cbn [fst snd].
    assert (Hsubs : submissions
              (banner ++ es0 ++ [EvTicker sym (Ok ticker); grid_price_line price]
                 ++ es_loop ++ [summary])
            = submissions es_loop).
    { rewrite !submissions_app, (output_submissions _ Hbanner), Hs0.
      cbn [submissions grid_price_line app]. destruct summary; try discriminate;
        cbn [submissions]; now rewrite app_nil_r. }
    unfold requests, placed. rewrite Hsubs.
    fold (requests es_loop). fold (placed "BUY" es_loop). fold (placed "SELL" es_loop).
    split.
    { exists api_key, api_secret.
      rewrite !filter_app, (output_network _ Hbanner), Hnet0, Hnet.
      cbn [filter is_network grid_price_line app].
      destruct summary; try discriminate; cbn [filter is_network]; now rewrite app_nil_r. }
    split; [ exists []; now rewrite Hreq, app_nil_r | ].
    split.
    { intros _. eexists. split; [ reflexivity | ].
      cbn [grid_prices current_price buy_orders sell_orders fst snd]. auto. }
    split; [ intros res _; exact Hex | discriminate ].
  - (* the loop was aborted *)
    pose proof (grid_call_of_session h _ _ Hsession) as Hcall. cbv beta iota in Hcall.
    destruct Hcall as (logs & Hcall & Hlogs & Hlogged).
    destruct (place_grid_orders_spec ex sym q price levels _ _ _ _ _ Hloop)
      as (Hnet & _ & Hbin & subs & request & later & Hsubs' & Hex & Hplan).
    unfold outcome, effects. rewrite Hcall. cbn [fst snd].
    assert (Hsubs : submissions
              (banner ++ (es0 ++ [EvTicker sym (Ok ticker); grid_price_line price]
                 ++ es_loop) ++ logs)
            = submissions es_loop).
    { rewrite !submissions_app, (output_submissions _ Hbanner), Hs0,
        (output_submissions _ Hlogs).
      cbn [submissions grid_price_line app]. now rewrite app_nil_r. }
    unfold requests. rewrite Hsubs.
    split.
    { exists api_key, api_secret.
      rewrite !filter_app, (output_network _ Hbanner), Hnet0, Hnet,
        (output_network _ Hlogs).
      cbn [filter is_network grid_price_line app]. now rewrite app_nil_r. }
    split.
    { exists later. rewrite Hplan, Hsubs', map_app. cbn [map fst].
      now rewrite <- app_assoc. }
    split.
    { intros Hall. rewrite Hsubs', exchange_errors_only_app in Hall.
      unfold exchange_errors_only at 2 in Hall. cbn in Hall. rewrite Hbin in Hall.
      rewrite andb_false_r in Hall. discriminate. }
    split; [ discriminate | ].
    intros e' [= <-]. split; [ exact Hbin | ]. split; [ eauto | ].
    apply Exists_exists in Hlogged. destruct Hlogged as (line & Hline & Hl).
    exists line. split; [ | exact Hl ].
    apply in_or_app. right. apply in_or_app. right. exact Hline.
Qed.

(** A call that submitted an order had built its client and read the
    price. *)
Lemma grid_call_reached_loop (h : history F) :
  submissions (effects call h) <> [] ->
  exists es0 ticker price,
    get_binance_client ex (h ++ banner) = (Ok tt, es0) /\
    futures_symbol_ticker ex ((h ++ banner) ++ es0) sym = Ok ticker /\
    ticker_price rt ticker = Ok price.
Proof.
  intros Hsub.
  destruct (get_binance_client ex (h ++ banner)) as [[[] | e] es0] eqn:Hc.
  - destruct (futures_symbol_ticker ex ((h ++ banner) ++ es0) sym) as [ticker | e] eqn:Ht.
    + destruct (ticker_price rt ticker) as [price | e] eqn:Hp.
      * exists es0, ticker, price. auto.
      * destruct (grid_call_no_price h e es0 ticker Hc Ht Hp) as (_ & Hnone & _).
        contradiction.
    + destruct (grid_call_no_ticker h e es0 Hc Ht) as (_ & Hnone & _). contradiction.
  - destruct (grid_call_no_client h e es0 Hc) as (_ & Hnone & _). contradiction.
Qed.

End GridCall.

(** *** OCO *)

Lemma oco_failure_run (sym sd : string) (q p sp : F) (e : exn F) (h : history F) :
  exists logs,
    oco_failure sym sd q p sp e h = (Raise e, logs) /\
    forallb is_output logs = true /\
    Exists (logs_error e) logs.
Proof.
  destruct (oco_failure_reraises sym sd q p sp e h) as (e' & logs & Hf & Hl & Hx).
  destruct (oco_failure_same sym sd q p sp e h) as (logs' & Hf').
  rewrite Hf in Hf'. injection Hf' as -> _. exists logs. auto.
Qed.

Section OcoCall.

Variables (symbol side quantity price stop_price stop_limit_price : pyval F).
Variables (sym sd : string) (q p sp slp : F).
Hypothesis Hin :
  oco_inputs rt symbol side quantity price stop_price stop_limit_price sym sd q p sp slp.

Local Abbreviation call :=
  (place_oco_order rt ex symbol side quantity price stop_price stop_limit_price).
Local Abbreviation banner := (oco_banner sym sd q p sp slp).
Local Abbreviation tp := (closing_order sym (close_side_of sd) "TAKE_PROFIT" q p p).
Local Abbreviation sl := (closing_order sym (close_side_of sd) "STOP" q slp sp).

Lemma oco_call_of_session (h : history F) (r : result F (oco_result F))
    (es : list (event F)) :
  oco_session ex sym sd q p sp slp (h ++ banner) = (r, es) ->
  match r with
  | Ok res => call h = (Ok res, banner ++ es)
  | Raise e =>
      exists logs,
        call h = (Raise e, banner ++ es ++ logs) /\
        forallb is_output logs = true /\
        Exists (logs_error e) logs
  end.
Proof.
  intros Hs.
  rewrite (place_oco_order_valid rt ex _ _ _ _ _ _ _ _ _ _ _ _ h Hin).
  unfold try_except. rewrite Hs. destruct r as [res | e]; [ reflexivity | ].
  destruct (oco_failure_run sym sd q p sp e ((h ++ banner) ++ es))
    as (logs & -> & Hlogs & Hlogged).
  exists logs. auto.
Qed.

(** What a call that raised shows, from its session. *)
Lemma oco_call_raised (h : history F) (e : exn F) (es : list (event F)) :
  oco_session ex sym sd q p sp slp (h ++ banner) = (Raise e, es) ->
  outcome call h = Raise e /\
  submissions (effects call h) = submissions es /\
  exists line, In line (effects call h) /\ logs_error e line.
Proof.
  intros Hs.
  destruct (oco_call_of_session h _ _ Hs) as (logs & Hcall & Hlogs & Hlogged).
  unfold outcome, effects. rewrite Hcall. cbn [fst snd].
  split; [ reflexivity | ]. split.
  - rewrite !submissions_app, (output_submissions _ Hlogs). cbn [submissions app].
    now rewrite app_nil_r.
  - apply Exists_exists in Hlogged. destruct Hlogged as (line & Hline & Hl).
    exists line. split; [ | exact Hl ].
    apply in_or_app. right. apply in_or_app. right. exact Hline.
Qed.

Lemma oco_call_no_client (h : history F) (e : exn F) (es0 : list (event F)) :
  get_binance_client ex (h ++ banner) = (Raise e, es0) ->
  outcome call h = Raise e /\
  submissions (effects call h) = [] /\
  exists line, In line (effects call h) /\ logs_error e line.
Proof.
  intros Hc.
  assert (Hs : oco_session ex sym sd q p sp slp (h ++ banner) = (Raise e, es0)).
  { unfold oco_session. rewrite bind_run, Hc. reflexivity. }
  destruct (oco_call_raised h _ _ Hs) as (Hout & Hsub & Hlog).
  rewrite Hsub, (client_failed _ _ _ Hc). auto.
Qed.

Lemma oco_call_take_profit_refused (h : history F) (es0 : list (event F)) (e : exn F) :
  get_binance_client ex (h ++ banner) = (Ok tt, es0) ->
  futures_create_order ex ((h ++ banner) ++ es0) tp = Raise e ->
  outcome call h = Raise e /\
  submissions (effects call h) = [(tp, Raise e)] /\
  exists line, In line (effects call h) /\ logs_error e line.
Proof.
  intros Hc H1.
  assert (Hs : oco_session ex sym sd q p sp slp (h ++ banner)
               = (Raise e, es0 ++ [EvCreateOrder tp (Raise e)])).
  { unfold oco_session. rewrite bind_run, Hc. cbv zeta.
    rewrite bind_run. unfold client_futures_create_order at 1. rewrite H1. reflexivity. }
  destruct (oco_call_raised h _ _ Hs) as (Hout & Hsub & Hlog).
  destruct (client_built _ _ Hc) as (Hs0 & _).
  rewrite Hsub, submissions_app, Hs0. auto.
Qed.

Lemma oco_session_take_profit_placed (h : history F) (es0 : list (event F))
    (order1 : dict F) :
  get_binance_client ex h = (Ok tt, es0) ->
  futures_create_order ex (h ++ es0) tp = Ok order1 ->
  oco_session ex sym sd q p sp slp h
  = let (r, es') :=
      bind (client_futures_create_order ex sl) (fun stop_loss =>
      bind (logger_info "OCOOrders" [Txt "Stop loss order placed: "; Val (order_id stop_loss)])
           (fun _ =>
      bind (log_order "OCOOrders" "OCO" sym sd q (Some p) (Some sp)
              (Some [("take_profit", PyDict order1); ("stop_loss", PyDict stop_loss)])
              None) (fun _ =>
      ret {| take_profit := order1; stop_loss := stop_loss |})))
        ((h ++ es0) ++ [EvCreateOrder tp (Ok order1); take_profit_line order1]) in
    (r, es0 ++ [EvCreateOrder tp (Ok order1); take_profit_line order1] ++ es').
Proof.
  intros Hc H1. unfold oco_session. rewrite bind_run, Hc. cbv zeta.
  rewrite bind_run. unfold client_futures_create_order at 1. rewrite H1.
  rewrite bind_run. unfold logger_info at 1, emit at 1.
  rewrite <- !app_assoc. simpl app. fold (take_profit_line order1).
  match goal with
  | |- context [bind ?m ?k ?hh] => destruct (bind m k hh) as [r es']
  end.
  reflexivity.
Qed.

Lemma oco_call_stop_refused (h : history F) (es0 : list (event F)) (order1 : dict F)
    (e : exn F) :
  get_binance_client ex (h ++ banner) = (Ok tt, es0) ->
  futures_create_order ex ((h ++ banner) ++ es0) tp = Ok order1 ->
  futures_create_order ex
    (((h ++ banner) ++ es0) ++ [EvCreateOrder tp (Ok order1); take_profit_line order1]) sl
    = Raise e ->
  outcome call h = Raise e /\
  submissions (effects call h) = [(tp, Ok order1); (sl, Raise e)] /\
  exists line, In line (effects call h) /\ logs_error e line.
Proof.
  intros Hc H1 H2.
  assert (Hs : oco_session ex sym sd q p sp slp (h ++ banner)
               = (Raise e, es0 ++ [EvCreateOrder tp (Ok order1); take_profit_line order1]
                             ++ [EvCreateOrder sl (Raise e)])).
  { rewrite (oco_session_take_profit_placed _ _ _ Hc H1).
    rewrite bind_run. unfold client_futures_create_order at 1. rewrite H2. reflexivity. }
  destruct (oco_call_raised h _ _ Hs) as (Hout & Hsub & Hlog).
  destruct (client_built _ _ Hc) as (Hs0 & _).
  rewrite Hsub, submissions_app, Hs0. auto.
Qed.

Lemma oco_call_both_placed (h : history F) (es0 : list (event F)) (order1 order2 : dict F) :
  get_binance_client ex (h ++ banner) = (Ok tt, es0) ->
  futures_create_order ex ((h ++ banner) ++ es0) tp = Ok order1 ->
  futures_create_order ex
    (((h ++ banner) ++ es0) ++ [EvCreateOrder tp (Ok order1); take_profit_line order1]) sl
    = Ok order2 ->
  outcome call h = Ok {| take_profit := order1; stop_loss := order2 |} /\
  submissions (effects call h) = [(tp, Ok order1); (sl, Ok order2)].
Proof.
  intros Hc H1 H2.
  assert (Hs : exists summary,
            is_output summary = true /\
            oco_session ex sym sd q p sp slp (h ++ banner)
            = (Ok {| take_profit := order1; stop_loss := order2 |},
               es0 ++ [EvCreateOrder tp (Ok order1); take_profit_line order1]
                 ++ [EvCreateOrder sl (Ok order2);
                     EvLog "OCOOrders" INFO
                       [Txt "Stop loss order placed: "; Val (order_id order2)];
                     summary])).
  { rewrite (oco_session_take_profit_placed _ _ _ Hc H1).
    rewrite bind_run. unfold client_futures_create_order at 1. rewrite H2.
    rewrite bind_run. unfold logger_info at 1, emit at 1.
    rewrite bind_run.
    match goal with
    | |- context [log_order ?a ?b ?c ?d ?q' ?p' ?sp' ?resp ?err ?hh] =>
        destruct (log_order_output a b c d q' p' sp' resp err hh)
          as (summary & Hlog & Hsum & _);
        rewrite Hlog
    end.
    exists summary. split; [ exact Hsum | ]. unfold ret. reflexivity. }
  destruct Hs as (summary & Hsum & Hs).
  pose proof (oco_call_of_session h _ _ Hs) as Hcall. cbv beta iota in Hcall.
  destruct (client_built _ _ Hc) as (Hs0 & _).
  unfold outcome, effects. rewrite Hcall. cbn [fst snd].
  split; [ reflexivity | ].
  rewrite !submissions_app, Hs0. cbn [submissions app take_profit_line].
  destruct summary; try discriminate; reflexivity.
Qed.

End OcoCall.

(** *** TWAP *)


Section TwapCall.

Variables (symbol side total_quantity num_orders interval_seconds : pyval F).
Variables (sym sd : string) (total : F) (n interval : Z) (per_order : F).
Hypothesis Hin :
  twap_inputs rt symbol side total_quantity num_orders interval_seconds
    sym sd total n interval.
Hypothesis Hper : py_truediv_int total n = Ok per_order.

Local Abbreviation call :=
  (execute_twap rt ex symbol side total_quantity num_orders interval_seconds).
Local Abbreviation banner := (twap_banner sym sd total per_order n interval).
Local Abbreviation slice := (market_order sym sd per_order).




End TwapCall.


End Causes.


(** ** binary64 *)

Lemma binary64_of_int_small (i : Z) :
  Z.abs i < float_overflow_bound -> binary64_of_int i = Some (float_of_Z i).
Proof.
  intros H. unfold binary64_of_int. apply Z.ltb_lt in H. now rewrite H.
Qed.

Lemma binary64_of_int_some (i : Z) (x : float) :
  binary64_of_int i = Some x -> Z.abs i < float_overflow_bound /\ x = float_of_Z i.
Proof.
  unfold binary64_of_int. destruct (Z.abs i <? float_overflow_bound) eqn:E;
    [ | discriminate ].
  intros [= <-]. apply Z.ltb_lt in E. auto.
Qed.

(** A float below some other float and not [<= 0] is a positive finite
    number. *)
Lemma float_positive_finite (x y : float) :
  PrimFloat.leb x 0 = false -> PrimFloat.ltb x y = true ->
  exists m e, Prim2SF x = S754_finite false m e.
Proof.
  rewrite FloatAxioms.leb_spec, FloatAxioms.ltb_spec.
  change (Prim2SF 0) with (S754_zero false).
  unfold SFleb, SFltb.
  destruct (Prim2SF x) as [s | s | | s m e]; simpl; try discriminate.
  - destruct s; simpl; try discriminate.
    destruct (Prim2SF y) as [ | [ | ] | | ]; simpl; discriminate.
  - destruct s; simpl; try discriminate. eauto.
Qed.

(** A finite float is a zero or a finite number. *)
Lemma float_is_finite_spec (x : float) :
  float_is_finite x = true ->
  (exists s, Prim2SF x = S754_zero s) \/ (exists s m e, Prim2SF x = S754_finite s m e).
Proof.
  unfold float_is_finite. rewrite andb_true_iff, !FloatAxioms.ltb_spec.
  change (Prim2SF infinity) with (S754_infinity false).
  change (Prim2SF neg_infinity) with (S754_infinity true).
  unfold SFltb.
  destruct (Prim2SF x) as [s | s | | s m e]; simpl; eauto.
  - destruct s; simpl; intros [? ?]; discriminate.
  - intros [? ?]; discriminate.
Qed.

(** [lower_price + 0 * price_step] is [lower_price] when the step is
    finite. *)
Lemma float_first_level (lo hi step : float) :
  PrimFloat.leb lo 0 = false -> PrimFloat.ltb lo hi = true ->
  float_is_finite step = true ->
  (lo + float_of_Z 0 * step)%float = lo.
Proof.
  intros Hpos Hlt Hfin.
  destruct (float_positive_finite lo hi Hpos Hlt) as (m & e & Hlo).
  apply Prim2SF_inj. rewrite add_spec, mul_spec, Hlo.
  change (Prim2SF (float_of_Z 0)) with (S754_zero false).
  destruct (float_is_finite_spec step Hfin) as [(s & ->) | (s & m' & e' & ->)];
    reflexivity.
Qed.

Lemma float_ltb_not_eqb (x y : float) :
  PrimFloat.ltb x y = true -> PrimFloat.eqb x y = false.
Proof.
  intros H. destruct (PrimFloat.eqb x y) eqn:E; [ | reflexivity ].
  apply float_eqb_not_ltb in E. destruct E. congruence.
Qed.

(** ** Exact rationals *)

Lemma Qc_of_int_add (a b : Z) : Qc_of_int (a + b) = (Qc_of_int a + Qc_of_int b)%Qc.
Proof.
  unfold Qc_of_int, Qcplus. apply Q2Qc_eq_iff. cbn [this Q2Qc].
  rewrite !Qred_correct, inject_Z_plus. reflexivity.
Qed.

Lemma Qc_of_int_1 : Qc_of_int 1 = 1%Qc.
Proof. apply Qc_is_canon. reflexivity. Qed.

Lemma Qc_of_int_0 : Qc_of_int 0 = Q2Qc 0.
Proof. reflexivity. Qed.

Lemma Qc_of_int_nonzero (n : Z) : n <> 0 -> Qc_of_int n <> Q2Qc 0.
Proof.
  intros Hn H. unfold Qc_of_int in H. apply Q2Qc_eq_iff in H.
  unfold Qeq, inject_Z in H. simpl in H. lia.
Qed.

(** Without rounding the last level is the upper bound. *)
Lemma exact_last_level (lo hi : Qc) (n : Z) :
  n <> 1 ->
  (lo + Qc_of_int (n - 1) * ((hi - lo) / Qc_of_int (n - 1)))%Qc = hi.
Proof.
  intros Hn. pose proof (Qc_of_int_nonzero (n - 1) ltac:(lia)) as Hd.
  field. exact Hd.
Qed.

(** Without rounding two consecutive levels are one step apart. *)
Lemma exact_consecutive_levels (lo step : Qc) (i : Z) :
  ((lo + Qc_of_int (i + 1) * step) - (lo + Qc_of_int i * step))%Qc = step.
Proof. rewrite Qc_of_int_add, Qc_of_int_1. ring. Qed.

Lemma exact_first_level (lo step : Qc) : (lo + Qc_of_int 0 * step)%Qc = lo.
Proof. rewrite Qc_of_int_0. ring. Qed.

(** ** C1: the grid levels *)

(** C1, as stated, fails on the code: with [lower_price = 0.1],
    [upper_price = 1.0] and [num_grids = 4], all valid, the step is
    [0.3] and the last level is [0.1 + 3 * 0.3 = 0.9999999999999999], below
    the upper bound; and the levels [0.1, 0.4, 0.7, 0.9999999999999999] are
    not one step apart ([0.4 - 0.1 = 0.30000000000000004]). *)
Lemma C1_last_level_misses_upper_bound :
  exists res,
    outcome
      (setup_grid_strategy ascii_runtime (scripted_exchange (price_ticker 0.5%float) [])
         (PyStr "DOGEUSDT") (PyFloat 10%float)
         (PyFloat 0x1.999999999999ap-4%float) (PyFloat 1%float) (PyInt 4)) []
      = Ok res /\
    List.length (grid_prices res) = 4%nat /\
    nth 0 (grid_prices res) 0%float = 0x1.999999999999ap-4%float /\
    PrimFloat.ltb (nth 3 (grid_prices res) 0%float) 1%float = true /\
    nth 3 (grid_prices res) 0%float <> 1%float /\
    grid_step 0x1.999999999999ap-4%float 1%float 4 = Ok 0x1.3333333333333p-2%float /\
    (nth 1 (grid_prices res) 0 - nth 0 (grid_prices res) 0)%float
      <> 0x1.3333333333333p-2%float.
Proof.
  eexists. split; [ vm_compute; reflexivity | ].
  cbn [grid_prices].
  split; [ reflexivity | ]. split; [ reflexivity | ]. split; [ reflexivity | ].
  split.
  { intros H. apply (f_equal (fun x => PrimFloat.ltb x 1%float)) in H.
    vm_compute in H. discriminate. }
  split; [ reflexivity | ].
  intros H. apply (f_equal (fun x => PrimFloat.eqb x 0x1.3333333333333p-2%float)) in H.
  vm_compute in H. discriminate.
Qed.

Lemma float_overflow_bound_pos : 0 < float_overflow_bound.
Proof. reflexivity. Qed.

(** The levels the code computes, in binary64. *)
Lemma binary64_grid_levels (lo hi : float) (n : Z) :
  2 <= n -> n <= float_overflow_bound ->
  exists step levels,
    grid_step lo hi n = Ok step /\
    step = ((hi - lo) / float_of_Z (n - 1))%float /\
    grid_levels lo step n = Ok levels /\
    Z.of_nat (List.length levels) = n /\
    (forall i, 0 <= i < n ->
       nth (Z.to_nat i) levels 0%float = (lo + float_of_Z i * step)%float).
Proof.
  intros Hn Hbound.
  assert (Hconv : forall i, 0 <= i < n -> f_of_int i = Some (float_of_Z i)).
  { intros i Hi. apply binary64_of_int_small. lia. }
  exists ((hi - lo) / float_of_Z (n - 1))%float.
  destruct (grid_levels_total lo ((hi - lo) / float_of_Z (n - 1))%float n)
    as (levels & Hlevels).
  { intros i Hi. rewrite (Hconv i Hi). discriminate. }
  exists levels. split.
  { apply grid_step_ok. split; [ lia | ].
    exists (float_of_Z (n - 1)). split; [ apply Hconv; lia | reflexivity ]. }
  split; [ reflexivity | ]. split; [ exact Hlevels | ].
  destruct (grid_levels_nth _ _ _ _ 0%float Hlevels) as (Hlen & Hnth).
  split; [ rewrite Hlen; lia | ].
  intros i Hi. destruct (Hnth i Hi) as (fi & Hfi & ->).
  rewrite (Hconv i Hi) in Hfi. injection Hfi as <-. reflexivity.
Qed.

(** The levels the same code computes without rounding. *)
Lemma exact_grid_levels (lo hi : Qc) (n : Z) :
  2 <= n ->
  exists step levels,
    grid_step (num := exact) lo hi n = Ok step /\
    step = ((hi - lo) / Qc_of_int (n - 1))%Qc /\
    grid_levels (num := exact) lo step n = Ok levels /\
    Z.of_nat (List.length levels) = n /\
    (forall i, 0 <= i < n ->
       nth (Z.to_nat i) levels lo = (lo + Qc_of_int i * step)%Qc) /\
    nth 0 levels lo = lo /\
    nth (Z.to_nat (n - 1)) levels lo = hi /\
    (forall i, 0 <= i < n - 1 ->
       (nth (Z.to_nat (i + 1)) levels lo - nth (Z.to_nat i) levels lo)%Qc = step).
Proof.
  intros Hn.
  exists ((hi - lo) / Qc_of_int (n - 1))%Qc.
  destruct (grid_levels_total (num := exact) lo ((hi - lo) / Qc_of_int (n - 1))%Qc n)
    as (levels & Hlevels); [ intros i Hi; discriminate | ].
  exists levels. split.
  { apply (grid_step_ok (num := exact)). split; [ lia | ].
    exists (Qc_of_int (n - 1)). split; reflexivity. }
  split; [ reflexivity | ]. split; [ exact Hlevels | ].
  destruct (grid_levels_nth (num := exact) _ _ _ _ lo Hlevels) as (Hlen & Hnth).
  assert (Hat : forall i, 0 <= i < n ->
            nth (Z.to_nat i) levels lo
            = (lo + Qc_of_int i * ((hi - lo) / Qc_of_int (n - 1)))%Qc).
  { intros i Hi. destruct (Hnth i Hi) as (fi & [= <-] & ->). reflexivity. }
  split; [ rewrite Hlen; lia | ]. split; [ exact Hat | ].
  split; [ change 0%nat with (Z.to_nat 0); rewrite (Hat 0 ltac:(lia));
           apply exact_first_level | ].
  split; [ rewrite (Hat (n - 1) ltac:(lia)); apply exact_last_level; lia | ].
  intros i Hi. rewrite (Hat (i + 1) ltac:(lia)), (Hat i ltac:(lia)).
  apply exact_consecutive_levels.
Qed.

(** C1, amended.  For valid bounds and [2 <= num_grids] (and [num_grids - 1]
    small enough to convert to a float) [setup_grid_strategy] builds exactly
    [num_grids] levels, level [i] being the float
    [lower_price + i * ((upper_price - lower_price) / (num_grids - 1))], each
    operation rounded; the first level is [lower_price] when the step is
    finite.  Computed without rounding, the same code gives a first level
    equal to [lower_price], a last level equal to [upper_price], and
    consecutive levels exactly one step apart.  A call that returns has
    [num_grids >= 2] and returns these levels as [grid_prices]. *)
Theorem C1_grid_levels :
  (forall (lo hi : float) (n : Z),
     2 <= n -> n <= float_overflow_bound ->
     exists step levels,
       grid_step lo hi n = Ok step /\
       step = ((hi - lo) / float_of_Z (n - 1))%float /\
       grid_levels lo step n = Ok levels /\
       Z.of_nat (List.length levels) = n /\
       (forall i, 0 <= i < n ->
          nth (Z.to_nat i) levels 0%float = (lo + float_of_Z i * step)%float) /\
       (PrimFloat.leb lo 0 = false -> PrimFloat.ltb lo hi = true ->
        float_is_finite step = true ->
        nth 0 levels 0%float = lo)) /\
  (forall (lo hi : Qc) (n : Z),
     2 <= n ->
     exists step levels,
       grid_step (num := exact) lo hi n = Ok step /\
       step = ((hi - lo) / Qc_of_int (n - 1))%Qc /\
       grid_levels (num := exact) lo step n = Ok levels /\
       Z.of_nat (List.length levels) = n /\
       (forall i, 0 <= i < n ->
          nth (Z.to_nat i) levels lo = (lo + Qc_of_int i * step)%Qc) /\
       nth 0 levels lo = lo /\
       nth (Z.to_nat (n - 1)) levels lo = hi /\
       (forall i, 0 <= i < n - 1 ->
          (nth (Z.to_nat (i + 1)) levels lo - nth (Z.to_nat i) levels lo)%Qc = step)) /\
  (forall (F : Type) (num : FloatOps F) (rt : PyRuntime F) (ex : Exchange F)
          (symbol quantity_per_grid lower_price upper_price num_grids : pyval F)
          (h : history F) (res : grid_result F),
     outcome
       (setup_grid_strategy rt ex symbol quantity_per_grid lower_price upper_price
          num_grids) h = Ok res ->
     exists lo hi n step,
       validate_price rt lower_price "lower price" = Ok lo /\
       validate_price rt upper_price "upper price" = Ok hi /\
       validate_positive_integer rt num_grids "number of grids" = Ok n /\
       f_leb hi lo = false /\
       2 <= n /\
       grid_step lo hi n = Ok step /\
       grid_levels lo step n = Ok (grid_prices res)).
Proof.
  split; [ | split ].
  - intros lo hi n Hn Hbound.
    destruct (binary64_grid_levels lo hi n Hn Hbound)
      as (step & levels & Hstep & Hdef & Hlevels & Hlen & Hnth).
    exists step, levels. repeat (split; [ assumption | ]).
    intros Hpos Hlt Hfin. change 0%nat with (Z.to_nat 0). rewrite (Hnth 0 ltac:(lia)).
    exact (float_first_level lo hi step Hpos Hlt Hfin).
  - exact exact_grid_levels.
  - intros F num rt ex symbol quantity_per_grid lower_price upper_price num_grids h res.
    unfold outcome.
    destruct (setup_grid_strategy rt ex symbol quantity_per_grid lower_price upper_price
                num_grids h) as [r es] eqn:Hrun.
    cbn [fst]. intros ->.
    destruct (setup_grid_strategy_ok rt ex _ _ _ _ _ _ _ _ Hrun)
      as (sym & q & lo & hi & n & step & k & s & ticker &
          (_ & _ & Hlo & Hhi & Hn) & Hle & Hstep & Hlevels & _).
    exists lo, hi, n, step. repeat (split; [ assumption | ]).
    split; [ | auto ].
    apply validate_positive_integer_ok in Hn.
    apply grid_step_ok in Hstep. lia.
Qed.

(** ** C2 and C5: the orders of the grid *)

Section GridPlan.

Context {F : Type} {num : FloatOps F}.


(** A request of the plan comes from a level; the requests before it are
    the plan of the levels before, those after it the plan of the levels
    after. *)
Lemma grid_plan_split (sym : string) (q cur : F) (levels : list F) :
  forall (sent : list (order_request F)) (request : order_request F)
         (rest : list (order_request F)),
  grid_plan sym q cur levels = sent ++ request :: rest ->
  exists l1 level l2,
    levels = l1 ++ level :: l2 /\
    grid_order sym q cur level = Some request /\
    grid_plan sym q cur l1 = sent /\
    grid_plan sym q cur l2 = rest.
Proof.
  induction levels as [ | lv levels IH]; intros sent request rest Hplan.
  - destruct sent; discriminate.
  - simpl in Hplan. destruct (grid_order sym q cur lv) as [request' | ] eqn:E.
    + destruct sent as [ | first sent].
      * injection Hplan as -> Hrest. exists [], lv, levels. auto.
      * injection Hplan as -> Hrest.
        destruct (IH _ _ _ Hrest) as (l1 & level & l2 & -> & Hl & H1 & H2).
        exists (lv :: l1), level, l2. simpl. rewrite E, H1. auto.
    + destruct (IH _ _ _ Hplan) as (l1 & level & l2 & -> & Hl & H1 & H2).
      exists (lv :: l1), level, l2. simpl. rewrite E. auto.
Qed.

Lemma placed_rejected (side : string) (request : order_request F) (e : exn F)
    (es : list (event F)) :
  placed side (EvCreateOrder request (Raise e) :: es) = placed side es.
Proof.
  unfold placed. cbn [submissions filter]. destruct (on_side side (request, Raise e));
    reflexivity.
Qed.

(** The one submission that raised cuts the run in two parts in which no
    submission raised. *)
Lemma rejected_one_split (es : list (event F)) (request : order_request F) (e : exn F) :
  rejected (submissions es) = [(request, e)] ->
  exists before after,
    es = before ++ EvCreateOrder request (Raise e) :: after /\
    rejected (submissions before) = [] /\
    rejected (submissions after) = [].
Proof.
  induction es as [ | ev es IH]; [ discriminate | ]. intros H.
  destruct ev as [ ? ? ? | ? ? | request' [order | e'] | ? | ? ? ? | ? ];
    cbn [submissions rejected] in H;
    try (destruct (IH H) as (before & after & -> & Hb & Ha);
         eexists (_ :: before), after;
         split; [ reflexivity | split; [ exact Hb | exact Ha ] ]).
  injection H as -> -> Hrest. exists [], es. auto.
Qed.

End GridPlan.


(** C5.  Take a call of [setup_grid_strategy] on valid arguments, whose
    levels are [levels], in which exactly one submission raised, an exchange
    error.  The exchange had given a client and the price, and the call
    returns, with all the levels as [grid_prices].  The rejected request is
    the order of one level; before it the orders of the levels before were
    sent, after it those of all the levels after, and none of them raised;
    [buy_orders] and [sell_orders] hold every order placed, those before the
    rejected submission followed by those after it. *)
Theorem C5_one_rejected_level
    (rt : PyRuntime float) (ex : Exchange float)
    (symbol quantity_per_grid lower_price upper_price num_grids : pyval float)
    (sym : string) (q lo hi : float) (n : Z) (step : float) (levels : list float)
    (h : history float) (request : order_request float) (e : exn float) :
  let call :=
    setup_grid_strategy rt ex symbol quantity_per_grid lower_price upper_price num_grids in
  let h0 := h ++ grid_banner sym q lo hi n step in
  grid_inputs rt symbol quantity_per_grid lower_price upper_price num_grids sym q lo hi n ->
  PrimFloat.ltb lo hi = true ->
  n < float_overflow_bound ->
  grid_step lo hi n = Ok step ->
  grid_levels lo step n = Ok levels ->
  rejected (submissions (effects call h)) = [(request, e)] ->
  is_binance e = true ->
  exists es0 ticker price res,
    get_binance_client ex h0 = (Ok tt, es0) /\
    futures_symbol_ticker ex (h0 ++ es0) sym = Ok ticker /\
    ticker_price rt ticker = Ok price /\
    outcome call h = Ok res /\
    grid_prices res = levels /\
    current_price res = price /\
    requests (effects call h) = grid_plan sym q price levels /\
    buy_orders res = placed "BUY" (effects call h) /\
    sell_orders res = placed "SELL" (effects call h) /\
    exists before after l1 level l2,
      effects call h = before ++ EvCreateOrder request (Raise e) :: after /\
      levels = l1 ++ level :: l2 /\
      grid_order sym q price level = Some request /\
      requests before = grid_plan sym q price l1 /\
      requests after = grid_plan sym q price l2 /\
      rejected (submissions before) = [] /\
      rejected (submissions after) = [] /\
      buy_orders res = placed "BUY" before ++ placed "BUY" after /\
      sell_orders res = placed "SELL" before ++ placed "SELL" after.
Proof.
  intros call h0 Hin Hlt Hn Hstep Hlevels Hrej Hbin.
  assert (Hle : f_leb hi lo = false) by exact (float_ltb_not_leb _ _ Hlt).
  assert (Hconv : f_of_int n <> None).
  { destruct Hin as (_ & _ & _ & _ & Hnn). apply validate_positive_integer_ok in Hnn.
    cbn [f_of_int binary64]. rewrite binary64_of_int_small by lia. discriminate. }
  assert (Hsome : submissions (effects call h) <> []).
  { intros Hnil. rewrite Hnil in Hrej. discriminate. }
  destruct (grid_call_reached_loop rt ex _ _ _ _ _ _ _ _ _ _ _ _
              Hin Hle Hstep Hlevels Hconv h Hsome)
    as (es0 & ticker & price & Hc & Ht & Hp).
  destruct (grid_call_priced rt ex _ _ _ _ _ _ _ _ _ _ _ _ Hin Hle Hstep Hlevels Hconv
              h es0 ticker price Hc Ht Hp)
    as (_ & _ & Hret & _ & _).
  fold call in Hret.
  assert (Hall : exchange_errors_only (submissions (effects call h)) = true).
  { unfold exchange_errors_only. rewrite Hrej. cbn. now rewrite Hbin. }
  destruct (Hret Hall) as (res & Hres & Hgp & Hcp & Hreq & Hb & Hs).
  exists es0, ticker, price, res. repeat (split; [ assumption | ]).
  destruct (rejected_one_split _ _ _ Hrej) as (before & after & Hcut & Hrb & Hra).
  assert (Hplan : grid_plan sym q price levels
                  = requests before ++ request :: requests after).
  { rewrite <- Hreq, Hcut, requests_app. reflexivity. }
  destruct (grid_plan_split _ _ _ _ _ _ _ Hplan) as (l1 & level & l2 & Hl & Ho & H1 & H2).
  exists before, after, l1, level, l2.
  repeat (split; [ solve [ auto ] | ]).
  rewrite Hb, Hs, Hcut, !placed_app, !placed_rejected. auto.
Qed.

(** ** C6: the two orders of an OCO *)

(** C6.  [place_oco_order] on valid arguments closes on the side opposite
    to the validated [side].  When the client cannot be built it raises that
    error and submits nothing.  Otherwise it first submits a TAKE_PROFIT
    reduce-only GTC order on the closing side for [quantity], whose limit
    price and trigger are both [price].  When that submission raises, the
    call raises the same error and the take-profit is its only submission:
    the stop order is never attempted.  When it is accepted, the call next
    submits a STOP reduce-only GTC order on the same side for the same
    quantity, with trigger [stop_price] and limit [stop_limit_price]; it
    raises the error of that submission, or returns the two replies. *)
Theorem C6_oco_pairing
    (F : Type) (num : FloatOps F) (rt : PyRuntime F) (ex : Exchange F)
    (symbol side quantity price stop_price stop_limit_price : pyval F)
    (sym sd : string) (q p sp slp : F) (h : history F) :
  oco_inputs rt symbol side quantity price stop_price stop_limit_price sym sd q p sp slp ->
  let call := place_oco_order rt ex symbol side quantity price stop_price stop_limit_price in
  let h0 := h ++ oco_banner sym sd q p sp slp in
  let close_side := close_side_of sd in
  let tp :=
    {| o_symbol := sym; o_side := close_side; o_type := "TAKE_PROFIT";
       o_timeInForce := Some "GTC"; o_quantity := q;
       o_price := Some p; o_stopPrice := Some p; o_reduceOnly := Some "true" |} in
  let sl :=
    {| o_symbol := sym; o_side := close_side; o_type := "STOP";
       o_timeInForce := Some "GTC"; o_quantity := q;
       o_price := Some slp; o_stopPrice := Some sp; o_reduceOnly := Some "true" |} in
  (sd = "BUY" /\ close_side = "SELL" \/ sd = "SELL" /\ close_side = "BUY") /\
  (forall e es0,
     get_binance_client ex h0 = (Raise e, es0) ->
     outcome call h = Raise e /\ submissions (effects call h) = []) /\
  (forall es0,
     get_binance_client ex h0 = (Ok tt, es0) ->
     (forall e,
        futures_create_order ex (h0 ++ es0) tp = Raise e ->
        outcome call h = Raise e /\
        submissions (effects call h) = [(tp, Raise e)]) /\
     (forall order1,
        futures_create_order ex (h0 ++ es0) tp = Ok order1 ->
        let h2 := (h0 ++ es0) ++ [EvCreateOrder tp (Ok order1); take_profit_line order1] in
        (forall e,
           futures_create_order ex h2 sl = Raise e ->
           outcome call h = Raise e /\
           submissions (effects call h) = [(tp, Ok order1); (sl, Raise e)]) /\
        (forall order2,
           futures_create_order ex h2 sl = Ok order2 ->
           outcome call h = Ok {| take_profit := order1; stop_loss := order2 |} /\
           submissions (effects call h) = [(tp, Ok order1); (sl, Ok order2)]))).
Proof.
  intros Hin call h0 close_side tp sl.
  split.
  { destruct Hin as (_ & Hsd & _). apply validate_side_ok in Hsd.
    destruct Hsd as [-> | ->]; [ left | right ]; split; reflexivity. }
  split.
  { intros e es0 Hc.
    destruct (oco_call_no_client rt ex _ _ _ _ _ _ _ _ _ _ _ _ Hin h e es0 Hc)
      as (Hout & Hsub & _).
    auto. }
  intros es0 Hc. split.
  { intros e H1.
    destruct (oco_call_take_profit_refused rt ex _ _ _ _ _ _ _ _ _ _ _ _ Hin h es0 e Hc H1)
      as (Hout & Hsub & _).
    auto. }
  intros order1 H1 h2. split.
  - intros e H2.
    destruct (oco_call_stop_refused rt ex _ _ _ _ _ _ _ _ _ _ _ _ Hin h es0 order1 e
                Hc H1 H2) as (Hout & Hsub & _).
    auto.
  - intros order2 H2.
    exact (oco_call_both_placed rt ex _ _ _ _ _ _ _ _ _ _ _ _ Hin h es0 order1 order2
             Hc H1 H2).
Qed.

(** ** C3 and C9: TWAP slices and pauses *)

(** C3 is not what the code does.  On
    [execute_twap("BTCUSDT", "BUY", 0.5, 2, 30)], when the exchange rejects
    the first slice with an exchange error and fills the second, the two
    slices of 0.25 are submitted one right after the other: the sleep that
    the code's own comment places before every order but the last is
    skipped, because it sits inside the [try:] after the submission.  The
    call returns the one order filled.  When the exchange fills both slices
    the same call does pause 30 seconds between them. *)
Theorem C3_no_pause_after_rejected_slice :
  let call :=
    execute_twap ascii_runtime
      (scripted_exchange (price_ticker 45000%float)
         [Raise insufficient_margin; order_reply 2])
      (PyStr "BTCUSDT") (PyStr "BUY") (PyFloat 0.5%float) (PyInt 2) (PyInt 30) in
  let filled_call :=
    execute_twap ascii_runtime
      (scripted_exchange (price_ticker 45000%float) [order_reply 1; order_reply 2])
      (PyStr "BTCUSDT") (PyStr "BUY") (PyFloat 0.5%float) (PyInt 2) (PyInt 30) in
  let slice := market_order "BTCUSDT" "BUY" 0.25%float in
  outcome call [] = Ok [[("orderId", PyInt 2); ("status", PyStr "NEW")]] /\
  is_binance insufficient_margin = true /\
  submissions (effects call [])
    = [(slice, Raise insufficient_margin);
       (slice, Ok [("orderId", PyInt 2); ("status", PyStr "NEW")])] /\
  schedule (effects call []) = [Submit slice; Submit slice] /\
  paced slice 30 2 = [Submit slice; Pause 30; Submit slice] /\
  schedule (effects call []) <> paced slice 30 2 /\
  schedule (effects filled_call []) = paced slice 30 2.
Proof.
  cbv zeta.
  split; [ vm_compute; reflexivity | ].
  split; [ reflexivity | ].
  split; [ vm_compute; reflexivity | ].
  split; [ vm_compute; reflexivity | ].
  split; [ reflexivity | ].
  split; [ intros H; vm_compute in H; discriminate | ].
  vm_compute. reflexivity.
Qed.

(** C9.  In an iteration of the TWAP loop whose submission raises an
    exchange error, last iteration or not, the error is logged and the
    iteration ends without a pause: the next slice follows at once.  And in
    every call of [execute_twap], whatever the exchange answers, what comes
    before a pause, back to the latest submission or pause, is a submission
    that succeeded. *)
Theorem C9_no_pause_after_rejected_slice :
  (forall (F : Type) (num : FloatOps F) (ex : Exchange F)
          (symbol side : string) (quantity_per_order : F)
          (num_orders interval_seconds i : Z) (executed : list (dict F))
          (h : history F) (e : exn F),
     futures_create_order ex h (market_order symbol side quantity_per_order) = Raise e ->
     is_binance e = true ->
     exists logs,
       execute_slice ex symbol side quantity_per_order num_orders interval_seconds
         i executed h
       = (Ok executed,
          EvCreateOrder (market_order symbol side quantity_per_order) (Raise e) :: logs) /\
       forallb is_output logs = true /\
       filter is_sleep logs = []) /\
  (forall (F : Type) (num : FloatOps F) (rt : PyRuntime F) (ex : Exchange F)
          (symbol side total_quantity num_orders interval_seconds : pyval F)
          (h : history F) (before after : list (event F)) (seconds : Z),
     effects (execute_twap rt ex symbol side total_quantity num_orders interval_seconds) h
       = before ++ EvSleep seconds :: after ->
     exists earlier request order logs,
       before = earlier ++ EvCreateOrder request (Ok order) :: logs /\
       schedule logs = []).
Proof.
  split.
  - intros F num ex symbol side quantity_per_order num_orders interval_seconds i
      executed h e Hreply Hbin.
    pose proof (execute_slice_iteration ex symbol side quantity_per_order num_orders
                  interval_seconds i executed h) as Hit.
    destruct (execute_slice ex symbol side quantity_per_order num_orders
                interval_seconds i executed h) as [r es]. cbn [fst snd] in Hit.
    inversion Hit as
      [ order logs Hr | order logs e0 Hr | order logs Hr
      | e' logs Hr Hb Hlogs Hlogged | e' Hr Hb ];
      subst; try congruence.
    assert (e' = e) by congruence. subst e'.
    exists logs. split; [ reflexivity | ]. split; [ exact Hlogs | ].
    clear - Hlogs. induction logs as [ | ev logs IH]; [ reflexivity | ].
    simpl in Hlogs. apply andb_true_iff in Hlogs. destruct Hlogs as [Hev Hlogs].
    destruct ev; try discriminate; simpl; auto.
  - intros F num rt ex symbol side total_quantity num_orders interval_seconds h
      before after seconds Hes.
    pose proof (execute_twap_pauses rt ex symbol side total_quantity num_orders
                  interval_seconds h) as Hp.
    destruct (pauses_follow_success_spec _ _ Hp _ _ _ Hes)
      as [(Hf & _) | Hfound]; [ discriminate | exact Hfound ].
Qed.

(** ** C4: which errors a loop swallows *)


Section Swallowed.

Context {F : Type} {num : FloatOps F}.
Variable rt : PyRuntime F.
Variable ex : Exchange F.




End Swallowed.



(** ** C7: a grid of one level *)

(** With [num_grids = 1] valid arguments take the call past validation to
    the step, whose divisor is [num_grids - 1 = 0]. *)
Lemma grid_of_one_level {F : Type} {num : FloatOps F} (rt : PyRuntime F) (ex : Exchange F)
    (symbol quantity_per_grid lower_price upper_price num_grids : pyval F)
    (sym : string) (q lo hi : F) (h : history F) :
  grid_inputs rt symbol quantity_per_grid lower_price upper_price num_grids sym q lo hi 1 ->
  f_leb hi lo = false ->
  f_of_int 0 <> None ->
  setup_grid_strategy rt ex symbol quantity_per_grid lower_price upper_price num_grids h
    = (Raise ZeroDivisionError, []).
Proof.
  intros (Hs & Hq & Hlo & Hhi & Hn) Hle Hzero.
  unfold setup_grid_strategy.
  rewrite bind_run, lift_run, Hs.
  rewrite bind_run, lift_run, Hq.
  rewrite bind_run, lift_run, Hlo.
  rewrite bind_run, lift_run, Hhi.
  rewrite bind_run, lift_run, Hn.
  rewrite Hle.
  rewrite bind_run, lift_run.
  unfold grid_step, py_truediv_int, py_float_of_int. cbn [Z.sub Z.add Z.opp Z.pos_sub].
  destruct (f_of_int 0); [ reflexivity | contradiction ].
Qed.

(** C7 is not what the code does: on
    [setup_grid_strategy("BTCUSDT", 0.25, 43000, 47000, 1)], whatever the
    exchange, validation accepts [num_grids = 1] and the call raises
    [ZeroDivisionError], which is no [ValidationError]; nothing was sent or
    logged before.  The same holds of the command line's strings.  Only
    [num_grids <= 0] is refused with a [ValidationError]. *)
Theorem C7_one_level_divides_by_zero (ex : Exchange float) (h : history float) :
  setup_grid_strategy ascii_runtime ex
    (PyStr "BTCUSDT") (PyFloat 0.25%float) (PyFloat 43000%float) (PyFloat 47000%float)
    (PyInt 1) h
  = (Raise ZeroDivisionError, []) /\
  setup_grid_strategy ascii_runtime ex
    (PyStr "BTCUSDT") (PyStr "1") (PyStr "43000") (PyStr "47000") (PyStr "1") h
  = (Raise ZeroDivisionError, []) /\
  is_validation_error (@ZeroDivisionError float) = false /\
  setup_grid_strategy ascii_runtime ex
    (PyStr "BTCUSDT") (PyFloat 0.25%float) (PyFloat 43000%float) (PyFloat 47000%float)
    (PyInt 0) h
  = (Raise (ValidationError (IntegerNotPositive "number of grids" 0)), []).
Proof.
  split; [ | split; [ | split ] ].
  - apply (grid_of_one_level ascii_runtime ex _ _ _ _ _
             "BTCUSDT" 0.25%float 43000%float 47000%float h);
      [ repeat split; reflexivity | reflexivity | discriminate ].
  - apply (grid_of_one_level ascii_runtime ex _ _ _ _ _
             "BTCUSDT" 1%float 43000%float 47000%float h);
      [ repeat split; vm_compute; reflexivity | reflexivity | discriminate ].
  - reflexivity.
  - reflexivity.
Qed.

(** ** The theorems at concrete runs *)

(** C1 at [lower_price = 43000], [upper_price = 47000], [num_grids = 3]:
    the levels are [43000, 45000, 47000], in binary64 as without rounding. *)
Lemma C1_grid_levels_witness :
  (exists step levels,
     grid_step 43000%float 47000%float 3 = Ok step /\
     step = ((47000 - 43000) / float_of_Z (3 - 1))%float /\
     grid_levels 43000%float step 3 = Ok levels /\
     Z.of_nat (List.length levels) = 3 /\
     (forall i, 0 <= i < 3 ->
        nth (Z.to_nat i) levels 0%float = (43000 + float_of_Z i * step)%float) /\
     (PrimFloat.leb 43000 0 = false -> PrimFloat.ltb 43000 47000 = true ->
      float_is_finite step = true ->
      nth 0 levels 0%float = 43000%float)) /\
  grid_levels 43000%float 2000%float 3 = Ok [43000%float; 45000%float; 47000%float].
Proof.
  split; [ | reflexivity ].
  apply (proj1 C1_grid_levels 43000%float 47000%float 3);
    [ discriminate | vm_compute; discriminate ].
Defined.

(** C9 on the first of two slices, rejected by the exchange: the iteration
    ends with the error logged and printed, and no pause. *)
Lemma C9_no_pause_after_rejected_slice_witness :
  let ex :=
    scripted_exchange (price_ticker 45000%float)
      [Raise insufficient_margin; order_reply 2] in
  let slice := market_order "BTCUSDT" "BUY" 0.25%float in
  futures_create_order ex [] slice = Raise insufficient_margin /\
  is_binance insufficient_margin = true /\
  exists logs,
    execute_slice ex "BTCUSDT" "BUY" 0.25%float 2 30 0 [] []
      = (Ok [], EvCreateOrder slice (Raise insufficient_margin) :: logs) /\
    forallb is_output logs = true /\
    filter is_sleep logs = [].
Proof.
  cbv zeta. split; [ reflexivity | ]. split; [ reflexivity | ].
  apply (proj1 C9_no_pause_after_rejected_slice float binary64
           (scripted_exchange (price_ticker 45000%float)
              [Raise insufficient_margin; order_reply 2])
           "BTCUSDT" "BUY" 0.25%float 2 30 0 [] [] insufficient_margin);
    reflexivity.
Defined.


(** C5 on five levels around 45000 of which the exchange rejects the second
    order (the BUY at 44000): the call returns the BUY at 43000 and the two
    SELLs, sent after the rejection. *)
Lemma C5_one_rejected_level_witness :
  let ex :=
    scripted_exchange (price_ticker 45000%float)
      [order_reply 1; Raise insufficient_margin; order_reply 3; order_reply 4] in
  let call :=
    setup_grid_strategy ascii_runtime ex
      (PyStr "BTCUSDT") (PyFloat 0.25%float) (PyFloat 43000%float) (PyFloat 47000%float)
      (PyInt 5) in
  let h0 := [] ++ grid_banner "BTCUSDT" 0.25%float 43000%float 47000%float 5 1000%float in
  let levels := [43000%float; 44000%float; 45000%float; 46000%float; 47000%float] in
  let request := limit_order "BTCUSDT" "BUY" 0.25%float 44000%float in
  grid_levels 43000%float 1000%float 5 = Ok levels /\
  rejected (submissions (effects call [])) = [(request, insufficient_margin)] /\
  exists es0 ticker price res,
    get_binance_client ex h0 = (Ok tt, es0) /\
    futures_symbol_ticker ex (h0 ++ es0) "BTCUSDT" = Ok ticker /\
    ticker_price ascii_runtime ticker = Ok price /\
    outcome call [] = Ok res /\
    grid_prices res = levels /\
    current_price res = price /\
    requests (effects call []) = grid_plan "BTCUSDT" 0.25%float price levels /\
    buy_orders res = placed "BUY" (effects call []) /\
    sell_orders res = placed "SELL" (effects call []) /\
    exists before after l1 level l2,
      effects call [] = before ++ EvCreateOrder request (Raise insufficient_margin) :: after /\
      levels = l1 ++ level :: l2 /\
      grid_order "BTCUSDT" 0.25%float price level = Some request /\
      requests before = grid_plan "BTCUSDT" 0.25%float price l1 /\
      requests after = grid_plan "BTCUSDT" 0.25%float price l2 /\
      rejected (submissions before) = [] /\
      rejected (submissions after) = [] /\
      buy_orders res = placed "BUY" before ++ placed "BUY" after /\
      sell_orders res = placed "SELL" before ++ placed "SELL" after.
Proof.
  cbv zeta.
  split; [ vm_compute; reflexivity | ]. split; [ vm_compute; reflexivity | ].
  refine
    (C5_one_rejected_level ascii_runtime
       (scripted_exchange (price_ticker 45000%float)
          [order_reply 1; Raise insufficient_margin; order_reply 3; order_reply 4])
       (PyStr "BTCUSDT") (PyFloat 0.25%float) (PyFloat 43000%float) (PyFloat 47000%float)
       (PyInt 5)
       "BTCUSDT" 0.25%float 43000%float 47000%float 5 1000%float
       [43000%float; 44000%float; 45000%float; 46000%float; 47000%float] []
       (limit_order "BTCUSDT" "BUY" 0.25%float 44000%float) insufficient_margin
       _ _ _ _ _ _ _).
  - repeat split; vm_compute; reflexivity.
  - vm_compute; reflexivity.
  - vm_compute; reflexivity.
  - vm_compute; reflexivity.
  - vm_compute; reflexivity.
  - vm_compute; reflexivity.
  - vm_compute; reflexivity.
Defined.

(** C6 on [BTCUSDT buy 0.25 46000 43000 42900]: against an exchange that
    rejects the take-profit order there is one submission, a SELL, and the
    error is raised; against one that accepts both, the take-profit and then
    the stop are submitted and their replies returned. *)
Lemma C6_oco_pairing_witness :
  let refusing :=
    scripted_exchange (price_ticker 45000%float) [Raise insufficient_margin] in
  let filling :=
    scripted_exchange (price_ticker 45000%float) [order_reply 1; order_reply 2] in
  let call ex :=
    place_oco_order ascii_runtime ex
      (PyStr "BTCUSDT") (PyStr "buy") (PyFloat 0.25%float) (PyStr "46000")
      (PyStr "43000") (PyStr "42900") in
  let tp :=
    closing_order "BTCUSDT" "SELL" "TAKE_PROFIT" 0.25%float 46000%float 46000%float in
  let sl := closing_order "BTCUSDT" "SELL" "STOP" 0.25%float 42900%float 43000%float in
  let order1 := [("orderId", PyInt 1); ("status", PyStr "NEW")] in
  let order2 := [("orderId", PyInt 2); ("status", PyStr "NEW")] in
  oco_inputs ascii_runtime
    (PyStr "BTCUSDT") (PyStr "buy") (PyFloat 0.25%float) (PyStr "46000")
    (PyStr "43000") (PyStr "42900")
    "BTCUSDT" "BUY" 0.25%float 46000%float 43000%float 42900%float /\
  (outcome (call refusing) [] = Raise insufficient_margin /\
   submissions (effects (call refusing) []) = [(tp, Raise insufficient_margin)]) /\
  (outcome (call filling) [] = Ok {| take_profit := order1; stop_loss := order2 |} /\
   submissions (effects (call filling) []) = [(tp, Ok order1); (sl, Ok order2)]).
Proof.
  cbv zeta.
  assert (Hin : oco_inputs ascii_runtime
            (PyStr "BTCUSDT") (PyStr "buy") (PyFloat 0.25%float) (PyStr "46000")
            (PyStr "43000") (PyStr "42900")
            "BTCUSDT" "BUY" 0.25%float 46000%float 43000%float 42900%float)
    by (repeat split; vm_compute; reflexivity).
  split; [ exact Hin | ]. split.
  - refine (proj1 (proj2 (proj2
      (C6_oco_pairing float binary64 ascii_runtime
         (scripted_exchange (price_ticker 45000%float) [Raise insufficient_margin])
         _ _ _ _ _ _ _ _ _ _ _ _ [] Hin)) testnet_client _) insufficient_margin _);
      vm_compute; reflexivity.
  - refine (proj2 (proj2 (proj2 (proj2
      (C6_oco_pairing float binary64 ascii_runtime
         (scripted_exchange (price_ticker 45000%float) [order_reply 1; order_reply 2])
         _ _ _ _ _ _ _ _ _ _ _ _ [] Hin)) testnet_client _)
      [("orderId", PyInt 1); ("status", PyStr "NEW")] _)
      [("orderId", PyInt 2); ("status", PyStr "NEW")] _);
      vm_compute; reflexivity.
Defined.

